(** * Poco CAN protocol: wire codec and session dispatch

    A shallow embedding of [poco_can/poco_can_protocol.py] and of the
    dispatch and facade layer of [poco_can/poco_can_interface.py].

    Python integers are unbounded, so they are modelled by [Z]; the
    operators [&], [|], [<<] and [>>] on Python integers agree with
    [Z.land], [Z.lor], [Z.shiftl] and [Z.shiftr] (two's complement on an
    unbounded word, flooring right shift).  A [bytes] or [bytearray]
    value is a list of integers, each in 0..255.  A Python call either
    returns a value or raises; raising is explicit in the [result]
    type. *)

From Stdlib Require Import ZArith Lia List Bool.
From stdpp Require Import base option list gmap.
From coqutil Require Import Z.bitblast.

Local Open Scope Z_scope.

(** ** Exceptions and results *)

Inductive exn : Type :=
| StructError    (* struct.error: value does not fit the format code *)
| ValueError
| TypeError
| IndexError
| RuntimeError
| CanError.      (* can.CanError raised by the transport *)

Inductive result (A : Type) : Type :=
| Ok (a : A)
| Raise (e : exn).

Arguments Ok {A} a.
Arguments Raise {A} e.

#[global] Instance result_ret : MRet result := fun A a => Ok a.
#[global] Instance result_bind : MBind result := fun A B f m =>
  match m with
  | Ok a => f a
  | Raise e => Raise e
  end.

Definition is_ok {A} (r : result A) : bool :=
  match r with Ok _ => true | Raise _ => false end.

(** ** struct.pack *)

Abbreviation bytes := (list Z) (only parsing).

Definition in_range (lo hi v : Z) : bool := (lo <=? v) && (v <=? hi).

(** Format code [B]: one unsigned byte; values outside 0..255 raise. *)
Definition pack_B (v : Z) : result bytes :=
  if in_range 0 255 v then Ok [v] else Raise StructError.

(** Format code [<H]: unsigned 16-bit, little endian. *)
Definition pack_H (v : Z) : result bytes :=
  if in_range 0 65535 v
  then Ok [Z.land v 255; Z.land (Z.shiftr v 8) 255]
  else Raise StructError.

(** Format code [<I]: unsigned 32-bit, little endian. *)
Definition pack_I (v : Z) : result bytes :=
  if in_range 0 4294967295 v
  then Ok [Z.land v 255; Z.land (Z.shiftr v 8) 255;
           Z.land (Z.shiftr v 16) 255; Z.land (Z.shiftr v 24) 255]
  else Raise StructError.

(** A run of [B] codes, as in [struct.pack('BBBBB', ...)]. *)
Fixpoint pack_Bs (vs : list Z) : result bytes :=
  match vs with
  | [] => Ok []
  | v :: rest =>
      b ← pack_B v;
      bs ← pack_Bs rest;
      Ok (b ++ bs)
  end.

(** [struct.unpack('<H', data[0:2])[0]] on a slice of two bytes. *)
Definition unpack_H (data : bytes) : Z :=
  Z.lor (nth 0%nat data 0) (Z.shiftl (nth 1%nat data 0) 8).

(** ** Constants *)

Definition NMEA2K_MANUFACTURER_LUMITEC : Z := 1512.
Definition NMEA2K_INDUSTRY_MARINE : Z := 4.
Definition PGN_PROPRIETARY_SINGLE_FRAME : Z := 61184.
Definition PGN_BINARY_SWITCH_STATUS : Z := 127501.
Definition PGN_BINARY_SWITCH_CONTROL : Z := 127502.

Inductive VSwAction : Type :=
| NO_ACTION | OFF | ON | DIM_DOWN | DIM_UP | T2BD | POCOFX_START
| POCOFX_PAUSE | T2HSB | T2HS | T2B | T2RGB | COLOR_WHITE | COLOR_RED
| COLOR_GREEN | COLOR_BLUE | PLAY_PAUSE | TOGGLE | ON_SCENE_1.

Definition VSwAction_value (a : VSwAction) : Z :=
  match a with
  | NO_ACTION => 0 | OFF => 1 | ON => 2 | DIM_DOWN => 3 | DIM_UP => 4
  | T2BD => 5 | POCOFX_START => 6 | POCOFX_PAUSE => 7 | T2HSB => 8
  | T2HS => 9 | T2B => 10 | T2RGB => 11 | COLOR_WHITE => 20
  | COLOR_RED => 21 | COLOR_GREEN => 22 | COLOR_BLUE => 23
  | PLAY_PAUSE => 31 | TOGGLE => 32 | ON_SCENE_1 => 33
  end.

Inductive ColorType : Type :=
| CT_NONE | CT_HUE_SAT | CT_CCT | CT_FX_ID | CT_COMPLEX | CT_MUTEX
| CT_CUSTOM_PLI | CT_RGB.

Definition ColorType_value (c : ColorType) : Z :=
  match c with
  | CT_NONE => 0 | CT_HUE_SAT => 1 | CT_CCT => 2 | CT_FX_ID => 3
  | CT_COMPLEX => 4 | CT_MUTEX => 5 | CT_CUSTOM_PLI => 6 | CT_RGB => 7
  end.

Inductive ProprietaryID : Type :=
| VSW_SIMPLE_ACTIONS | VSW_STATE | VSW_CUSTOM_HSB | VSW_POCOFX_ID
| VSW_CUSTOM_RGB | VSW_DELTABRIGHT
| OUTPUTCH_STATUS | OUTPUTCH_BIN_ONOFF | OUTPUTCH_PWM_DUTY
| OUTPUTCH_PWM_CONFIG | OUTPUTCH_PLI_RAW | OUTPUTCH_PLI_CONFIG
| OUTPUTCH_PLI_POWER | OUTPUTCH_STATUS_REQUEST
| OUTPUTCH_PLI_T2HSB | OUTPUTCH_PLI_T2RGB | OUTPUTCH_PLI_T2HS
| OUTPUTCH_PLI_T2B | OUTPUTCH_PLI_T2BD | OUTPUTCH_PLI_T2P
| ENUMERATE_REQUEST | ENUMERATE_RESPONSE.

Definition pid_value (p : ProprietaryID) : Z :=
  match p with
  | VSW_SIMPLE_ACTIONS => 1 | VSW_STATE => 2 | VSW_CUSTOM_HSB => 3
  | VSW_POCOFX_ID => 4 | VSW_CUSTOM_RGB => 5 | VSW_DELTABRIGHT => 6
  | OUTPUTCH_STATUS => 32 | OUTPUTCH_BIN_ONOFF => 33
  | OUTPUTCH_PWM_DUTY => 34 | OUTPUTCH_PWM_CONFIG => 35
  | OUTPUTCH_PLI_RAW => 36 | OUTPUTCH_PLI_CONFIG => 37
  | OUTPUTCH_PLI_POWER => 38 | OUTPUTCH_STATUS_REQUEST => 39
  | OUTPUTCH_PLI_T2HSB => 40 | OUTPUTCH_PLI_T2RGB => 41
  | OUTPUTCH_PLI_T2HS => 42 | OUTPUTCH_PLI_T2B => 43
  | OUTPUTCH_PLI_T2BD => 44 | OUTPUTCH_PLI_T2P => 45
  | ENUMERATE_REQUEST => 128 | ENUMERATE_RESPONSE => 129
  end.

Inductive HSBAction : Type := HSB_T2HSB | HSB_T2HS | HSB_T2B.

Definition HSBAction_value (a : HSBAction) : Z :=
  match a with HSB_T2HSB => 8 | HSB_T2HS => 9 | HSB_T2B => 10 end.

(** ** Encoders *)

Definition encode_proprietary_header
    (manufacturer_code industry_code proprietary_id : Z) : result bytes :=
  let proprietary_info :=
    Z.lor (Z.lor (Z.land manufacturer_code 0x7FF) (Z.shiftl 3 11))
          (Z.shiftl (Z.land industry_code 0x07) 13) in
  h ← pack_H proprietary_info;
  p ← pack_B proprietary_id;
  Ok (h ++ p).

Definition lumitec_header (prop_id : ProprietaryID) : result bytes :=
  encode_proprietary_header NMEA2K_MANUFACTURER_LUMITEC
                            NMEA2K_INDUSTRY_MARINE (pid_value prop_id).

Definition _pack_vsw_common (prop_id : ProprietaryID)
    (act_id sw_id byte5 byte6 byte7 : Z) : result bytes :=
  header ← lumitec_header prop_id;
  body ← pack_Bs [act_id; sw_id; byte5; byte6; byte7];
  Ok (header ++ body).

Definition encode_vsw_simple_action (switch_id action_id : Z) : result bytes :=
  _pack_vsw_common VSW_SIMPLE_ACTIONS action_id switch_id 0xFF 0xFF 0xFF.

Definition encode_vsw_hsb (switch_id action hue saturation brightness : Z)
    : result bytes :=
  _pack_vsw_common VSW_CUSTOM_HSB action (Z.land switch_id 0xFF)
    (Z.land hue 0xFF) (Z.land saturation 0xFF) (Z.land brightness 0xFF).

Definition encode_vsw_custom_rgb (switch_id red green blue : Z) : result bytes :=
  _pack_vsw_common VSW_CUSTOM_RGB (VSwAction_value T2RGB)
    (Z.land switch_id 0xFF) (Z.land red 0xFF) (Z.land green 0xFF)
    (Z.land blue 0xFF).

Definition encode_vsw_delta_brightness (switch_id delta : Z) : result bytes :=
  let delta := Z.max (-128) (Z.min 127 delta) in
  _pack_vsw_common VSW_DELTABRIGHT (VSwAction_value T2BD)
    (Z.land switch_id 0xFF) delta 0xFF 0xFF.

Definition encode_vsw_pocofx_start (switch_id pocofx_id : Z) : result bytes :=
  _pack_vsw_common VSW_POCOFX_ID (VSwAction_value POCOFX_START)
    (Z.land switch_id 0xFD) (Z.land pocofx_id 0xFF) 0xFF 0xFF.

Definition encode_outch_binary_channel (channel state : Z) : result bytes :=
  header ← lumitec_header OUTPUTCH_BIN_ONOFF;
  payload ← pack_Bs [channel; state];
  let padding := [0xFF; 0xFF; 0xFF] in
  Ok (header ++ payload ++ padding).

Definition encode_outch_pwm_channel (channel duty_cycle : Z) : result bytes :=
  header ← lumitec_header OUTPUTCH_PWM_DUTY;
  payload ← pack_Bs [channel; duty_cycle];
  let padding := [0xFF; 0xFF; 0xFF] in
  Ok (header ++ payload ++ padding).

Definition encode_outch_pli_raw (channel pli_message : Z) : result bytes :=
  header ← lumitec_header OUTPUTCH_PLI_RAW;
  c ← pack_B channel;
  m ← pack_I pli_message;
  Ok (header ++ (c ++ m)).

Definition _pack_pli_common (prop_id : ProprietaryID)
    (chan clan trans byte6 byte7 : Z) : result bytes :=
  let chan := Z.max 0 (Z.min 4 chan) in
  let clan := Z.max 0 (Z.min 63 clan) in
  let trans := Z.max 0 (Z.min 7 trans) in
  header ← lumitec_header prop_id;
  let byte4_clan := Z.land clan 0x3F in
  let byte5_trans := Z.land trans 0x07 in
  body ← pack_Bs [chan; byte4_clan; byte5_trans; byte6; byte7];
  Ok (header ++ body).

Definition encode_outch_pli_t2hsb
    (channel hue saturation brightness pli_clan transition : Z) : result bytes :=
  let hue := Z.max 0 (Z.min 255 hue) in
  let saturation := Z.max 0 (Z.min 15 saturation) in
  let brightness := Z.max 0 (Z.min 15 brightness) in
  let byte6 := hue in
  let byte7 := Z.lor (Z.land saturation 0x0F)
                     (Z.shiftl (Z.land brightness 0x0F) 4) in
  _pack_pli_common OUTPUTCH_PLI_T2HSB channel pli_clan transition byte6 byte7.

Definition encode_outch_pli_t2rgb
    (channel red green blue pli_clan transition : Z) : result bytes :=
  let red := Z.max 0 (Z.min 31 red) in
  let green := Z.max 0 (Z.min 31 green) in
  let blue := Z.max 0 (Z.min 31 blue) in
  let rgb_packed :=
    Z.lor (Z.lor (Z.land red 0x1F) (Z.shiftl (Z.land green 0x1F) 5))
          (Z.shiftl (Z.land blue 0x1F) 10) in
  let byte6 := Z.land rgb_packed 0xFF in
  let byte7 := Z.land (Z.shiftr rgb_packed 8) 0xFF in
  _pack_pli_common OUTPUTCH_PLI_T2RGB channel pli_clan transition byte6 byte7.

Definition encode_outch_pli_t2hs
    (channel hue saturation pli_clan transition : Z) : result bytes :=
  let hue := Z.max 0 (Z.min 255 hue) in
  let saturation := Z.max 0 (Z.min 15 saturation) in
  let byte6 := Z.land hue 0xFF in
  let byte7 := Z.lor (Z.land saturation 0x0F) (Z.shiftl 0xF 4) in
  _pack_pli_common OUTPUTCH_PLI_T2HS channel pli_clan transition byte6 byte7.

Definition encode_outch_pli_t2b
    (channel brightness pli_clan transition : Z) : result bytes :=
  let brightness := Z.max 0 (Z.min 255 brightness) in
  let byte6 := Z.land brightness 0xFF in
  let byte7 := 0xFF in
  _pack_pli_common OUTPUTCH_PLI_T2B channel pli_clan transition byte6 byte7.

Definition encode_outch_pli_t2bd
    (channel delta pli_clan transition : Z) : result bytes :=
  let delta := Z.max (-127) (Z.min 127 delta) in
  let delta_byte := if 0 <=? delta then Z.land delta 0xFF else 256 + delta in
  let byte6 := Z.land delta_byte 0xFF in
  let byte7 := 0xFF in
  _pack_pli_common OUTPUTCH_PLI_T2BD channel pli_clan transition byte6 byte7.

Definition encode_outch_pli_t2p
    (channel pattern pli_clan transition : Z) : result bytes :=
  let pattern := Z.max 0 (Z.min 253 pattern) in
  let byte6 := Z.land pattern 0xFD in
  let byte7 := 0xFF in
  _pack_pli_common OUTPUTCH_PLI_T2P channel pli_clan transition byte6 byte7.

Definition encode_outch_status_request (channel : Z) : result bytes :=
  header ← lumitec_header OUTPUTCH_STATUS_REQUEST;
  let channel := Z.max 0 (Z.min 4 channel) in
  body ← pack_Bs [channel; 0; 0; 0; 0];
  Ok (header ++ body).

Definition encode_enumerate_request : result bytes :=
  header ← lumitec_header ENUMERATE_REQUEST;
  payload ← pack_B 0;
  let padding := [0xFF; 0xFF; 0xFF; 0xFF] in
  Ok (header ++ payload ++ padding).

Definition encode_vsw_state_query (switch_id : Z) : result bytes :=
  encode_vsw_simple_action switch_id (VSwAction_value NO_ACTION).

(** ** Binary switch bank control (PGN 127502) *)

(** [data[i]] on a list or bytearray: IndexError outside the bounds. *)
Definition list_get (l : list Z) (i : nat) : result Z :=
  match l !! i with
  | Some v => Ok v
  | None => Raise IndexError
  end.

(** [data[i] = v] on a bytearray: the value must be a byte. *)
Definition bytearray_set (data : bytes) (i : nat) (v : Z) : result bytes :=
  if in_range 0 255 v
  then if (i <? length data)%nat then Ok (<[i:=v]> data) else Raise IndexError
  else Raise ValueError.

(** A [for] loop over a range whose body may raise. *)
Fixpoint for_range {A : Type} (body : A -> nat -> result A) (a : A)
    (indices : list nat) : result A :=
  match indices with
  | [] => Ok a
  | i :: rest => a' ← body a i; for_range body a' rest
  end.

(** The loop body of [encode_binary_switch_control]. *)
Definition pack_switch (switch_states : list Z) (data : bytes) (i : nat)
    : result bytes :=
  let byte_idx := (1 + i / 4)%nat in
  let bit_offset := Z.of_nat ((i mod 4) * 2) in
  s ← list_get switch_states i;
  let state := Z.land s 0x03 in
  old ← list_get data byte_idx;
  bytearray_set data byte_idx (Z.lor old (Z.shiftl state bit_offset)).

Definition encode_binary_switch_control (bank : Z) (switch_states : list Z)
    : result bytes :=
  let data := replicate 8 0 in
  data ← bytearray_set data 0 (Z.land bank 0xFF);
  for_range (pack_switch switch_states) data
            (seq 0 (Nat.min 28 (length switch_states))).

(** The 2-bit field of switch [i] in a PGN 127501/127502 payload. *)
Definition switch_field (data : bytes) (i : nat) : Z :=
  Z.land (Z.shiftr (nth (1 + i / 4)%nat data 0) (Z.of_nat ((i mod 4) * 2))) 0x03.

(** ** Decoders *)

Record SwitchState : Type := mkSwitchState {
  switch_id : Z;
  is_on : bool;
  color_type : Z;
  color_data_0 : Z;
  color_data_1 : Z;
  brightness : Z;
  last_updated : Z;
  hue : Z;
  saturation : Z;
  pocofx_id : Z;
  cct_kelvin : Z;
  mutex_index : Z
}.

(** [SwitchState.__init__]. *)
Definition SwitchState_init : SwitchState :=
  {| switch_id := 0; is_on := false; color_type := ColorType_value CT_NONE;
     color_data_0 := 0; color_data_1 := 0; brightness := 255;
     last_updated := 0; hue := 0; saturation := 255; pocofx_id := 0;
     cct_kelvin := 0; mutex_index := 0 |}.

Definition byte_at (data : bytes) (i : nat) : Z := nth i data 0.

(** The header test of [decode_vsw_state_response], for a given PID. *)
Definition header_manufacturer (data : bytes) : Z :=
  Z.land (unpack_H (take 2 data)) 0x7FF.

Definition header_industry (data : bytes) : Z :=
  Z.land (Z.shiftr (unpack_H (take 2 data)) 13) 0x07.

Definition header_matches (p : ProprietaryID) (data : bytes) : bool :=
  (header_manufacturer data =? NMEA2K_MANUFACTURER_LUMITEC)
  && (header_industry data =? NMEA2K_INDUSTRY_MARINE)
  && (byte_at data 2 =? pid_value p).

(** The clock reading [time.time()] is an input, [now]. *)
Definition decode_vsw_state_response (now : Z) (data : bytes)
    : option SwitchState :=
  if (length data <? 8)%nat then None
  else
    let manufacturer := header_manufacturer data in
    let industry := header_industry data in
    let pid := byte_at data 2 in
    if negb (manufacturer =? NMEA2K_MANUFACTURER_LUMITEC)
       || negb (industry =? NMEA2K_INDUSTRY_MARINE)
       || negb (pid =? pid_value VSW_STATE)
    then None
    else
      let status_and_type := byte_at data 4 in
      let status_flags := Z.land status_and_type 0x0F in
      let ct := Z.land (Z.shiftr status_and_type 4) 0x0F in
      let d0 := byte_at data 5 in
      let d1 := byte_at data 6 in
      Some {| switch_id := byte_at data 3;
              is_on := negb (Z.land status_flags 0x01 =? 0);
              color_type := ct;
              color_data_0 := d0;
              color_data_1 := d1;
              brightness := byte_at data 7;
              last_updated := now;
              hue := if ct =? ColorType_value CT_HUE_SAT then d0
                     else hue SwitchState_init;
              saturation := if ct =? ColorType_value CT_HUE_SAT then d1
                            else saturation SwitchState_init;
              pocofx_id := if ct =? ColorType_value CT_FX_ID then d0
                           else pocofx_id SwitchState_init;
              cct_kelvin := if ct =? ColorType_value CT_CCT
                            then Z.lor (Z.shiftl d1 8) d0
                            else cct_kelvin SwitchState_init;
              mutex_index := if ct =? ColorType_value CT_MUTEX then d0
                             else mutex_index SwitchState_init |}.

Record ChannelStatus : Type := mkChannelStatus {
  cs_channel : Z;
  cs_mode : Z;
  cs_output_level : Z;
  cs_input_voltage_mv : Z;
  cs_current_ma : Z;
  cs_fault_flags : Z
}.

Definition decode_outch_status (data : bytes) : result ChannelStatus :=
  if (length data <? 8)%nat then Raise ValueError
  else
    let channel := byte_at data 3 in
    let mode_and_status := byte_at data 4 in
    let mode := Z.land mode_and_status 0x07 in
    let fault_flags := Z.land mode_and_status 0xF8 in
    let output_level := byte_at data 5 in
    let voltage_units := byte_at data 6 in
    let current_units := byte_at data 7 in
    Ok {| cs_channel := channel;
          cs_mode := mode;
          cs_output_level := output_level;
          cs_input_voltage_mv := voltage_units * 200;
          cs_current_ma := current_units * 100;
          cs_fault_flags := fault_flags |}.

Record DeviceInfo : Type := mkDeviceInfo {
  device_id : Z;
  num_channels : Z;
  protocol_version : Z;
  expander_role : bool
}.

Definition decode_enumerate_response (data : bytes) : option DeviceInfo :=
  if (length data <? 8)%nat then None
  else
    let dev :=
      Z.lor (Z.lor (byte_at data 3) (Z.shiftl (byte_at data 4) 8))
            (Z.shiftl (byte_at data 5) 16) in
    let byte6 := byte_at data 6 in
    let capabilities := byte_at data 7 in
    Some {| device_id := dev;
            num_channels := Z.land (Z.shiftr byte6 4) 0x0F;
            protocol_version := Z.land byte6 0x0F;
            expander_role := negb (Z.land capabilities 0x01 =? 0) |}.

(** ** CAN arbitration ID *)

Definition calculate_pgn_can_id (pgn priority source_addr destination_addr : Z)
    : Z :=
  let pdu_format := Z.land (Z.shiftr pgn 8) 0xFF in
  let pdu_specific := Z.land pgn 0xFF in
  let data_page := Z.land (Z.shiftr pgn 16) 0x01 in
  let ps := if pdu_format <? 240 then destination_addr else pdu_specific in
  let can_id := Z.shiftl (Z.land priority 0x07) 26 in
  let can_id := Z.lor can_id (Z.shiftl (Z.land data_page 0x01) 24) in
  let can_id := Z.lor can_id (Z.shiftl (Z.land pdu_format 0xFF) 16) in
  let can_id := Z.lor can_id (Z.shiftl (Z.land ps 0xFF) 8) in
  let can_id := Z.lor can_id (Z.land source_addr 0xFF) in
  Z.lor can_id 0x80000000.

Definition create_enumerate_request_message (src_addr dest_addr : Z)
    : result (Z * bytes) :=
  let can_id := calculate_pgn_can_id PGN_PROPRIETARY_SINGLE_FRAME 6
                                     src_addr dest_addr in
  data ← encode_enumerate_request;
  Ok (can_id, data).

Definition create_vsw_turn_on_message
    (switch_id source_addr destination_addr priority : Z) : result (Z * bytes) :=
  let can_id := calculate_pgn_can_id PGN_PROPRIETARY_SINGLE_FRAME priority
                                     source_addr destination_addr in
  data ← encode_vsw_simple_action switch_id (VSwAction_value ON);
  Ok (can_id, data).

Definition create_vsw_turn_off_message
    (switch_id source_addr destination_addr priority : Z) : result (Z * bytes) :=
  let can_id := calculate_pgn_can_id PGN_PROPRIETARY_SINGLE_FRAME priority
                                     source_addr destination_addr in
  data ← encode_vsw_simple_action switch_id (VSwAction_value OFF);
  Ok (can_id, data).

(** ** Session state *)

Record Message : Type := mkMessage {
  arbitration_id : Z;
  data : bytes
}.

(** The transport: [tx_ok] tells whether [bus.send] succeeds, [sent] is
    the list of frames handed to the bus, oldest first. *)
Record Bus : Type := mkBus {
  tx_ok : bool;
  sent : list Message
}.

(** Observers are opaque callables, identified by a number.  An
    exception raised by an observer is caught at its call site, so the
    dispatcher only needs the record of who was called with what. *)
Definition callback := nat.

Inductive Notification : Type :=
| EnumerationCb (cb : callback) (can_addr : Z) (info : DeviceInfo)
| StateCb (cb : callback) (sw : Z) (st : SwitchState)
| ChannelStatusCb (cb : callback)
    (channel mode output_level input_voltage_mv current_ma : Z)
| BinaryCb (cb : callback) (bank : Z) (states : list Z).

(** The entry [{'can_address': src_addr, **device_info}]. *)
Record DeviceEntry : Type := mkDeviceEntry {
  can_address : Z;
  entry_device_id : Z;
  entry_num_channels : Z;
  entry_protocol_version : Z;
  entry_expander_role : bool
}.

Definition device_entry (src_addr : Z) (info : DeviceInfo) : DeviceEntry :=
  {| can_address := src_addr;
     entry_device_id := device_id info;
     entry_num_channels := num_channels info;
     entry_protocol_version := protocol_version info;
     entry_expander_role := expander_role info |}.

(** The subclass of the session together with the attributes that
    subclass adds in its [__init__]. *)
Inductive Facade : Type :=
| FacadeBase
| FacadeLevel0 (channel_status_callbacks : list callback)
| FacadeLevel1 (binary_callbacks : list callback)
               (binary_switch_states : gmap Z (list Z))
| FacadeLevel2.

Record Session : Type := mkSession {
  poco_address : Z;
  source_address : Z;
  bus : option Bus;
  switch_states : gmap Z SwitchState;
  state_callbacks : list callback;
  discovered_devices : gmap Z DeviceEntry;
  enumeration_callbacks : list callback;
  facade : Facade
}.

Inductive Level : Type := LevelBase | Level0 | Level1 | Level2.

(** [__init__] of the base class followed by that of the subclass. *)
Definition Session_init (lvl : Level) (poco_addr source_addr : Z) : Session :=
  {| poco_address := poco_addr;
     source_address := source_addr;
     bus := None;
     switch_states := ∅;
     state_callbacks := [];
     discovered_devices := ∅;
     enumeration_callbacks := [];
     facade := match lvl with
               | LevelBase => FacadeBase
               | Level0 => FacadeLevel0 []
               | Level1 => FacadeLevel1 [] ∅
               | Level2 => FacadeLevel2
               end |}.

Definition set_switch_states (s : Session) (m : gmap Z SwitchState) : Session :=
  {| poco_address := poco_address s; source_address := source_address s;
     bus := bus s; switch_states := m; state_callbacks := state_callbacks s;
     discovered_devices := discovered_devices s;
     enumeration_callbacks := enumeration_callbacks s; facade := facade s |}.

Definition set_discovered_devices (s : Session) (m : gmap Z DeviceEntry)
    : Session :=
  {| poco_address := poco_address s; source_address := source_address s;
     bus := bus s; switch_states := switch_states s;
     state_callbacks := state_callbacks s; discovered_devices := m;
     enumeration_callbacks := enumeration_callbacks s; facade := facade s |}.

Definition set_facade (s : Session) (f : Facade) : Session :=
  {| poco_address := poco_address s; source_address := source_address s;
     bus := bus s; switch_states := switch_states s;
     state_callbacks := state_callbacks s;
     discovered_devices := discovered_devices s;
     enumeration_callbacks := enumeration_callbacks s; facade := f |}.

Definition set_bus (s : Session) (b : option Bus) : Session :=
  {| poco_address := poco_address s; source_address := source_address s;
     bus := b; switch_states := switch_states s;
     state_callbacks := state_callbacks s;
     discovered_devices := discovered_devices s;
     enumeration_callbacks := enumeration_callbacks s; facade := facade s |}.

Definition set_enumeration_callbacks (s : Session) (l : list callback)
    : Session :=
  {| poco_address := poco_address s; source_address := source_address s;
     bus := bus s; switch_states := switch_states s;
     state_callbacks := state_callbacks s;
     discovered_devices := discovered_devices s;
     enumeration_callbacks := l; facade := facade s |}.

(** The Level 1 cache, empty for the other subclasses (which have no
    such attribute). *)
Definition binary_switch_states_of (s : Session) : gmap Z (list Z) :=
  match facade s with
  | FacadeLevel1 _ m => m
  | _ => ∅
  end.

Definition add_enumeration_callback (s : Session) (cb : callback) : Session :=
  if bool_decide (cb ∈ enumeration_callbacks s) then s
  else set_enumeration_callbacks s (enumeration_callbacks s ++ [cb]).

Definition add_binary_callback (s : Session) (cb : callback) : Session :=
  match facade s with
  | FacadeLevel1 cbs m =>
      if bool_decide (cb ∈ cbs) then s
      else set_facade s (FacadeLevel1 (cbs ++ [cb]) m)
  | _ => s
  end.

(** ** Inbound dispatch *)

(** [PocoCANInterfaceLevel0._handle_proprietary_message]; the base
    implementation, inherited by the other classes, does nothing. *)
Definition _handle_proprietary_message (s : Session) (pgn : Z) (payload : bytes)
    (src_addr : Z) : list Notification :=
  match facade s with
  | FacadeLevel0 channel_status_callbacks =>
      if (3 <=? length payload)%nat then
        let pid := byte_at payload 2 in
        if pid =? pid_value OUTPUTCH_STATUS then
          match decode_outch_status payload with
          | Ok status =>
              map (fun cb => ChannelStatusCb cb (cs_channel status)
                               (cs_mode status) (cs_output_level status)
                               (cs_input_voltage_mv status)
                               (cs_current_ma status))
                  channel_status_callbacks
          | Raise _ => []
          end
        else []
      else []
  | _ => []
  end.

(** The source-address filter at the head of [_handle_message_impl]:
    [true] when the frame is ignored. *)
Definition filtered_out (s : Session) (pgn src_addr : Z) (payload : bytes)
    : bool :=
  if negb (poco_address s =? 0xFF) && negb (src_addr =? poco_address s) then
    if (pgn =? PGN_PROPRIETARY_SINGLE_FRAME) && (3 <=? length payload)%nat then
      let pid := byte_at payload 2 in
      if negb (pid =? pid_value ENUMERATE_RESPONSE) then true else false
    else true
  else false.

Definition normalized_pgn (msg : Message) : Z :=
  let raw_pgn := Z.land (Z.shiftr (arbitration_id msg) 8) 0x3FFFF in
  let pdu_format := Z.land (Z.shiftr raw_pgn 8) 0xFF in
  if pdu_format <? 240 then Z.land raw_pgn 0xFF00 else raw_pgn.

Definition _handle_message_impl (s : Session) (now : Z) (msg : Message)
    : Session * list Notification :=
  let src_addr := Z.land (arbitration_id msg) 0xFF in
  let pgn := normalized_pgn msg in
  if filtered_out s pgn src_addr (data msg) then (s, [])
  else
    let '(s1, n1) :=
      if (pgn =? PGN_PROPRIETARY_SINGLE_FRAME) && (8 <=? length (data msg))%nat
      then
        let pid := byte_at (data msg) 2 in
        if pid =? pid_value ENUMERATE_RESPONSE then
          match decode_enumerate_response (data msg) with
          | Some device_info =>
              (set_discovered_devices s
                 (<[src_addr := device_entry src_addr device_info]>
                    (discovered_devices s)),
               map (fun cb => EnumerationCb cb src_addr device_info)
                   (enumeration_callbacks s))
          | None => (s, [])
          end
        else if pid =? pid_value VSW_STATE then
          match decode_vsw_state_response now (data msg) with
          | Some state =>
              (set_switch_states s
                 (<[switch_id state := state]> (switch_states s)),
               map (fun cb => StateCb cb (switch_id state) state)
                   (state_callbacks s))
          | None => (s, [])
          end
        else (s, [])
      else (s, []) in
    let n2 :=
      if pgn =? PGN_PROPRIETARY_SINGLE_FRAME
      then _handle_proprietary_message s1 pgn (data msg)
             (Z.land (arbitration_id msg) 0xFF)
      else [] in
    (s1, n1 ++ n2).

(** [PocoCANInterfaceLevel1._decode_binary_status]. *)
Definition decode_binary_states (payload : bytes) : list Z :=
  map (fun i : nat =>
         let byte_idx := (1 + i / 4)%nat in
         if (length payload <=? byte_idx)%nat then 3
         else
           let bit_offset := Z.of_nat ((i mod 4) * 2) in
           Z.land (Z.shiftr (byte_at payload byte_idx) bit_offset) 0x03)
      (seq 0 28).

Definition _decode_binary_status (s : Session) (payload : bytes)
    : Session * list Notification :=
  if (length payload <? 1)%nat then (s, [])
  else
    match facade s with
    | FacadeLevel1 binary_callbacks binary_switch_states =>
        let bank := byte_at payload 0 in
        let states := decode_binary_states payload in
        (set_facade s (FacadeLevel1 binary_callbacks
                         (<[bank := states]> binary_switch_states)),
         map (fun cb => BinaryCb cb bank states) binary_callbacks)
    | _ => (s, [])
    end.

(** [_handle_message], as the listener calls it: the base wrapper for
    every class, and for Level 1 the override that runs the base wrapper
    and then looks at the binary switch status PGN.  No statement of
    [_handle_message_impl] can raise (every index is guarded by a length
    test, every observer call sits in its own [try]), so the wrapper's
    [except] clause is never taken. *)
Definition _handle_message (s : Session) (now : Z) (msg : Message)
    : Session * list Notification :=
  let '(s1, n1) := _handle_message_impl s now msg in
  match facade s1 with
  | FacadeLevel1 _ _ =>
      let pgn := Z.land (Z.shiftr (arbitration_id msg) 8) 0x3FFFF in
      if pgn =? PGN_BINARY_SWITCH_STATUS then
        let '(s2, n2) := _decode_binary_status s1 (data msg) in
        (s2, n1 ++ n2)
      else (s1, n1)
  | _ => (s1, n1)
  end.

(** ** Outbound primitives and facades *)

Definition send_raw (s : Session) (can_id : Z) (payload : bytes) (priority : Z)
    : result Session :=
  match bus s with
  | None => Raise RuntimeError
  | Some b =>
      if tx_ok b
      then Ok (set_bus s (Some {| tx_ok := tx_ok b;
                                  sent := sent b ++ [mkMessage can_id payload] |}))
      else Raise CanError
  end.

Definition send_proprietary (s : Session) (payload : bytes) (priority : Z)
    : result Session :=
  let can_id := calculate_pgn_can_id PGN_PROPRIETARY_SINGLE_FRAME priority
                  (source_address s) (poco_address s) in
  send_raw s can_id payload priority.

(** [PocoCANInterfaceLevel2.delta_brightness]. *)
Definition delta_brightness (s : Session) (switch_id delta : Z) : result Session :=
  if negb (in_range (-128) 127 delta) then Raise ValueError
  else
    payload ← encode_vsw_delta_brightness switch_id delta;
    send_proprietary s payload 3.

(** [PocoCANInterfaceLevel1.send_binary_switch_control(self, bank,
    switch_states)]. *)
Definition send_binary_switch_control (s : Session) (bank : Z)
    (states : list Z) : result Session :=
  let can_id := calculate_pgn_can_id PGN_BINARY_SWITCH_CONTROL 3
                  (source_address s) (poco_address s) in
  payload ← encode_binary_switch_control bank states;
  send_raw s can_id payload 3.

(** Values passed positionally at a call site. *)
Inductive pyval : Type :=
| PyInt (z : Z)
| PyList (l : list Z).

(** A call of [self.send_binary_switch_control] with positional
    arguments [args]: the signature has
    two parameters after [self], and Python raises TypeError when the
    number of positional arguments differs. *)
Definition call_send_binary_switch_control (s : Session) (args : list pyval)
    : result Session :=
  match args with
  | [PyInt bank; PyList states] => send_binary_switch_control s bank states
  | _ => Raise TypeError
  end.

(** The list that [set_switch_bank] builds from the dict, whose items
    are given in iteration order; a value is [True], [False] or [None]. *)
Definition bank_states (switches : list (Z * option bool)) : list Z :=
  foldl (fun acc item =>
           let '(sw, state) := item in
           if in_range 0 27 sw then
             match state with
             | Some true => <[Z.to_nat sw := 1]> acc
             | Some false => <[Z.to_nat sw := 0]> acc
             | None => acc
             end
           else acc)
        (replicate 28 3) switches.

(** [PocoCANInterfaceLevel1.set_switch_bank]. *)
Definition set_switch_bank (s : Session) (bank : Z)
    (switches : list (Z * option bool)) (priority : Z) : result Session :=
  let states := bank_states switches in
  call_send_binary_switch_control s [PyInt bank; PyList states; PyInt priority].

(** ** Remaining codec functions *)

Definition FAULT_FLAG_OVERCURRENT : Z := 0x08.
Definition FAULT_FLAG_UNDERVOLTAGE : Z := 0x10.
Definition FAULT_FLAG_OVERTEMPERATURE : Z := 0x20.
Definition FAULT_FLAG_PLI_FAULT : Z := 0x40.

Record FaultFlags : Type := mkFaultFlags {
  overcurrent : bool;
  undervoltage : bool;
  overtemperature : bool;
  pli_fault : bool
}.

Definition decode_fault_flags (fault_flags : Z) : FaultFlags :=
  {| overcurrent := negb (Z.land fault_flags FAULT_FLAG_OVERCURRENT =? 0);
     undervoltage := negb (Z.land fault_flags FAULT_FLAG_UNDERVOLTAGE =? 0);
     overtemperature :=
       negb (Z.land fault_flags FAULT_FLAG_OVERTEMPERATURE =? 0);
     pli_fault := negb (Z.land fault_flags FAULT_FLAG_PLI_FAULT =? 0) |}.

Definition create_vsw_set_color_message
    (switch_id hue saturation brightness source_addr destination_addr
       priority : Z) : result (Z * bytes) :=
  let can_id := calculate_pgn_can_id PGN_PROPRIETARY_SINGLE_FRAME priority
                                     source_addr destination_addr in
  payload ← encode_vsw_hsb switch_id (HSBAction_value HSB_T2HSB) hue
                           saturation brightness;
  Ok (can_id, payload).

Definition create_vsw_dim_message
    (switch_id : Z) (up : bool) (source_addr destination_addr priority : Z)
    : result (Z * bytes) :=
  let can_id := calculate_pgn_can_id PGN_PROPRIETARY_SINGLE_FRAME priority
                                     source_addr destination_addr in
  let action := if up then VSwAction_value DIM_UP
                else VSwAction_value DIM_DOWN in
  payload ← encode_vsw_simple_action switch_id action;
  Ok (can_id, payload).

(** ** Observer registration and cache access *)

(** [list.remove(x)]: the first occurrence is removed. *)
Fixpoint remove_first (cb : callback) (l : list callback) : list callback :=
  match l with
  | [] => []
  | x :: rest => if bool_decide (x = cb) then rest else x :: remove_first cb rest
  end.

Definition set_state_callbacks (s : Session) (l : list callback) : Session :=
  {| poco_address := poco_address s; source_address := source_address s;
     bus := bus s; switch_states := switch_states s; state_callbacks := l;
     discovered_devices := discovered_devices s;
     enumeration_callbacks := enumeration_callbacks s; facade := facade s |}.

Definition add_state_callback (s : Session) (cb : callback) : Session :=
  if bool_decide (cb ∈ state_callbacks s) then s
  else set_state_callbacks s (state_callbacks s ++ [cb]).

Definition remove_state_callback (s : Session) (cb : callback) : Session :=
  if bool_decide (cb ∈ state_callbacks s)
  then set_state_callbacks s (remove_first cb (state_callbacks s))
  else s.

Definition remove_enumeration_callback (s : Session) (cb : callback)
    : Session :=
  if bool_decide (cb ∈ enumeration_callbacks s)
  then set_enumeration_callbacks s (remove_first cb (enumeration_callbacks s))
  else s.

Definition add_channel_status_callback (s : Session) (cb : callback)
    : Session :=
  match facade s with
  | FacadeLevel0 cbs =>
      if bool_decide (cb ∈ cbs) then s
      else set_facade s (FacadeLevel0 (cbs ++ [cb]))
  | _ => s
  end.

Definition remove_channel_status_callback (s : Session) (cb : callback)
    : Session :=
  match facade s with
  | FacadeLevel0 cbs =>
      if bool_decide (cb ∈ cbs)
      then set_facade s (FacadeLevel0 (remove_first cb cbs))
      else s
  | _ => s
  end.

Definition remove_binary_callback (s : Session) (cb : callback) : Session :=
  match facade s with
  | FacadeLevel1 cbs m =>
      if bool_decide (cb ∈ cbs)
      then set_facade s (FacadeLevel1 (remove_first cb cbs) m)
      else s
  | _ => s
  end.

Definition get_switch_state (s : Session) (sw : Z) : option SwitchState :=
  switch_states s !! sw.

Definition get_discovered_devices (s : Session) : gmap Z DeviceEntry :=
  discovered_devices s.

Definition clear_discovered_devices (s : Session) : Session :=
  set_discovered_devices s ∅.

(** ** Remaining outbound methods *)

Definition send_enumerate_request (s : Session) (priority : Z)
    : result Session :=
  msg ← create_enumerate_request_message (source_address s) 0xFF;
  send_raw s msg.1 msg.2 priority.

(** Level 0. *)

Definition send_pli_raw (s : Session) (channel pli_message priority : Z)
    : result Session :=
  payload ← encode_outch_pli_raw channel pli_message;
  send_proprietary s payload priority.

Definition send_pli_t2hsb (s : Session)
    (channel hue saturation brightness pli_clan transition priority : Z)
    : result Session :=
  payload ← encode_outch_pli_t2hsb channel hue saturation brightness
                                   pli_clan transition;
  send_proprietary s payload priority.

Definition send_pli_t2rgb (s : Session)
    (channel red green blue pli_clan transition priority : Z)
    : result Session :=
  payload ← encode_outch_pli_t2rgb channel red green blue pli_clan transition;
  send_proprietary s payload priority.

Definition send_pli_t2hs (s : Session)
    (channel hue saturation pli_clan transition priority : Z)
    : result Session :=
  payload ← encode_outch_pli_t2hs channel hue saturation pli_clan transition;
  send_proprietary s payload priority.

Definition send_pli_t2b (s : Session)
    (channel brightness pli_clan transition priority : Z) : result Session :=
  payload ← encode_outch_pli_t2b channel brightness pli_clan transition;
  send_proprietary s payload priority.

Definition send_pli_t2bd (s : Session)
    (channel delta pli_clan transition priority : Z) : result Session :=
  payload ← encode_outch_pli_t2bd channel delta pli_clan transition;
  send_proprietary s payload priority.

Definition send_pli_t2p (s : Session)
    (channel pattern pli_clan transition priority : Z) : result Session :=
  payload ← encode_outch_pli_t2p channel pattern pli_clan transition;
  send_proprietary s payload priority.

Definition request_channel_status (s : Session) (channel priority : Z)
    : result Session :=
  payload ← encode_outch_status_request channel;
  send_proprietary s payload priority.

Definition send_vsw_rgb (s : Session) (switch_id red green blue priority : Z)
    : result Session :=
  payload ← encode_vsw_custom_rgb switch_id red green blue;
  send_proprietary s payload priority.

Definition send_pwm_channel (s : Session) (channel duty_cycle priority : Z)
    : result Session :=
  payload ← encode_outch_pwm_channel channel duty_cycle;
  send_proprietary s payload priority.

Definition send_binary_channel (s : Session) (channel : Z) (state : bool)
    (priority : Z) : result Session :=
  payload ← encode_outch_binary_channel channel (if state then 1 else 0);
  send_proprietary s payload priority.

(** Level 1. *)

(** [bytes(list)]: every item must be in range(0, 256). *)
Definition bytes_of_list (l : list Z) : result bytes :=
  if forallb (in_range 0 255) l then Ok l else Raise ValueError.

Definition query_switch_bank (s : Session) (bank priority : Z)
    : result Session :=
  let can_id := calculate_pgn_can_id PGN_BINARY_SWITCH_STATUS priority
                  (source_address s) (poco_address s) in
  payload ← bytes_of_list ([bank] ++ replicate 7 0xFF);
  send_raw s can_id payload priority.

(** Level 2. *)

Definition turn_on (s : Session) (switch_id : Z) : result Session :=
  msg ← create_vsw_turn_on_message switch_id (source_address s)
                                   (poco_address s) 3;
  send_proprietary s msg.2 3.

Definition turn_off (s : Session) (switch_id : Z) : result Session :=
  msg ← create_vsw_turn_off_message switch_id (source_address s)
                                    (poco_address s) 3;
  send_proprietary s msg.2 3.

Definition toggle (s : Session) (switch_id : Z) : result Session :=
  payload ← encode_vsw_simple_action switch_id (VSwAction_value TOGGLE);
  send_proprietary s payload 3.

Definition dim_up (s : Session) (switch_id : Z) : result Session :=
  payload ← encode_vsw_simple_action switch_id (VSwAction_value DIM_UP);
  send_proprietary s payload 3.

Definition dim_down (s : Session) (switch_id : Z) : result Session :=
  payload ← encode_vsw_simple_action switch_id (VSwAction_value DIM_DOWN);
  send_proprietary s payload 3.

Definition set_color (s : Session) (switch_id hue saturation brightness : Z)
    : result Session :=
  payload ← encode_vsw_hsb switch_id (HSBAction_value HSB_T2HSB) hue
                           saturation brightness;
  send_proprietary s payload 3.

Definition start_pocofx (s : Session) (switch_id pocofx_id : Z)
    : result Session :=
  payload ← encode_vsw_pocofx_start switch_id pocofx_id;
  send_proprietary s payload 3.

Definition pause_pocofx (s : Session) (switch_id : Z) : result Session :=
  payload ← encode_vsw_simple_action switch_id (VSwAction_value POCOFX_PAUSE);
  send_proprietary s payload 3.

Definition query_switch_state (s : Session) (switch_id : Z) : result Session :=
  payload ← encode_vsw_state_query switch_id;
  send_proprietary s payload 3.

(** * Vocabulary of the properties *)

(** ** CAN arbitration ID *)

(** The identifier as the specification words it: the fields are shifted
    into place without masking and the extended-frame flag is set. *)
Definition can_id_spec (pgn priority source destination : Z) : Z :=
  let pdu_format := Z.land (Z.shiftr pgn 8) 0xFF in
  let data_page := Z.land (Z.shiftr pgn 16) 0x01 in
  let ps := if pdu_format <? 240 then destination else Z.land pgn 0xFF in
  Z.lor
    (Z.lor (Z.lor (Z.lor (Z.lor (Z.shiftl priority 26) (Z.shiftl data_page 24))
                         (Z.shiftl pdu_format 16))
                  (Z.shiftl ps 8))
           source)
    0x80000000.

(** ** Binary switch bank control *)

(** Invariant of the packing loop before iteration [k]: the array has 8
    bytes, and no field from [k] onwards has been written. *)
Definition pack_inv (k : nat) (payload : bytes) : Prop :=
  length payload = 8%nat
  /\ Forall (fun b => 0 <= b <= 255) payload
  /\ forall i : nat, (k <= i < 28)%nat -> switch_field payload i = 0.

(** The switch states of the test scenario: On, Off, On, Off, then
    No Change for the remaining 24 switches. *)
Definition bank1_states : list Z := [1; 0; 1; 0] ++ replicate 24 3.

(** ** Inbound frames and sessions *)

(** Eight bytes whose header is not Lumitec's (manufacturer 0, industry
    0), carrying PID 129 at offset 2. *)
Definition foreign_enumerate_payload : bytes := [0; 0; 129; 1; 0; 0; 0x41; 0].

Definition source_of (msg : Message) : Z := Z.land (arbitration_id msg) 0xFF.

Definition raw_pgn_of (msg : Message) : Z :=
  Z.land (Z.shiftr (arbitration_id msg) 8) 0x3FFFF.

(** An ENUMERATE_RESPONSE frame, as the filter recognises it: the
    proprietary PGN and PID 129 in a payload of at least 3 bytes. *)
Definition is_enumerate_response (msg : Message) : bool :=
  (normalized_pgn msg =? PGN_PROPRIETARY_SINGLE_FRAME)
  && (3 <=? length (data msg))%nat
  && (byte_at (data msg) 2 =? pid_value ENUMERATE_RESPONSE).

(** A frame from a device other than the target of a targeted session. *)
Definition foreign_frame (s : Session) (msg : Message) : bool :=
  negb (poco_address s =? 0xFF) && negb (source_of msg =? poco_address s).

(** ENUMERATE_RESPONSE frames from address 0x21, priority 6, sent to the
    global address: device 0x000001, then device 0x123456. *)
Definition enum_frame_1 : Message :=
  {| arbitration_id := 0x18EFFF21;
     data := [0xE8; 0x9D; 129; 0x01; 0x00; 0x00; 0x42; 0x00] |}.

Definition enum_frame_2 : Message :=
  {| arbitration_id := 0x18EFFF21;
     data := [0xE8; 0x9D; 129; 0x56; 0x34; 0x12; 0x42; 0x01] |}.

(** A Level 1 session that targets the device at 0x10 and has one
    observer (number 7) for binary switch status, and the same session
    with an enumeration observer (number 1) as well. *)
Definition level1_target_0x10 : Session :=
  add_binary_callback (Session_init Level1 0x10 253) 7%nat.

Definition level1_discovering : Session :=
  add_enumeration_callback level1_target_0x10 1%nat.

(** A binary switch status frame (PGN 127501, priority 3) sent by the
    device at 0x20 for bank 2. *)
Definition foreign_binary_status : Message :=
  {| arbitration_id := 0x0DF20D20;
     data := [2; 0x05; 0xFF; 0xFF; 0xFF; 0xFF; 0xFF; 0xFF] |}.

(** A connected Level 2 session with a working bus. *)
Definition level2_connected : Session :=
  set_bus (Session_init Level2 0xFF 253) (Some {| tx_ok := true; sent := [] |}).

(** ** The encode functions as one family *)

(** A call of one of the proprietary encode functions with its integer
    arguments. *)
Inductive EncodeCall : Type :=
| Call_vsw_simple_action (switch_id action_id : Z)
| Call_vsw_state_query (switch_id : Z)
| Call_vsw_hsb (switch_id action hue saturation brightness : Z)
| Call_vsw_custom_rgb (switch_id red green blue : Z)
| Call_vsw_delta_brightness (switch_id delta : Z)
| Call_vsw_pocofx_start (switch_id pocofx_id : Z)
| Call_outch_binary_channel (channel state : Z)
| Call_outch_pwm_channel (channel duty_cycle : Z)
| Call_outch_pli_raw (channel pli_message : Z)
| Call_outch_pli_t2hsb (channel hue saturation brightness pli_clan transition : Z)
| Call_outch_pli_t2rgb (channel red green blue pli_clan transition : Z)
| Call_outch_pli_t2hs (channel hue saturation pli_clan transition : Z)
| Call_outch_pli_t2b (channel brightness pli_clan transition : Z)
| Call_outch_pli_t2bd (channel delta pli_clan transition : Z)
| Call_outch_pli_t2p (channel pattern pli_clan transition : Z)
| Call_outch_status_request (channel : Z)
| Call_enumerate_request.

Definition run_encode (c : EncodeCall) : result bytes :=
  match c with
  | Call_vsw_simple_action sw act => encode_vsw_simple_action sw act
  | Call_vsw_state_query sw => encode_vsw_state_query sw
  | Call_vsw_hsb sw act h s b => encode_vsw_hsb sw act h s b
  | Call_vsw_custom_rgb sw r g b => encode_vsw_custom_rgb sw r g b
  | Call_vsw_delta_brightness sw d => encode_vsw_delta_brightness sw d
  | Call_vsw_pocofx_start sw fx => encode_vsw_pocofx_start sw fx
  | Call_outch_binary_channel ch st => encode_outch_binary_channel ch st
  | Call_outch_pwm_channel ch duty => encode_outch_pwm_channel ch duty
  | Call_outch_pli_raw ch m => encode_outch_pli_raw ch m
  | Call_outch_pli_t2hsb ch h s b clan tr =>
      encode_outch_pli_t2hsb ch h s b clan tr
  | Call_outch_pli_t2rgb ch r g b clan tr =>
      encode_outch_pli_t2rgb ch r g b clan tr
  | Call_outch_pli_t2hs ch h s clan tr => encode_outch_pli_t2hs ch h s clan tr
  | Call_outch_pli_t2b ch b clan tr => encode_outch_pli_t2b ch b clan tr
  | Call_outch_pli_t2bd ch d clan tr => encode_outch_pli_t2bd ch d clan tr
  | Call_outch_pli_t2p ch p clan tr => encode_outch_pli_t2p ch p clan tr
  | Call_outch_status_request ch => encode_outch_status_request ch
  | Call_enumerate_request => encode_enumerate_request
  end.

Definition call_pid (c : EncodeCall) : ProprietaryID :=
  match c with
  | Call_vsw_simple_action _ _ | Call_vsw_state_query _ => VSW_SIMPLE_ACTIONS
  | Call_vsw_hsb _ _ _ _ _ => VSW_CUSTOM_HSB
  | Call_vsw_custom_rgb _ _ _ _ => VSW_CUSTOM_RGB
  | Call_vsw_delta_brightness _ _ => VSW_DELTABRIGHT
  | Call_vsw_pocofx_start _ _ => VSW_POCOFX_ID
  | Call_outch_binary_channel _ _ => OUTPUTCH_BIN_ONOFF
  | Call_outch_pwm_channel _ _ => OUTPUTCH_PWM_DUTY
  | Call_outch_pli_raw _ _ => OUTPUTCH_PLI_RAW
  | Call_outch_pli_t2hsb _ _ _ _ _ _ => OUTPUTCH_PLI_T2HSB
  | Call_outch_pli_t2rgb _ _ _ _ _ _ => OUTPUTCH_PLI_T2RGB
  | Call_outch_pli_t2hs _ _ _ _ _ => OUTPUTCH_PLI_T2HS
  | Call_outch_pli_t2b _ _ _ _ => OUTPUTCH_PLI_T2B
  | Call_outch_pli_t2bd _ _ _ _ => OUTPUTCH_PLI_T2BD
  | Call_outch_pli_t2p _ _ _ _ => OUTPUTCH_PLI_T2P
  | Call_outch_status_request _ => OUTPUTCH_STATUS_REQUEST
  | Call_enumerate_request => ENUMERATE_REQUEST
  end.

Definition clamp (lo hi v : Z) : Z := Z.max lo (Z.min hi v).

(** Every integer argument replaced by the nearest bound of its valid
    range: the ranges of the docstrings for the virtual-switch and plain
    channel functions (switch 0-31, action 0-65, HSB action 8-10, colour
    bytes 0-255, delta -128..127, channel 1-4, state 0-1, duty 0-100,
    32-bit PLI word), and the bounds the PLI functions enforce. *)
Definition clamp_call (c : EncodeCall) : EncodeCall :=
  match c with
  | Call_vsw_simple_action sw act =>
      Call_vsw_simple_action (clamp 0 31 sw) (clamp 0 65 act)
  | Call_vsw_state_query sw => Call_vsw_state_query (clamp 0 31 sw)
  | Call_vsw_hsb sw act h s b =>
      Call_vsw_hsb (clamp 0 31 sw) (clamp 8 10 act) (clamp 0 255 h)
                   (clamp 0 255 s) (clamp 0 255 b)
  | Call_vsw_custom_rgb sw r g b =>
      Call_vsw_custom_rgb (clamp 0 31 sw) (clamp 0 255 r) (clamp 0 255 g)
                          (clamp 0 255 b)
  | Call_vsw_delta_brightness sw d =>
      Call_vsw_delta_brightness (clamp 0 31 sw) (clamp (-128) 127 d)
  | Call_vsw_pocofx_start sw fx =>
      Call_vsw_pocofx_start (clamp 0 31 sw) (clamp 0 255 fx)
  | Call_outch_binary_channel ch st =>
      Call_outch_binary_channel (clamp 1 4 ch) (clamp 0 1 st)
  | Call_outch_pwm_channel ch duty =>
      Call_outch_pwm_channel (clamp 1 4 ch) (clamp 0 100 duty)
  | Call_outch_pli_raw ch m =>
      Call_outch_pli_raw (clamp 1 4 ch) (clamp 0 4294967295 m)
  | Call_outch_pli_t2hsb ch h s b clan tr =>
      Call_outch_pli_t2hsb (clamp 0 4 ch) (clamp 0 255 h) (clamp 0 15 s)
                           (clamp 0 15 b) (clamp 0 63 clan) (clamp 0 7 tr)
  | Call_outch_pli_t2rgb ch r g b clan tr =>
      Call_outch_pli_t2rgb (clamp 0 4 ch) (clamp 0 31 r) (clamp 0 31 g)
                           (clamp 0 31 b) (clamp 0 63 clan) (clamp 0 7 tr)
  | Call_outch_pli_t2hs ch h s clan tr =>
      Call_outch_pli_t2hs (clamp 0 4 ch) (clamp 0 255 h) (clamp 0 15 s)
                          (clamp 0 63 clan) (clamp 0 7 tr)
  | Call_outch_pli_t2b ch b clan tr =>
      Call_outch_pli_t2b (clamp 0 4 ch) (clamp 0 255 b) (clamp 0 63 clan)
                         (clamp 0 7 tr)
  | Call_outch_pli_t2bd ch d clan tr =>
      Call_outch_pli_t2bd (clamp 0 4 ch) (clamp (-127) 127 d)
                          (clamp 0 63 clan) (clamp 0 7 tr)
  | Call_outch_pli_t2p ch p clan tr =>
      Call_outch_pli_t2p (clamp 0 4 ch) (clamp 0 253 p) (clamp 0 63 clan)
                         (clamp 0 7 tr)
  | Call_outch_status_request ch => Call_outch_status_request (clamp 0 4 ch)
  | Call_enumerate_request => Call_enumerate_request
  end.

(** The functions that range-check all of their arguments with
    [max(lo, min(hi, x))]: the six PLI encoders and the status request. *)
Definition range_checked (c : EncodeCall) : bool :=
  match c with
  | Call_outch_pli_t2hsb _ _ _ _ _ _ | Call_outch_pli_t2rgb _ _ _ _ _ _
  | Call_outch_pli_t2hs _ _ _ _ _ | Call_outch_pli_t2b _ _ _ _
  | Call_outch_pli_t2bd _ _ _ _ | Call_outch_pli_t2p _ _ _ _
  | Call_outch_status_request _ | Call_enumerate_request => true
  | _ => false
  end.

(** The arguments that the virtual-switch encoders reduce with a bit
    mask instead: [& 0xFF], and [& 0xFD] for the switch of PocoFx start;
    the delta of [encode_vsw_delta_brightness] is the one argument of
    that group that is clamped. *)
Definition mask_call (c : EncodeCall) : EncodeCall :=
  match c with
  | Call_vsw_hsb sw act h s b =>
      Call_vsw_hsb (Z.land sw 0xFF) act (Z.land h 0xFF) (Z.land s 0xFF)
                   (Z.land b 0xFF)
  | Call_vsw_custom_rgb sw r g b =>
      Call_vsw_custom_rgb (Z.land sw 0xFF) (Z.land r 0xFF) (Z.land g 0xFF)
                          (Z.land b 0xFF)
  | Call_vsw_delta_brightness sw d =>
      Call_vsw_delta_brightness (Z.land sw 0xFF) (clamp (-128) 127 d)
  | Call_vsw_pocofx_start sw fx =>
      Call_vsw_pocofx_start (Z.land sw 0xFD) (Z.land fx 0xFF)
  | other => other
  end.

#[global] Instance EncodeCall_eq_dec : EqDecision EncodeCall.
Proof. solve_decision. Defined.

(** The arguments of a call are within their valid ranges when clamping
    them to those ranges changes nothing. *)
Definition in_documented_range (c : EncodeCall) : bool :=
  bool_decide (clamp_call c = c).

(** Payload offsets that the layout of each message leaves unused. *)
Definition unused_bytes (c : EncodeCall) : list nat :=
  match c with
  | Call_vsw_simple_action _ _ | Call_vsw_state_query _ => [5; 6; 7]%nat
  | Call_vsw_delta_brightness _ _ | Call_vsw_pocofx_start _ _ => [6; 7]%nat
  | Call_outch_binary_channel _ _ | Call_outch_pwm_channel _ _ =>
      [5; 6; 7]%nat
  | Call_outch_pli_t2b _ _ _ _ | Call_outch_pli_t2bd _ _ _ _
  | Call_outch_pli_t2p _ _ _ _ => [7]%nat
  | Call_outch_status_request _ | Call_enumerate_request => [4; 5; 6; 7]%nat
  | _ => []
  end.

(** Eight bytes, the Lumitec/Marine header with the PID of the call in
    front, and [fill] at every unused offset. *)
Definition payload_layout (c : EncodeCall) (fill : Z) (payload : bytes) : Prop :=
  length payload = 8%nat
  /\ take 3 payload = [0xE8; 0x9D; pid_value (call_pid c)]
  /\ Forall (fun i => byte_at payload i = fill) (unused_bytes c).

(** The filler of the unused bytes: zero for the status request, 0xFF
    everywhere else. *)
Definition pad_byte (c : EncodeCall) : Z :=
  match c with
  | Call_outch_status_request _ => 0
  | _ => 0xFF
  end.

(** The calls whose delta argument, if any, is not negative. *)
Definition delta_unsigned (c : EncodeCall) : bool :=
  match c with
  | Call_vsw_delta_brightness _ d => 0 <=? d
  | _ => true
  end.

(** ** Codec round trips *)

(** The 16-bit word in front of every proprietary payload. *)
Definition proprietary_info (manufacturer_code industry_code : Z) : Z :=
  Z.lor (Z.lor (Z.land manufacturer_code 0x7FF) (Z.shiftl 3 11))
        (Z.shiftl (Z.land industry_code 0x07) 13).

(** A byte read as a signed 8-bit value. *)
Definition signed_byte (b : Z) : Z := if b <? 128 then b else b - 256.

(** Invariant of the packing loop before iteration [k], with what has
    been written so far: byte 0 holds [b0], the fields below [k] hold the
    low two bits of the corresponding states, the others are zero. *)
Definition pack_inv_written (states : list Z) (b0 : Z) (k : nat)
    (payload : bytes) : Prop :=
  length payload = 8%nat
  /\ Forall (fun b => 0 <= b <= 255) payload
  /\ byte_at payload 0 = b0
  /\ forall i : nat, (i < 28)%nat ->
       switch_field payload i
       = if (i <? k)%nat then Z.land (nth i states 0) 0x03 else 0.

(** The states that a control payload built from [states] shows to the
    status decoder. *)
Definition states_on_wire (states : list Z) : list Z :=
  map (fun i : nat => if (i <? length states)%nat
                      then Z.land (nth i states 0) 0x03 else 0)
      (seq 0 28).

(** ** Sessions and observers *)

(** The observer list that the subclass adds, if any. *)
Definition facade_callbacks (s : Session) : list callback :=
  match facade s with
  | FacadeLevel0 cbs => cbs
  | FacadeLevel1 cbs _ => cbs
  | _ => []
  end.

(** The class of a session. *)
Definition facade_level (s : Session) : Level :=
  match facade s with
  | FacadeBase => LevelBase
  | FacadeLevel0 _ => Level0
  | FacadeLevel1 _ _ => Level1
  | FacadeLevel2 => Level2
  end.

Definition is_level1 (s : Session) : bool :=
  match facade s with
  | FacadeLevel1 _ _ => true
  | _ => false
  end.

(** A facade method that encodes without failing and hands an 8-byte
    payload to [send_proprietary]. *)
Definition sends_eight_bytes (s : Session) (priority : Z)
    (r : result Session) : Prop :=
  exists payload,
    length payload = 8%nat /\ r = send_proprietary s payload priority.

(** The tri-state value that [set_switch_bank] writes for a dict value. *)
Definition tri_state (v : option (option bool)) : Z :=
  match v with
  | Some (Some true) => 1
  | Some (Some false) => 0
  | _ => 3
  end.

(** One iteration of the conversion loop of [set_switch_bank]. *)
Definition bank_step (acc : list Z) (item : Z * option bool) : list Z :=
  let '(sw, state) := item in
  if in_range 0 27 sw then
    match state with
    | Some true => <[Z.to_nat sw := 1]> acc
    | Some false => <[Z.to_nat sw := 0]> acc
    | None => acc
    end
  else acc.

(** * Properties *)

Lemma bind_Ok {A B : Type} (f : A -> result B) (a : A) : (Ok a ≫= f) = f a.
Proof. reflexivity. Qed.

Lemma bind_Raise {A B : Type} (f : A -> result B) (e : exn) :
  (Raise e ≫= f) = Raise e.
Proof. reflexivity. Qed.

(** ** Bit-level facts *)

Lemma land_ones_small (n x : Z) :
  0 <= n -> 0 <= x < 2 ^ n -> Z.land x (Z.ones n) = x.
Proof.
  intros Hn Hx. rewrite Z.land_ones by assumption.
  apply Z.mod_small; assumption.
Qed.

Lemma land_ones_idem (n x : Z) :
  Z.land (Z.land x (Z.ones n)) (Z.ones n) = Z.land x (Z.ones n).
Proof. rewrite <- Z.land_assoc, Z.land_diag. reflexivity. Qed.

Lemma land_ones_range (n x : Z) :
  0 <= n -> 0 <= Z.land x (Z.ones n) < 2 ^ n.
Proof.
  intros Hn. rewrite Z.land_ones by assumption.
  apply Z.mod_pos_bound. apply Z.pow_pos_nonneg; lia.
Qed.

Lemma lor_ones_range (n a b : Z) :
  0 <= n -> 0 <= a < 2 ^ n -> 0 <= b < 2 ^ n -> 0 <= Z.lor a b < 2 ^ n.
Proof.
  intros Hn Ha Hb.
  rewrite <- (land_ones_small n a), <- (land_ones_small n b) by assumption.
  rewrite <- Z.land_lor_distr_l. apply land_ones_range; assumption.
Qed.

Lemma land_byte_range (x : Z) : 0 <= Z.land x 255 <= 255.
Proof.
  pose proof (land_ones_range 8 x ltac:(lia)) as H.
  change (Z.ones 8) with 255 in H. change (2 ^ 8) with 256 in H. lia.
Qed.

(** ** CAN arbitration ID *)

(** C7 as stated fails: the code masks the priority to 3 bits and the
    source and destination addresses to 8 bits before shifting them into
    place, so outside those ranges the result is not the unmasked
    formula: priority 8 is sent as priority 0, source 261 as source 5
    and destination 4096 as destination 0. *)
Lemma calculate_pgn_can_id_masks_fields :
  calculate_pgn_can_id 61184 8 0 0xFF = 0x80EFFF00
  /\ can_id_spec 61184 8 0 0xFF = 0xA0EFFF00
  /\ calculate_pgn_can_id 61184 3 261 0 = 0x8CEF0005
  /\ can_id_spec 61184 3 261 0 = 0x8CEF0105
  /\ calculate_pgn_can_id 61184 3 0 4096 = 0x8CEF0000
  /\ can_id_spec 61184 3 0 4096 = 0x8CFF0000.
Proof. repeat split. Qed.

(** C7, as it holds: for any integers [calculate_pgn_can_id] equals
    (priority&7)<<26 | data_page<<24 | pdu_format<<16 | ps<<8 |
    (source&0xFF) with the extended-frame flag set, where
    pdu_format = (pgn>>8)&0xFF, data_page = (pgn>>16)&1 and ps is
    destination&0xFF when pdu_format < 240 and pgn&0xFF otherwise; for a
    priority in 0..7 and source and destination addresses in 0..255 the
    masks are the identity and the result is
    priority<<26 | data_page<<24 | pdu_format<<16 | ps<<8 | source; for
    pgn=61184, priority=3, source=0, destination=0xFF the priority field
    reads 3 and the source byte reads 0. *)
Theorem calculate_pgn_can_id_spec (pgn priority source destination : Z) :
  calculate_pgn_can_id pgn priority source destination
    = can_id_spec pgn (Z.land priority 0x07) (Z.land source 0xFF)
                  (Z.land destination 0xFF)
  /\ (0 <= priority <= 7 ->
      0 <= source <= 255 ->
      0 <= destination <= 255 ->
      calculate_pgn_can_id pgn priority source destination
      = can_id_spec pgn priority source destination)
  /\ Z.land (Z.shiftr (calculate_pgn_can_id 61184 3 0 0xFF) 26) 0x7 = 3
  /\ Z.land (calculate_pgn_can_id 61184 3 0 0xFF) 0xFF = 0.
Proof.
  assert (calculate_pgn_can_id pgn priority source destination
          = can_id_spec pgn (Z.land priority 0x07) (Z.land source 0xFF)
                        (Z.land destination 0xFF)) as Hmask.
  { unfold calculate_pgn_can_id, can_id_spec.
    change 0x07 with (Z.ones 3). change 0x01 with (Z.ones 1).
    change 0xFF with (Z.ones 8).
    destruct (Z.land (Z.shiftr pgn 8) (Z.ones 8) <? 240);
      rewrite !land_ones_idem; reflexivity. }
  split; [exact Hmask | split; [| split; reflexivity]].
  intros Hp Hs Hd. rewrite Hmask.
  change 0x07 with (Z.ones 3). change 0xFF with (Z.ones 8).
  rewrite (land_ones_small 3 priority) by (change (2 ^ 3) with 8; lia).
  rewrite (land_ones_small 8 source) by (change (2 ^ 8) with 256; lia).
  rewrite (land_ones_small 8 destination) by (change (2 ^ 8) with 256; lia).
  reflexivity.
Qed.

Lemma calculate_pgn_can_id_spec_witness :
  calculate_pgn_can_id 127502 3 253 0x10 = can_id_spec 127502 3 253 0x10
  /\ calculate_pgn_can_id 127502 3 253 0x10 = 0x8DF20EFD.
Proof.
  split; [| reflexivity].
  apply (proj1 (proj2 (calculate_pgn_can_id_spec 127502 3 253 0x10))); lia.
Defined.

(** ** Binary switch bank control *)

Lemma for_range_app {A : Type} (body : A -> nat -> result A) (a : A)
    (xs ys : list nat) :
  for_range body a (xs ++ ys)
  = (a' ← for_range body a xs; for_range body a' ys).
Proof.
  revert a. induction xs as [|x xs IH]; intros a; simpl.
  - reflexivity.
  - destruct (body a x) as [a'|e]; simpl; [apply IH | reflexivity].
Qed.

Lemma for_range_ext {A : Type} (f g : A -> nat -> result A) (a : A)
    (xs : list nat) :
  (forall b i, i ∈ xs -> f b i = g b i) ->
  for_range f a xs = for_range g a xs.
Proof.
  revert a. induction xs as [|x xs IH]; intros a Hfg; simpl.
  - reflexivity.
  - rewrite (Hfg a x) by constructor.
    destruct (g a x) as [a'|e]; simpl; [| reflexivity].
    apply IH. intros b i Hi. apply Hfg. by constructor.
Qed.

(** A later field of the same byte is untouched by OR-ing a 2-bit state
    into an earlier field. *)
Lemma field_lor_above (old st : Z) (a b : nat) :
  (a < b <= 3)%nat ->
  0 <= st < 4 ->
  Z.land (Z.shiftr (Z.lor old (Z.shiftl st (Z.of_nat (a * 2))))
                   (Z.of_nat (b * 2))) 0x03
  = Z.land (Z.shiftr old (Z.of_nat (b * 2))) 0x03.
Proof.
  intros Hab Hst.
  rewrite Z.shiftr_lor, Z.land_lor_distr_l.
  assert (Z.land (Z.shiftr (Z.shiftl st (Z.of_nat (a * 2))) (Z.of_nat (b * 2))) 3
          = 0) as ->; [| apply Z.lor_0_r].
  assert (st = 0 \/ st = 1 \/ st = 2 \/ st = 3) as Hc by lia.
  assert ((a = 0 /\ (b = 1 \/ b = 2 \/ b = 3)) \/ (a = 1 /\ (b = 2 \/ b = 3))
          \/ (a = 2 /\ b = 3))%nat as Hn by lia.
  destruct Hn as [[-> Hb]|[[-> Hb]|[-> ->]]];
    repeat (destruct Hb as [->|Hb]); try subst b;
    destruct Hc as [->|[->|[->| ->]]]; reflexivity.
Qed.

Lemma pack_inv_init (bank : Z) :
  pack_inv 0 (<[0%nat := Z.land bank 0xFF]> (replicate 8 0)).
Proof.
  split; [reflexivity | split].
  - simpl. repeat constructor; try lia; apply land_byte_range.
  - intros i [_ Hi]. unfold switch_field.
    do 28 (destruct i as [|i]; [reflexivity |]). lia.
Qed.

Lemma pack_switch_step (l : list Z) (payload : bytes) (k : nat) :
  (k < 28)%nat -> (k < length l)%nat -> pack_inv k payload ->
  exists payload', pack_switch l payload k = Ok payload'
                   /\ pack_inv (S k) payload'.
Proof.
  intros Hk Hkl (Hlen & Hbytes & Hzero).
  unfold pack_switch, list_get.
  destruct (lookup_lt_is_Some_2 l k Hkl) as [s Hs]. rewrite Hs, bind_Ok.
  assert (1 + k / 4 < 8)%nat as Hidx.
  { pose proof (Nat.Div0.div_lt_upper_bound k 4 7). lia. }
  destruct (lookup_lt_is_Some_2 payload (1 + k / 4)%nat ltac:(lia)) as [old Hold].
  rewrite Hold, bind_Ok.
  assert (0 <= old <= 255) as Holdr.
  { rewrite Forall_lookup in Hbytes. exact (Hbytes _ _ Hold). }
  pose proof (land_ones_range 2 s ltac:(lia)) as Hst.
  change (Z.ones 2) with 3 in Hst. change (2 ^ 2) with 4 in Hst.
  set (st := Z.land s 3) in *.
  set (new := Z.lor old (Z.shiftl st (Z.of_nat (k mod 4 * 2)))).
  assert (0 <= new <= 255) as Hnew.
  { assert (0 <= new < 2 ^ 8); [| change (2 ^ 8) with 256 in *; lia].
    apply lor_ones_range; [lia | change (2 ^ 8) with 256; lia |].
    pose proof (Nat.mod_upper_bound k 4 ltac:(lia)) as Hm.
    assert (k mod 4 = 0 \/ k mod 4 = 1 \/ k mod 4 = 2 \/ k mod 4 = 3)%nat
      as [->|[->|[->| ->]]] by lia;
      change (2 ^ 8) with 256; rewrite Z.shiftl_mul_pow2 by lia;
      [change (2 ^ Z.of_nat (0 * 2)) with 1 | change (2 ^ Z.of_nat (1 * 2)) with 4
      | change (2 ^ Z.of_nat (2 * 2)) with 16
      | change (2 ^ Z.of_nat (3 * 2)) with 64]; lia. }
  unfold bytearray_set, in_range.
  replace ((0 <=? new) && (new <=? 255)) with true
    by (symmetry; apply andb_true_iff; split; apply Z.leb_le; lia).
  replace (1 + k / 4 <? length payload)%nat with true
    by (symmetry; apply Nat.ltb_lt; lia).
  cbv beta iota. eexists; split; [reflexivity |].
  split; [by rewrite length_insert | split].
  - apply Forall_insert; assumption.
  - intros i Hi. unfold switch_field. rewrite nth_lookup.
    destruct (decide (i / 4 = k / 4)%nat) as [Heq|Hne].
    + rewrite Heq, list_lookup_insert_eq by lia. cbn [from_option id]. unfold new.
      rewrite field_lor_above; [| | assumption].
      * specialize (Hzero i ltac:(lia)). unfold switch_field in Hzero.
        rewrite nth_lookup, Heq, Hold in Hzero. exact Hzero.
      * pose proof (Nat.div_mod_eq i 4). pose proof (Nat.div_mod_eq k 4).
        pose proof (Nat.mod_upper_bound i 4 ltac:(lia)). lia.
    + rewrite list_lookup_insert_ne by lia.
      specialize (Hzero i ltac:(lia)). unfold switch_field in Hzero.
      rewrite nth_lookup in Hzero. exact Hzero.
Qed.

Lemma pack_loop_inv (l : list Z) (payload : bytes) (k : nat) :
  (k <= 28)%nat -> (k <= length l)%nat -> pack_inv 0 payload ->
  exists payload', for_range (pack_switch l) payload (seq 0 k) = Ok payload'
                   /\ pack_inv k payload'.
Proof.
  intros Hk Hkl Hinit. induction k as [|k IH].
  - exists payload. split; [reflexivity | assumption].
  - destruct IH as (mid & Hmid & Hinv); [lia | lia |].
    destruct (pack_switch_step l mid k) as (payload' & Hstep & Hinv');
      [lia | lia | assumption |].
    exists payload'. split; [| assumption].
    rewrite seq_S, Nat.add_0_l, for_range_app, Hmid, bind_Ok. cbn [for_range].
    rewrite Hstep. reflexivity.
Qed.

Lemma pack_switch_take (l : list Z) (payload : bytes) (i : nat) :
  (i < 28)%nat -> pack_switch (take 28 l) payload i = pack_switch l payload i.
Proof.
  intros Hi. unfold pack_switch, list_get. by rewrite lookup_take_lt.
Qed.

Lemma encode_binary_switch_control_ok (bank : Z) (states : list Z) :
  exists payload,
    encode_binary_switch_control bank states = Ok payload
    /\ length payload = 8%nat
    /\ forall i : nat, (length states <= i < 28)%nat ->
                       switch_field payload i = 0.
Proof.
  unfold encode_binary_switch_control.
  assert (bytearray_set (replicate 8 0) 0 (Z.land bank 0xFF)
          = Ok (<[0%nat := Z.land bank 0xFF]> (replicate 8 0))) as ->.
  { unfold bytearray_set, in_range. pose proof (land_byte_range bank).
    replace ((0 <=? Z.land bank 255) && (Z.land bank 255 <=? 255)) with true
      by (symmetry; apply andb_true_iff; split; apply Z.leb_le; lia).
    reflexivity. }
  destruct (pack_loop_inv states _ (Nat.min 28 (length states))
              ltac:(lia) ltac:(lia) (pack_inv_init bank))
    as (payload & Hrun & Hlen & _ & Hzero).
  exists payload. split; [exact Hrun | split; [exact Hlen |]].
  intros i Hi. apply Hzero. lia.
Qed.

(** C10: [encode_binary_switch_control] always returns 8 bytes; every
    switch position at an index from [len(switch_states)] up to 27 is
    encoded as tri-state 0 (Off), because its 2-bit field of the
    zero-initialised payload is never written; entries beyond index 27 of
    a longer list do not influence the result. *)
Theorem encode_binary_switch_control_unlisted_off
    (bank : Z) (states : list Z) :
  (exists payload,
      encode_binary_switch_control bank states = Ok payload
      /\ length payload = 8%nat
      /\ forall i : nat, (length states <= i < 28)%nat ->
                         switch_field payload i = 0)
  /\ encode_binary_switch_control bank states
     = encode_binary_switch_control bank (take 28 states).
Proof.
  split; [apply encode_binary_switch_control_ok |].
  unfold encode_binary_switch_control.
  destruct (bytearray_set (replicate 8 0) 0 (Z.land bank 255)) as [d|e];
    [rewrite !bind_Ok | reflexivity].
  rewrite length_take, Nat.min_assoc, Nat.min_id.
  symmetry. apply for_range_ext. intros b i Hi.
  apply pack_switch_take. apply elem_of_seq in Hi. lia.
Qed.

Lemma encode_binary_switch_control_unlisted_off_witness :
  exists payload,
    encode_binary_switch_control 1 [1; 0; 1] = Ok payload
    /\ switch_field payload 3 = 0
    /\ switch_field payload 27 = 0.
Proof.
  destruct (proj1 (encode_binary_switch_control_unlisted_off 1 [1; 0; 1]))
    as (payload & Hrun & _ & Hzero).
  exists payload. split; [exact Hrun |].
  split; apply Hzero; simpl; lia.
Defined.

(** C8, as it holds: for bank 1 and states [1,0,1,0,3,...,3] the encoder
    returns 8 bytes with byte 0 equal to 1 and byte 1 equal to binary
    00_01_00_01, which is 0x11 (17): switch 0 = 1 in bits 0-1, switch 1 = 0
    in bits 2-3, switch 2 = 1 in bits 4-5, switch 3 = 0 in bits 6-7. *)
Theorem encode_binary_switch_control_bank1 :
  exists payload,
    encode_binary_switch_control 1 bank1_states = Ok payload
    /\ length payload = 8%nat
    /\ byte_at payload 0 = 1
    /\ byte_at payload 1 = 0x11
    /\ byte_at payload 1
       = Z.lor (Z.lor (Z.lor 1 (Z.shiftl 0 2)) (Z.shiftl 1 4)) (Z.shiftl 0 6)
    /\ switch_field payload 0 = 1 /\ switch_field payload 1 = 0
    /\ switch_field payload 2 = 1 /\ switch_field payload 3 = 0.
Proof. eexists. repeat split; reflexivity. Qed.

(** C8 as stated fails: byte 1 of that payload is not 0x05. *)
Lemma encode_binary_switch_control_bank1_not_0x05 :
  exists payload,
    encode_binary_switch_control 1 bank1_states = Ok payload
    /\ byte_at payload 1 <> 0x05.
Proof. eexists. split; [reflexivity | discriminate]. Qed.

(** ** Decoders *)

Lemma header_matches_false_iff (p : ProprietaryID) (payload : bytes) :
  header_matches p payload = false
  <-> negb (header_manufacturer payload =? NMEA2K_MANUFACTURER_LUMITEC)
      || negb (header_industry payload =? NMEA2K_INDUSTRY_MARINE)
      || negb (byte_at payload 2 =? pid_value p) = true.
Proof.
  unfold header_matches.
  destruct (header_manufacturer payload =? NMEA2K_MANUFACTURER_LUMITEC),
           (header_industry payload =? NMEA2K_INDUSTRY_MARINE),
           (byte_at payload 2 =? pid_value p); simpl; intuition congruence.
Qed.

(** C6 as stated fails: [decode_enumerate_response] does not return None
    on a payload of 8 bytes whose header fields do not match. *)
Lemma decode_enumerate_response_ignores_header :
  length foreign_enumerate_payload = 8%nat
  /\ header_matches ENUMERATE_RESPONSE foreign_enumerate_payload = false
  /\ decode_enumerate_response foreign_enumerate_payload
     = Some {| device_id := 1; num_channels := 4; protocol_version := 1;
               expander_role := false |}
  /\ decode_outch_status foreign_enumerate_payload <> Raise ValueError.
Proof. repeat split; discriminate. Qed.

(** C6, as it holds: [decode_vsw_state_response] returns None exactly
    when the payload has fewer than 8 bytes or its manufacturer, industry
    or PID field differs from Lumitec (1512), Marine (4), VSW_STATE (2);
    [decode_enumerate_response] returns None exactly when the payload has
    fewer than 8 bytes, and [decode_outch_status] raises ValueError exactly
    then, neither of the two looking at the header; on every other payload
    each returns the decoded value with all of its fields read from bytes
    3 to 7.  For the switch state these are the switch id (byte 3), the
    on flag (bit 0 of byte 4), the colour type (high nibble of byte 4),
    the two colour data bytes (5, 6), the brightness (byte 7), the time
    of decoding, and the colour-specific fields: hue and saturation are
    bytes 5 and 6 for colour type 1, the effect id is byte 5 for colour
    type 3, the colour temperature is byte 6 << 8 | byte 5 for colour
    type 2 and the mutex index is byte 5 for colour type 5, each keeping
    its initial value (0, and 255 for the saturation) otherwise. *)
Theorem decode_failure_conditions (now : Z) (payload : bytes) :
  (decode_vsw_state_response now payload = None
   <-> (length payload < 8)%nat \/ header_matches VSW_STATE payload = false)
  /\ ((8 <= length payload)%nat ->
      header_matches VSW_STATE payload = true ->
        let ct := Z.land (Z.shiftr (byte_at payload 4) 4) 0x0F in
        decode_vsw_state_response now payload
        = Some {| switch_id := byte_at payload 3;
                  is_on := Z.testbit (byte_at payload 4) 0;
                  color_type := ct;
                  color_data_0 := byte_at payload 5;
                  color_data_1 := byte_at payload 6;
                  brightness := byte_at payload 7;
                  last_updated := now;
                  hue := if ct =? 1 then byte_at payload 5 else 0;
                  saturation := if ct =? 1 then byte_at payload 6 else 255;
                  pocofx_id := if ct =? 3 then byte_at payload 5 else 0;
                  cct_kelvin :=
                    if ct =? 2
                    then Z.lor (Z.shiftl (byte_at payload 6) 8)
                               (byte_at payload 5)
                    else 0;
                  mutex_index := if ct =? 5 then byte_at payload 5 else 0 |})
  /\ (decode_enumerate_response payload = None <-> (length payload < 8)%nat)
  /\ ((8 <= length payload)%nat ->
        decode_enumerate_response payload
        = Some {| device_id :=
                    Z.lor (Z.lor (byte_at payload 3)
                                 (Z.shiftl (byte_at payload 4) 8))
                          (Z.shiftl (byte_at payload 5) 16);
                  num_channels := Z.land (Z.shiftr (byte_at payload 6) 4) 0x0F;
                  protocol_version := Z.land (byte_at payload 6) 0x0F;
                  expander_role := Z.testbit (byte_at payload 7) 0 |})
  /\ (decode_outch_status payload = Raise ValueError
      <-> (length payload < 8)%nat)
  /\ ((8 <= length payload)%nat ->
        decode_outch_status payload
        = Ok {| cs_channel := byte_at payload 3;
                cs_mode := Z.land (byte_at payload 4) 0x07;
                cs_output_level := byte_at payload 5;
                cs_input_voltage_mv := byte_at payload 6 * 200;
                cs_current_ma := byte_at payload 7 * 100;
                cs_fault_flags := Z.land (byte_at payload 4) 0xF8 |}).
Proof.
  assert (forall x, negb (Z.land x 1 =? 0) = Z.testbit x 0) as Hbit.
  { intros x. rewrite Z.bit0_odd. change 1 with (Z.ones 1).
    rewrite Z.land_ones by lia. change (2 ^ 1) with 2.
    rewrite Zmod_odd. destruct (Z.odd x); reflexivity. }
  assert (forall x, Z.land (Z.land x 15) 1 = Z.land x 1) as Hnib.
  { intros x. rewrite <- Z.land_assoc. reflexivity. }
  unfold decode_vsw_state_response, decode_enumerate_response,
    decode_outch_status.
  destruct (length payload <? 8)%nat eqn:Hlen.
  - apply Nat.ltb_lt in Hlen.
    repeat split; intros; try discriminate; try lia; auto.
  - apply Nat.ltb_ge in Hlen.
    pose proof (header_matches_false_iff VSW_STATE payload) as Hhdr.
    destruct (negb (header_manufacturer payload =? NMEA2K_MANUFACTURER_LUMITEC)
              || negb (header_industry payload =? NMEA2K_INDUSTRY_MARINE)
              || negb (byte_at payload 2 =? pid_value VSW_STATE)) eqn:Hbad.
    + repeat split; intros; try discriminate; try lia; auto.
      * right. apply Hhdr. reflexivity.
      * assert (header_matches VSW_STATE payload = false) as Hf
          by (apply Hhdr; reflexivity).
        congruence.
      * rewrite Hbit. reflexivity.
    + repeat split; intros; try discriminate; try lia; auto.
      * destruct H as [H|H]; [lia |].
        apply Hhdr in H. discriminate.
      * cbn [ColorType_value SwitchState_init hue saturation pocofx_id
               cct_kelvin mutex_index].
        rewrite Hnib, Hbit. reflexivity.
      * rewrite Hbit. reflexivity.
Qed.

Lemma decode_failure_conditions_witness :
  decode_vsw_state_response 0 [0xE8; 0x9D; 2; 5; 0x11; 85; 255; 200]
  = Some {| switch_id := 5; is_on := true; color_type := 1;
            color_data_0 := 85; color_data_1 := 255; brightness := 200;
            last_updated := 0; hue := 85; saturation := 255;
            pocofx_id := 0; cct_kelvin := 0; mutex_index := 0 |}
  /\ decode_vsw_state_response 0 [0xE8; 0x9D; 3; 5; 0x11; 85; 255; 200] = None
  /\ decode_enumerate_response [0xE8; 0x9D; 129] = None
  /\ decode_outch_status [0xE8; 0x9D; 32] = Raise ValueError.
Proof.
  split; [| split; [| split]].
  - destruct (decode_failure_conditions 0
                [0xE8; 0x9D; 2; 5; 0x11; 85; 255; 200])
      as (_ & Hsome & _).
    rewrite Hsome; [reflexivity | simpl; lia | reflexivity].
  - apply (proj1 (decode_failure_conditions 0
                    [0xE8; 0x9D; 3; 5; 0x11; 85; 255; 200])).
    right. reflexivity.
  - destruct (decode_failure_conditions 0 [0xE8; 0x9D; 129])
      as (_ & _ & Henum & _).
    apply Henum. simpl. lia.
  - destruct (decode_failure_conditions 0 [0xE8; 0x9D; 32])
      as (_ & _ & _ & _ & Hst & _).
    apply Hst. simpl. lia.
Defined.

(** ** Inbound dispatch *)

Lemma discovered_devices_handle_message (s : Session) (now : Z) (msg : Message) :
  discovered_devices (_handle_message s now msg).1
  = discovered_devices (_handle_message_impl s now msg).1.
Proof.
  unfold _handle_message.
  destruct (_handle_message_impl s now msg) as [s1 n1]. simpl.
  destruct (facade s1) eqn:Hf; try reflexivity.
  destruct (_ =? PGN_BINARY_SWITCH_STATUS); [| reflexivity].
  unfold _decode_binary_status.
  destruct (length (data msg) <? 1)%nat; [reflexivity |].
  rewrite Hf. reflexivity.
Qed.

(** The base dispatcher ignores a foreign frame that is not an
    ENUMERATE_RESPONSE: the session is returned as it was and no observer
    is called. *)
Lemma handle_message_impl_drops_foreign (s : Session) (now : Z) (msg : Message) :
  foreign_frame s msg = true ->
  is_enumerate_response msg = false ->
  _handle_message_impl s now msg = (s, []).
Proof.
  unfold foreign_frame, is_enumerate_response, source_of, _handle_message_impl,
    filtered_out.
  intros -> Henum.
  destruct (normalized_pgn msg =? PGN_PROPRIETARY_SINGLE_FRAME);
    destruct (3 <=? length (data msg))%nat; simpl in *; try reflexivity.
  rewrite Henum. reflexivity.
Qed.

(** X29: a frame from a device other than the target of a targeted
    session that is not an ENUMERATE_RESPONSE is dropped by the listener
    entry point of every class that does not override it, and by Level 1
    on any PGN other than the binary switch status: the session is
    returned as it was and no observer is called. *)
Lemma handle_message_drops_foreign (s : Session) (now : Z) (msg : Message) :
  foreign_frame s msg = true ->
  is_enumerate_response msg = false ->
  (forall cbs m, facade s = FacadeLevel1 cbs m ->
                 raw_pgn_of msg <> PGN_BINARY_SWITCH_STATUS) ->
  _handle_message s now msg = (s, []).
Proof.
  intros Hf He Hl1. unfold _handle_message.
  rewrite (handle_message_impl_drops_foreign s now msg Hf He).
  destruct (facade s) eqn:Hfac; try reflexivity.
  specialize (Hl1 _ _ eq_refl). unfold raw_pgn_of in Hl1.
  destruct (_ =? PGN_BINARY_SWITCH_STATUS) eqn:Hp; [| reflexivity].
  apply Z.eqb_eq in Hp. contradiction.
Qed.

(** An ENUMERATE_RESPONSE of 8 bytes is decoded whatever its source,
    the entry for the source address is overwritten, and every
    enumeration observer is called once. *)
Lemma handle_message_impl_enumerate (s : Session) (now : Z) (msg : Message) :
  is_enumerate_response msg = true ->
  (8 <= length (data msg))%nat ->
  exists info,
    decode_enumerate_response (data msg) = Some info
    /\ discovered_devices (_handle_message_impl s now msg).1
       = <[source_of msg := device_entry (source_of msg) info]>
           (discovered_devices s)
    /\ switch_states (_handle_message_impl s now msg).1 = switch_states s
    /\ exists others,
         (_handle_message_impl s now msg).2
         = map (fun cb => EnumerationCb cb (source_of msg) info)
               (enumeration_callbacks s) ++ others.
Proof.
  unfold is_enumerate_response. intros Henum Hlen.
  apply andb_true_iff in Henum as [Henum Hpid].
  apply andb_true_iff in Henum as [Hpgn Hlen3].
  apply Z.eqb_eq in Hpgn.
  assert (filtered_out s PGN_PROPRIETARY_SINGLE_FRAME (source_of msg) (data msg)
          = false) as Hfilt.
  { unfold filtered_out. rewrite Hlen3, Hpid.
    destruct (_ && _); reflexivity. }
  unfold _handle_message_impl. fold (source_of msg).
  rewrite Hpgn, Hfilt, Hpid, Z.eqb_refl.
  replace (8 <=? length (data msg))%nat with true
    by (symmetry; apply Nat.leb_le; assumption).
  unfold decode_enumerate_response.
  replace (length (data msg) <? 8)%nat with false
    by (symmetry; apply Nat.ltb_ge; assumption).
  eexists. split; [reflexivity |]. simpl. repeat split. eexists. reflexivity.
Qed.

(** C9: starting from a session that has discovered nothing, dispatching
    one ENUMERATE_RESPONSE from source 0x21 leaves exactly one entry in the
    discovered-devices map, keyed 0x21; dispatching a second one from the
    same source leaves exactly that key, and its entry is the decode of
    the second response together with the source address: can_address
    0x21 and the device_id, num_channels, protocol_version and
    expander_role decoded from the second payload, nothing of the first
    being kept. *)
Theorem rediscovery_replaces_entry
    (s : Session) (now1 now2 : Z) (m1 m2 : Message) :
  discovered_devices s = ∅ ->
  is_enumerate_response m1 = true -> (8 <= length (data m1))%nat ->
  is_enumerate_response m2 = true -> (8 <= length (data m2))%nat ->
  source_of m1 = 0x21 -> source_of m2 = 0x21 ->
  exists info1 info2,
    decode_enumerate_response (data m1) = Some info1
    /\ decode_enumerate_response (data m2) = Some info2
    /\ discovered_devices (_handle_message s now1 m1).1
       = {[ 0x21 := {| can_address := 0x21;
                       entry_device_id := device_id info1;
                       entry_num_channels := num_channels info1;
                       entry_protocol_version := protocol_version info1;
                       entry_expander_role := expander_role info1 |} ]}
    /\ discovered_devices
         (_handle_message (_handle_message s now1 m1).1 now2 m2).1
       = {[ 0x21 := {| can_address := 0x21;
                       entry_device_id := device_id info2;
                       entry_num_channels := num_channels info2;
                       entry_protocol_version := protocol_version info2;
                       entry_expander_role := expander_role info2 |} ]}.
Proof.
  intros Hempty He1 Hl1 He2 Hl2 Hs1 Hs2.
  destruct (handle_message_impl_enumerate s now1 m1 He1 Hl1)
    as (info1 & Hd1 & Hmap1 & _).
  destruct (handle_message_impl_enumerate (_handle_message s now1 m1).1
              now2 m2 He2 Hl2) as (info2 & Hd2 & Hmap2 & _).
  exists info1, info2. split; [exact Hd1 | split; [exact Hd2 |]].
  rewrite !discovered_devices_handle_message in *.
  rewrite Hs1, Hempty in Hmap1. rewrite Hs2 in Hmap2.
  unfold device_entry in Hmap1, Hmap2.
  split.
  - rewrite Hmap1. apply insert_empty.
  - rewrite Hmap2, Hmap1, insert_insert_eq. apply insert_empty.
Qed.

Lemma rediscovery_replaces_entry_witness :
  discovered_devices (_handle_message level1_discovering 0 enum_frame_1).1
  = {[ 0x21 := {| can_address := 0x21; entry_device_id := 0x000001;
                  entry_num_channels := 4; entry_protocol_version := 2;
                  entry_expander_role := false |} ]}
  /\ discovered_devices
       (_handle_message (_handle_message level1_discovering 0 enum_frame_1).1
          1 enum_frame_2).1
     = {[ 0x21 := {| can_address := 0x21; entry_device_id := 0x123456;
                     entry_num_channels := 4; entry_protocol_version := 2;
                     entry_expander_role := true |} ]}.
Proof.
  destruct (rediscovery_replaces_entry level1_discovering 0 1
              enum_frame_1 enum_frame_2 eq_refl eq_refl ltac:(simpl; lia)
              eq_refl ltac:(simpl; lia) eq_refl eq_refl)
    as (info1 & info2 & Hd1 & Hd2 & H1 & H2).
  injection Hd1 as <-. injection Hd2 as <-.
  split; [exact H1 | exact H2].
Defined.

(** C1 at the failing input: the Level 1 listener entry point caches and
    announces a binary switch status frame whose source (0x20) is not the
    session's target (0x10), although the frame is not an
    ENUMERATE_RESPONSE and the base dispatcher drops it. *)
Theorem level1_processes_foreign_binary_status :
  foreign_frame level1_target_0x10 foreign_binary_status = true
  /\ is_enumerate_response foreign_binary_status = false
  /\ _handle_message_impl level1_target_0x10 0 foreign_binary_status
     = (level1_target_0x10, [])
  /\ binary_switch_states_of level1_target_0x10 = ∅
  /\ binary_switch_states_of
       (_handle_message level1_target_0x10 0 foreign_binary_status).1
     = {[ 2 := [1; 1; 0; 0] ++ replicate 24 3 ]}
  /\ (_handle_message level1_target_0x10 0 foreign_binary_status).2
     = [BinaryCb 7%nat 2 ([1; 1; 0; 0] ++ replicate 24 3)].
Proof.
  split; [reflexivity | split; [reflexivity | split; [reflexivity |]]].
  split; [reflexivity | split; [| reflexivity]].
  vm_compute. reflexivity.
Qed.

(** ** Outbound facades *)

Lemma bank_states_length (switches : list (Z * option bool)) :
  length (bank_states switches) = 28%nat.
Proof.
  unfold bank_states.
  assert (forall acc : list Z, length acc = 28%nat ->
            length (foldl (fun acc item =>
                             let '(sw, state) := item in
                             if in_range 0 27 sw then
                               match state with
                               | Some true => <[Z.to_nat sw := 1]> acc
                               | Some false => <[Z.to_nat sw := 0]> acc
                               | None => acc
                               end
                             else acc) acc switches) = 28%nat) as H.
  { induction switches as [|[sw state] rest IH]; intros acc Hacc; simpl.
    - exact Hacc.
    - apply IH. destruct (in_range 0 27 sw); [| exact Hacc].
      destruct state as [[|]|]; rewrite ?length_insert; exact Hacc. }
  apply H. reflexivity.
Qed.

(** X30: called with the two arguments of its signature on a working
    bus, [send_binary_switch_control] never fails: whatever the bank and
    the list, it appends exactly one frame, addressed with PGN 127502,
    priority 3 and the session's addresses, that carries the encoded
    payload, and changes nothing else. *)
Lemma send_binary_switch_control_sends
    (s : Session) (b : Bus) (bank : Z) (states : list Z) :
  bus s = Some b -> tx_ok b = true ->
  exists payload,
    encode_binary_switch_control bank states = Ok payload
    /\ send_binary_switch_control s bank states
       = Ok (set_bus s (Some {| tx_ok := true;
                                sent := sent b ++
                                  [mkMessage
                                     (calculate_pgn_can_id
                                        PGN_BINARY_SWITCH_CONTROL 3
                                        (source_address s) (poco_address s))
                                     payload] |})).
Proof.
  intros Hbus Htx.
  destruct (encode_binary_switch_control_ok bank states) as (payload & He & _).
  exists payload. split; [exact He |].
  unfold send_binary_switch_control, send_raw.
  rewrite He, bind_Ok, Hbus, Htx. reflexivity.
Qed.

(** C2 at every input: [set_switch_bank] hands three positional
    arguments (bank, states, priority) to [send_binary_switch_control],
    whose signature takes two, so the call raises TypeError before
    anything is encoded or sent. *)
Theorem set_switch_bank_raises_TypeError
    (s : Session) (bank : Z) (switches : list (Z * option bool))
    (priority : Z) :
  set_switch_bank s bank switches priority = Raise TypeError.
Proof. reflexivity. Qed.

Lemma encode_vsw_delta_brightness_cases (sw delta : Z) :
  (exists payload, encode_vsw_delta_brightness sw delta = Ok payload)
  \/ encode_vsw_delta_brightness sw delta = Raise StructError.
Proof.
  unfold encode_vsw_delta_brightness, _pack_vsw_common.
  change (lumitec_header VSW_DELTABRIGHT) with (Ok [232; 157; 6]).
  rewrite bind_Ok. cbn [pack_Bs]. unfold pack_B.
  repeat match goal with
         | |- context [in_range ?a ?b ?c] => destruct (in_range a b c)
         end; cbn; eauto.
Qed.

(** The range check of [delta_brightness] is the only source of
    ValueError, and it comes before the encoder and the bus are touched. *)
Lemma delta_brightness_ValueError_iff (s : Session) (sw delta : Z) :
  delta_brightness s sw delta = Raise ValueError
  <-> ~ (-128 <= delta <= 127).
Proof.
  unfold delta_brightness, in_range.
  destruct (-128 <=? delta) eqn:Hlo; destruct (delta <=? 127) eqn:Hhi;
    cbn [andb negb];
    try apply Z.leb_gt in Hlo; try apply Z.leb_gt in Hhi;
    try (split; [intros _; lia | reflexivity]).
  apply Z.leb_le in Hlo, Hhi. split; [| lia]. intros H. exfalso.
  destruct (encode_vsw_delta_brightness_cases sw delta) as [[p Hp]|Hp];
    rewrite Hp in H; [| discriminate].
  rewrite bind_Ok in H. unfold send_proprietary, send_raw in H.
  destruct (bus s) as [b|]; [| discriminate].
  destruct (tx_ok b); discriminate.
Qed.

Lemma delta_brightness_negative (s : Session) (sw delta : Z) :
  -128 <= delta < 0 ->
  delta_brightness s sw delta = Raise StructError.
Proof.
  intros Hd. unfold delta_brightness, in_range.
  replace ((-128 <=? delta) && (delta <=? 127)) with true
    by (symmetry; apply andb_true_iff; split; apply Z.leb_le; lia).
  cbn [negb]. unfold encode_vsw_delta_brightness, _pack_vsw_common.
  rewrite Z.min_r, Z.max_r by lia.
  change (lumitec_header VSW_DELTABRIGHT) with (Ok [232; 157; 6]).
  rewrite bind_Ok. cbn [pack_Bs].
  change (pack_B (VSwAction_value T2BD)) with (Ok [5]).
  rewrite bind_Ok.
  assert (pack_B (Z.land sw 255) = Ok [Z.land sw 255]) as ->.
  { unfold pack_B, in_range. pose proof (land_byte_range sw).
    replace ((0 <=? Z.land sw 255) && (Z.land sw 255 <=? 255)) with true
      by (symmetry; apply andb_true_iff; split; apply Z.leb_le; lia).
    reflexivity. }
  assert (pack_B delta = Raise StructError) as ->.
  { unfold pack_B, in_range.
    replace (0 <=? delta) with false by (symmetry; apply Z.leb_gt; lia).
    reflexivity. }
  reflexivity.
Qed.

(** C3 at the failing input: on a connected session, a delta of -1
    passes the range check of [delta_brightness] and then raises
    [struct.error] inside [encode_vsw_delta_brightness], because the
    signed value is packed with the unsigned format code; nothing is
    sent.  The sibling [encode_outch_pli_t2bd] converts the same delta to
    its two's-complement byte 0xFF. *)
Theorem delta_brightness_minus_one_raises :
  in_range (-128) 127 (-1) = true
  /\ encode_vsw_delta_brightness 0 (-1) = Raise StructError
  /\ delta_brightness level2_connected 0 (-1) = Raise StructError
  /\ encode_outch_pli_t2bd 1 (-1) 0 0
     = Ok [0xE8; 0x9D; 44; 1; 0; 0; 0xFF; 0xFF].
Proof. repeat split. Qed.

(** ** The encode functions as one family *)

Lemma clamp_idem (lo hi v : Z) :
  Z.max lo (Z.min hi (clamp lo hi v)) = Z.max lo (Z.min hi v).
Proof. unfold clamp. lia. Qed.

(** C4 as stated fails: [encode_vsw_hsb] masks the hue, so hue 300 is
    sent as 44 and not as the nearest bound 255. *)
Lemma encode_vsw_hsb_masks_hue :
  run_encode (Call_vsw_hsb 2 8 300 255 200)
    = Ok [0xE8; 0x9D; 3; 8; 2; 44; 255; 200]
  /\ run_encode (clamp_call (Call_vsw_hsb 2 8 300 255 200))
     = Ok [0xE8; 0x9D; 3; 8; 2; 255; 255; 200]
  /\ run_encode (Call_vsw_hsb 2 8 300 255 200)
     <> run_encode (clamp_call (Call_vsw_hsb 2 8 300 255 200)).
Proof. repeat split. discriminate. Qed.

(** C4, as it holds: for the encode functions that range-check their
    arguments (the PLI encoders with [_pack_pli_common], and the status
    request) the result for any integers equals the result with every
    argument replaced by the nearest bound of its range, e.g. channel 99
    as channel 4 and PLI hue 300 as 255; the virtual-switch encoders
    reduce their byte arguments with a bit mask instead (hue 300 as 44),
    only the delta of [encode_vsw_delta_brightness] being clamped. *)
Theorem clamping_is_idempotent (c : EncodeCall) :
  run_encode c = run_encode (mask_call c)
  /\ (range_checked c = true -> run_encode c = run_encode (clamp_call c)).
Proof.
  split.
  - destruct c; cbn [run_encode mask_call]; try reflexivity;
      unfold encode_vsw_hsb, encode_vsw_custom_rgb,
        encode_vsw_delta_brightness, encode_vsw_pocofx_start;
      rewrite ?clamp_idem;
      repeat match goal with
             | |- context [Z.land (Z.land ?x ?m) ?m] =>
                 replace (Z.land (Z.land x m) m) with (Z.land x m)
                   by (rewrite <- Z.land_assoc; reflexivity)
             end; reflexivity.
  - intros Hc.
    destruct c; try discriminate Hc; cbn [run_encode clamp_call];
      unfold encode_outch_pli_t2hsb, encode_outch_pli_t2rgb,
        encode_outch_pli_t2hs, encode_outch_pli_t2b, encode_outch_pli_t2bd,
        encode_outch_pli_t2p, encode_outch_status_request, _pack_pli_common;
      rewrite ?clamp_idem; reflexivity.
Qed.

Lemma clamping_is_idempotent_witness :
  run_encode (Call_outch_pli_t2hsb 99 300 20 20 70 9)
  = run_encode (Call_outch_pli_t2hsb 4 255 15 15 63 7)
  /\ run_encode (Call_vsw_hsb 2 8 300 255 200)
     = run_encode (Call_vsw_hsb 2 8 44 255 200).
Proof.
  split.
  - exact (proj2 (clamping_is_idempotent
                    (Call_outch_pli_t2hsb 99 300 20 20 70 9)) eq_refl).
  - exact (proj1 (clamping_is_idempotent (Call_vsw_hsb 2 8 300 255 200))).
Defined.

(** ** Shape of the encoded payloads *)

Lemma pack_B_ok (v : Z) : 0 <= v <= 255 -> pack_B v = Ok [v].
Proof.
  intros Hv. unfold pack_B, in_range.
  replace ((0 <=? v) && (v <=? 255)) with true
    by (symmetry; apply andb_true_iff; split; apply Z.leb_le; lia).
  reflexivity.
Qed.

Lemma pack_Bs_ok (vs : list Z) :
  Forall (fun v => 0 <= v <= 255) vs -> pack_Bs vs = Ok vs.
Proof.
  induction 1 as [|v vs Hv _ IH]; cbn [pack_Bs]; [reflexivity |].
  rewrite (pack_B_ok v Hv), bind_Ok, IH. reflexivity.
Qed.

Lemma lumitec_header_ok (p : ProprietaryID) :
  lumitec_header p = Ok [0xE8; 0x9D; pid_value p].
Proof. destruct p; reflexivity. Qed.

Lemma _pack_vsw_common_ok (p : ProprietaryID) (act sw b5 b6 b7 : Z) :
  Forall (fun v => 0 <= v <= 255) [act; sw; b5; b6; b7] ->
  _pack_vsw_common p act sw b5 b6 b7
  = Ok [0xE8; 0x9D; pid_value p; act; sw; b5; b6; b7].
Proof.
  intros H. unfold _pack_vsw_common.
  rewrite lumitec_header_ok, bind_Ok, (pack_Bs_ok _ H). reflexivity.
Qed.

Lemma land_mask_byte (x m : Z) : 0 <= m <= 255 -> 0 <= Z.land x m <= 255.
Proof.
  intros Hm.
  assert (Z.land x m = Z.land (Z.land x m) 255) as ->.
  { rewrite <- Z.land_assoc. f_equal. symmetry.
    change 255 with (Z.ones 8). apply land_ones_small; [lia |].
    change (2 ^ 8) with 256. lia. }
  apply land_byte_range.
Qed.

Lemma lor_byte (a b : Z) :
  0 <= a <= 255 -> 0 <= b <= 255 -> 0 <= Z.lor a b <= 255.
Proof.
  intros Ha Hb.
  pose proof (lor_ones_range 8 a b ltac:(lia)) as H.
  change (2 ^ 8) with 256 in H. lia.
Qed.

(** The PLI encoders cannot fail: every byte handed to [struct.pack] has
    been clamped or masked into 0..255. *)
Lemma _pack_pli_common_ok (p : ProprietaryID) (chan clan trans b6 b7 : Z) :
  0 <= b6 <= 255 -> 0 <= b7 <= 255 ->
  _pack_pli_common p chan clan trans b6 b7
  = Ok [0xE8; 0x9D; pid_value p; clamp 0 4 chan;
        Z.land (clamp 0 63 clan) 0x3F; Z.land (clamp 0 7 trans) 0x07; b6; b7].
Proof.
  intros H6 H7. unfold _pack_pli_common.
  rewrite lumitec_header_ok, bind_Ok.
  fold (clamp 0 4 chan) (clamp 0 63 clan) (clamp 0 7 trans).
  rewrite pack_Bs_ok; [reflexivity |].
  repeat constructor; try lia; try (unfold clamp; lia);
    apply land_mask_byte; lia.
Qed.

(** C5 as stated fails: the status request is an 8-byte payload whose
    four unused trailing bytes are 0x00, not 0xFF. *)
Lemma status_request_padding_is_zero :
  in_documented_range (Call_outch_status_request 1) = true
  /\ run_encode (Call_outch_status_request 1)
     = Ok [0xE8; 0x9D; 39; 1; 0; 0; 0; 0]
  /\ ~ (exists payload,
          run_encode (Call_outch_status_request 1) = Ok payload
          /\ payload_layout (Call_outch_status_request 1) 0xFF payload).
Proof.
  split; [reflexivity | split; [reflexivity |]].
  intros (payload & Hrun & _ & _ & Hfill).
  injection Hrun as <-. inversion Hfill as [|? ? H4 _]. discriminate H4.
Qed.

Lemma pack_I_ok (v : Z) :
  0 <= v <= 4294967295 ->
  pack_I v = Ok [Z.land v 255; Z.land (Z.shiftr v 8) 255;
                 Z.land (Z.shiftr v 16) 255; Z.land (Z.shiftr v 24) 255].
Proof.
  intros Hv. unfold pack_I, in_range.
  replace ((0 <=? v) && (v <=? 4294967295)) with true
    by (symmetry; apply andb_true_iff; split; apply Z.leb_le; lia).
  reflexivity.
Qed.

Lemma shiftl_nibble_byte (x : Z) : 0 <= Z.shiftl (Z.land x 0x0F) 4 <= 255.
Proof.
  pose proof (land_ones_range 4 x ltac:(lia)) as H.
  change (Z.ones 4) with 15 in H. change (2 ^ 4) with 16 in H.
  rewrite Z.shiftl_mul_pow2 by lia. change (2 ^ 4) with 16. lia.
Qed.

(** C5, as it holds: every proprietary encode function, for arguments
    within their valid ranges (and, for [encode_vsw_delta_brightness], a
    delta that is not negative), returns exactly 8 bytes: the header
    E8 9D <PID> followed by 5 payload bytes, the unused trailing bytes
    being 0xFF, except in the status request, which fills them with 0. *)
Theorem encoders_return_eight_bytes (c : EncodeCall) :
  in_documented_range c = true ->
  delta_unsigned c = true ->
  exists payload,
    run_encode c = Ok payload /\ payload_layout c (pad_byte c) payload.
Proof.
  intros Hr Hd. unfold in_documented_range in Hr.
  apply bool_decide_eq_true in Hr.
  destruct c; cbn [delta_unsigned] in Hd; try apply Z.leb_le in Hd;
    cbn [clamp_call] in Hr; try (injection Hr; clear Hr; intros);
    unfold clamp in *;
    cbn [run_encode];
    unfold payload_layout, encode_vsw_state_query, encode_vsw_simple_action,
      encode_vsw_hsb, encode_vsw_custom_rgb, encode_vsw_delta_brightness,
      encode_vsw_pocofx_start, encode_outch_binary_channel,
      encode_outch_pwm_channel, encode_outch_pli_raw, encode_outch_pli_t2hsb,
      encode_outch_pli_t2rgb, encode_outch_pli_t2hs, encode_outch_pli_t2b,
      encode_outch_pli_t2bd, encode_outch_pli_t2p,
      encode_outch_status_request, encode_enumerate_request;
    cbn [call_pid unused_bytes pad_byte VSwAction_value].
  all: try change (Z.shiftl 15 4) with 240.
  all: try (rewrite _pack_vsw_common_ok
              by (repeat constructor; first [lia | apply land_byte_range
                                             | apply land_mask_byte; lia]);
            eexists; split; [reflexivity | repeat constructor]).
  all: try (rewrite _pack_pli_common_ok
              by (first [lia | apply land_byte_range
                         | apply land_mask_byte; lia
                         | apply lor_byte;
                           first [apply land_mask_byte; lia
                                 | apply shiftl_nibble_byte | lia]]);
            eexists; split; [reflexivity | repeat constructor]).
  all: rewrite lumitec_header_ok, bind_Ok.
  - rewrite pack_Bs_ok by (repeat constructor; lia).
    eexists; split; [reflexivity | repeat constructor].
  - rewrite pack_Bs_ok by (repeat constructor; lia).
    eexists; split; [reflexivity | repeat constructor].
  - rewrite pack_B_ok, bind_Ok, pack_I_ok by lia.
    eexists; split; [reflexivity | repeat constructor].
  - rewrite pack_Bs_ok by (repeat constructor; lia).
    eexists; split; [reflexivity | repeat constructor].
  - eexists; split; [reflexivity | repeat constructor].
Qed.

Lemma encoders_return_eight_bytes_witness :
  exists payload,
    run_encode (Call_vsw_hsb 2 8 0 255 200) = Ok payload
    /\ payload_layout (Call_vsw_hsb 2 8 0 255 200) 0xFF payload.
Proof.
  apply (encoders_return_eight_bytes (Call_vsw_hsb 2 8 0 255 200));
    reflexivity.
Defined.

(** ** Codec round trips *)

Lemma le_pair_recombine (x : Z) :
  Z.lor (Z.land x 255) (Z.shiftl (Z.land (Z.shiftr x 8) 255) 8)
  = Z.land x 65535.
Proof.
  change 255 with (Z.ones 8). change 65535 with (Z.ones 16). Z.bitblast.
Qed.

Lemma proprietary_info_16 (m i : Z) :
  Z.land (proprietary_info m i) 65535 = proprietary_info m i.
Proof.
  unfold proprietary_info.
  change 0x7FF with (Z.ones 11). change 3 with (Z.ones 2).
  change 0x07 with (Z.ones 3). change 65535 with (Z.ones 16).
  Z.bitblast.
Qed.

Lemma proprietary_info_fields (m i : Z) :
  Z.land (proprietary_info m i) 0x7FF = Z.land m 0x7FF
  /\ Z.land (Z.shiftr (proprietary_info m i) 13) 0x07 = Z.land i 0x07
  /\ Z.land (Z.shiftr (proprietary_info m i) 11) 3 = 3.
Proof.
  unfold proprietary_info.
  change 0x7FF with (Z.ones 11). change 3 with (Z.ones 2).
  change 0x07 with (Z.ones 3).
  repeat split; Z.bitblast.
Qed.

(** X1: for any manufacturer and industry code and a PID in 0..255,
    [encode_proprietary_header] returns 3 bytes from which the header
    test of the decoders reads back the manufacturer code modulo 2^11,
    the industry code modulo 2^3 and the PID, with both reserved bits
    set. *)
Theorem header_round_trip (m i p : Z) :
  0 <= p <= 255 ->
  exists h,
    encode_proprietary_header m i p = Ok h
    /\ length h = 3%nat
    /\ header_manufacturer h = Z.land m 0x7FF
    /\ header_industry h = Z.land i 0x07
    /\ byte_at h 2 = p
    /\ Z.land (Z.shiftr (unpack_H (take 2 h)) 11) 3 = 3.
Proof.
  intros Hp. unfold encode_proprietary_header.
  fold (proprietary_info m i).
  pose proof (proprietary_info_16 m i) as H16.
  pose proof (land_ones_range 16 (proprietary_info m i) ltac:(lia)) as Hr.
  change (Z.ones 16) with 65535 in Hr. rewrite H16 in Hr.
  change (2 ^ 16) with 65536 in Hr.
  unfold pack_H, in_range.
  replace ((0 <=? proprietary_info m i) && (proprietary_info m i <=? 65535))
    with true
    by (symmetry; apply andb_true_iff; split; apply Z.leb_le; lia).
  rewrite bind_Ok, (pack_B_ok p Hp), bind_Ok.
  eexists. split; [reflexivity |]. split; [reflexivity |].
  unfold header_manufacturer, header_industry, unpack_H. cbn [take nth app].
  rewrite le_pair_recombine, H16.
  destruct (proprietary_info_fields m i) as (Hm & Hi & Hres).
  repeat split; assumption.
Qed.

Lemma header_round_trip_witness :
  exists h,
    encode_proprietary_header 1512 4 129 = Ok h
    /\ length h = 3%nat
    /\ header_manufacturer h = Z.land 1512 0x7FF
    /\ header_industry h = Z.land 4 0x07
    /\ byte_at h 2 = 129
    /\ Z.land (Z.shiftr (unpack_H (take 2 h)) 11) 3 = 3.
Proof. apply (header_round_trip 1512 4 129). lia. Defined.

Lemma pack_B_inv (v : Z) (b : list Z) :
  pack_B v = Ok b -> b = [v] /\ 0 <= v <= 255.
Proof.
  unfold pack_B, in_range.
  destruct (0 <=? v) eqn:Hlo; destruct (v <=? 255) eqn:Hhi;
    cbn [andb]; intros H; try discriminate H.
  injection H as <-. apply Z.leb_le in Hlo, Hhi. split; [reflexivity | lia].
Qed.

Lemma pack_Bs_inv (vs bs : list Z) :
  pack_Bs vs = Ok bs -> bs = vs /\ Forall (fun v => 0 <= v <= 255) vs.
Proof.
  revert bs. induction vs as [|v vs IH]; intros bs; cbn [pack_Bs].
  - intros H. injection H as <-. split; [reflexivity | constructor].
  - destruct (pack_B v) as [b|e] eqn:Hb; [| discriminate].
    rewrite bind_Ok. destruct (pack_Bs vs) as [bs'|e] eqn:Hbs; [| discriminate].
    rewrite bind_Ok. intros H. injection H as <-.
    apply pack_B_inv in Hb as [-> Hv].
    destruct (IH bs' eq_refl) as [-> Hvs].
    split; [reflexivity | by constructor].
Qed.

Lemma pack_Bs_raise (vs : list Z) (e : exn) :
  pack_Bs vs = Raise e -> e = StructError.
Proof.
  induction vs as [|v vs IH]; cbn [pack_Bs]; [discriminate |].
  unfold pack_B. destruct (in_range 0 255 v); [| intros H; by injection H].
  rewrite bind_Ok. destruct (pack_Bs vs) as [bs'|e'] eqn:Hbs; [discriminate |].
  rewrite bind_Raise. intros H. injection H as <-. by apply IH.
Qed.

Lemma pack_I_inv (v : Z) (b : list Z) :
  pack_I v = Ok b -> length b = 4%nat.
Proof.
  unfold pack_I. destruct (in_range 0 4294967295 v); [| discriminate].
  intros H. injection H as <-. reflexivity.
Qed.

Ltac invert_packs :=
  repeat match goal with
         | H : (Ok _ ≫= _) = _ |- _ => rewrite bind_Ok in H
         | H : (pack_Bs ?vs ≫= _) = Ok _ |- _ =>
             let E := fresh "E" in
             destruct (pack_Bs vs) eqn:E; [| discriminate H];
             apply pack_Bs_inv in E as [-> _]
         | H : (pack_B ?v ≫= _) = Ok _ |- _ =>
             let E := fresh "E" in
             destruct (pack_B v) eqn:E; [| discriminate H];
             apply pack_B_inv in E as [-> _]
         | H : (pack_I ?v ≫= _) = Ok _ |- _ =>
             let E := fresh "E" in
             destruct (pack_I v) as [[|? [|? [|? [|? [|? ?]]]]]|] eqn:E;
             try discriminate H;
             try (apply pack_I_inv in E; discriminate E)
         | H : Ok _ = Ok _ |- _ => injection H as <-
         end.

(** X2: whatever the arguments, when a proprietary encode function
    returns, it returns exactly 8 bytes that pass the decoders' header
    test (Lumitec, Marine) for the PID of that function. *)
Theorem encode_success_shape (c : EncodeCall) (payload : bytes) :
  run_encode c = Ok payload ->
  length payload = 8%nat /\ header_matches (call_pid c) payload = true.
Proof.
  intros H.
  destruct c; cbn [run_encode call_pid] in *;
    unfold encode_vsw_state_query, encode_vsw_simple_action, encode_vsw_hsb,
      encode_vsw_custom_rgb, encode_vsw_delta_brightness,
      encode_vsw_pocofx_start, encode_outch_binary_channel,
      encode_outch_pwm_channel, encode_outch_pli_raw, encode_outch_pli_t2hsb,
      encode_outch_pli_t2rgb, encode_outch_pli_t2hs, encode_outch_pli_t2b,
      encode_outch_pli_t2bd, encode_outch_pli_t2p,
      encode_outch_status_request, encode_enumerate_request,
      _pack_vsw_common, _pack_pli_common in H;
    rewrite lumitec_header_ok in H; invert_packs; split; reflexivity.
Qed.

Lemma encode_success_shape_witness :
  length [0xE8; 0x9D; 1; 2; 5; 0xFF; 0xFF; 0xFF] = 8%nat
  /\ header_matches VSW_SIMPLE_ACTIONS [0xE8; 0x9D; 1; 2; 5; 0xFF; 0xFF; 0xFF]
     = true.
Proof.
  apply (encode_success_shape (Call_vsw_simple_action 5 2)). reflexivity.
Defined.

(** X3: the PLI encoders, the status request and the enumerate request
    never raise: for any integers at all they return 8 bytes, because
    every value handed to [struct.pack] has been clamped or masked into a
    byte first. *)
Theorem range_checked_encoders_total (c : EncodeCall) :
  range_checked c = true ->
  exists payload, run_encode c = Ok payload /\ length payload = 8%nat.
Proof.
  intros Hc.
  destruct c; try discriminate Hc; cbn [run_encode];
    unfold encode_outch_pli_t2hsb, encode_outch_pli_t2rgb,
      encode_outch_pli_t2hs, encode_outch_pli_t2b, encode_outch_pli_t2bd,
      encode_outch_pli_t2p, encode_outch_status_request,
      encode_enumerate_request.
  all: try change (Z.shiftl 15 4) with 240.
  all: try (rewrite _pack_pli_common_ok
              by (first [lia | apply land_byte_range
                         | apply land_mask_byte; lia
                         | apply lor_byte;
                           first [apply land_mask_byte; lia
                                 | apply shiftl_nibble_byte | lia]]);
            eexists; split; reflexivity).
  - rewrite lumitec_header_ok, bind_Ok.
    rewrite pack_Bs_ok by (repeat constructor; lia).
    eexists; split; reflexivity.
  - eexists; split; reflexivity.
Qed.

Lemma range_checked_encoders_total_witness :
  exists payload,
    run_encode (Call_outch_pli_t2bd 99 (-1000) 700 (-3)) = Ok payload
    /\ length payload = 8%nat.
Proof.
  apply (range_checked_encoders_total (Call_outch_pli_t2bd 99 (-1000) 700 (-3))).
  reflexivity.
Defined.

Lemma land_byte_small (x : Z) : 0 <= x <= 255 -> Z.land x 255 = x.
Proof.
  intros Hx. change 255 with (Z.ones 8).
  apply land_ones_small; [lia | change (2 ^ 8) with 256; lia].
Qed.

Lemma byte_at_range (payload : bytes) (i : nat) :
  Forall (fun b => 0 <= b <= 255) payload -> 0 <= byte_at payload i <= 255.
Proof.
  intros H. unfold byte_at. rewrite nth_lookup.
  destruct (payload !! i) as [b|] eqn:Hb; cbn; [| lia].
  rewrite Forall_lookup in H. exact (H _ _ Hb).
Qed.

Lemma testbit_land_pow2 (x k : Z) :
  0 <= k -> negb (Z.land x (2 ^ k) =? 0) = Z.testbit x k.
Proof.
  intros Hk. destruct (Z.testbit x k) eqn:E.
  - assert (Z.land x (2 ^ k) = 2 ^ k) as ->.
    { apply Z.bits_inj'. intros n Hn.
      rewrite Z.land_spec, Z.pow2_bits_eqb by lia.
      destruct (Z.eqb_spec k n) as [<-|_];
        [rewrite E; reflexivity | apply andb_false_r]. }
    pose proof (Z.pow_pos_nonneg 2 k ltac:(lia) Hk).
    destruct (Z.eqb_spec (2 ^ k) 0); [lia | reflexivity].
  - assert (Z.land x (2 ^ k) = 0) as ->; [| reflexivity].
    apply Z.bits_inj'. intros n Hn.
    rewrite Z.land_spec, Z.pow2_bits_eqb, Z.bits_0 by lia.
    destruct (Z.eqb_spec k n) as [<-|_];
      [rewrite E; reflexivity | apply andb_false_r].
Qed.

(** X4: the plain channel encoders and the simple action encoder
    neither clamp nor mask: they return the header followed by their two
    arguments and 0xFF padding when both arguments are bytes (a duty
    cycle of 101..255 included), and raise [struct.error] otherwise. *)
Theorem unchecked_encoders_reject_non_bytes (a b : Z) :
  encode_outch_binary_channel a b
  = (if in_range 0 255 a && in_range 0 255 b
     then Ok [0xE8; 0x9D; 33; a; b; 0xFF; 0xFF; 0xFF]
     else Raise StructError)
  /\ encode_outch_pwm_channel a b
     = (if in_range 0 255 a && in_range 0 255 b
        then Ok [0xE8; 0x9D; 34; a; b; 0xFF; 0xFF; 0xFF]
        else Raise StructError)
  /\ encode_vsw_simple_action a b
     = (if in_range 0 255 b && in_range 0 255 a
        then Ok [0xE8; 0x9D; 1; b; a; 0xFF; 0xFF; 0xFF]
        else Raise StructError).
Proof.
  unfold encode_outch_binary_channel, encode_outch_pwm_channel,
    encode_vsw_simple_action, _pack_vsw_common.
  rewrite !lumitec_header_ok, !bind_Ok. cbn [pack_Bs]. unfold pack_B.
  destruct (in_range 0 255 a), (in_range 0 255 b); repeat split; reflexivity.
Qed.

(** X5: [encode_outch_pli_t2bd] never raises, and byte 6 of its payload,
    read as a signed byte, is the delta clamped to -127..127; the value
    -128 (0x80) is never produced. *)
Theorem pli_t2bd_signed_round_trip (channel delta pli_clan transition : Z) :
  exists payload,
    encode_outch_pli_t2bd channel delta pli_clan transition = Ok payload
    /\ signed_byte (byte_at payload 6) = clamp (-127) 127 delta
    /\ byte_at payload 6 <> 0x80
    /\ byte_at payload 7 = 0xFF.
Proof.
  unfold encode_outch_pli_t2bd. fold (clamp (-127) 127 delta).
  assert (-127 <= clamp (-127) 127 delta <= 127) as Hd by (unfold clamp; lia).
  set (d := clamp (-127) 127 delta) in *.
  assert (Z.land (if 0 <=? d then Z.land d 255 else 256 + d) 255
          = if 0 <=? d then d else 256 + d) as Hb.
  { destruct (Z.leb_spec 0 d).
    - rewrite (land_byte_small d) by lia. apply land_byte_small. lia.
    - apply land_byte_small. lia. }
  rewrite Hb.
  rewrite _pack_pli_common_ok by (destruct (Z.leb_spec 0 d); lia).
  eexists. split; [reflexivity |]. unfold byte_at, signed_byte. cbn [nth].
  destruct (Z.leb_spec 0 d).
  - destruct (Z.ltb_spec d 128); repeat split; lia.
  - destruct (Z.ltb_spec (256 + d) 128); repeat split; lia.
Qed.

(** X6: for a channel byte and a 32-bit PLI word,
    [encode_outch_pli_raw] puts the channel at offset 3 and the word at
    offsets 4..7, least significant byte first. *)
Theorem pli_raw_little_endian (channel pli_message : Z) :
  0 <= channel <= 255 ->
  0 <= pli_message <= 4294967295 ->
  exists payload,
    encode_outch_pli_raw channel pli_message = Ok payload
    /\ length payload = 8%nat
    /\ byte_at payload 3 = channel
    /\ byte_at payload 4 + 2 ^ 8 * byte_at payload 5
       + 2 ^ 16 * byte_at payload 6 + 2 ^ 24 * byte_at payload 7
       = pli_message.
Proof.
  intros Hc Hm. unfold encode_outch_pli_raw.
  rewrite lumitec_header_ok, bind_Ok, (pack_B_ok _ Hc), bind_Ok,
    (pack_I_ok _ Hm), bind_Ok.
  eexists. split; [reflexivity |]. split; [reflexivity |].
  split; [reflexivity |]. unfold byte_at. cbn [app nth].
  change 255 with (Z.ones 8). rewrite !Z.land_ones, !Z.shiftr_div_pow2 by lia.
  change (2 ^ 8) with 256. change (2 ^ 16) with 65536.
  change (2 ^ 24) with 16777216.
  Z.div_mod_to_equations. lia.
Qed.

Lemma pli_raw_little_endian_witness :
  exists payload,
    encode_outch_pli_raw 3 0x12345678 = Ok payload
    /\ length payload = 8%nat
    /\ byte_at payload 3 = 3
    /\ byte_at payload 4 + 2 ^ 8 * byte_at payload 5
       + 2 ^ 16 * byte_at payload 6 + 2 ^ 24 * byte_at payload 7
       = 0x12345678.
Proof. apply (pli_raw_little_endian 3 0x12345678); lia. Defined.

Lemma rgb_fields (r g b : Z) :
  let packed := Z.lor (Z.lor (Z.land r 0x1F) (Z.shiftl (Z.land g 0x1F) 5))
                      (Z.shiftl (Z.land b 0x1F) 10) in
  let unpacked := Z.lor (Z.land packed 255)
                        (Z.shiftl (Z.land (Z.shiftr packed 8) 255) 8) in
  Z.land unpacked 0x1F = Z.land r 0x1F
  /\ Z.land (Z.shiftr unpacked 5) 0x1F = Z.land g 0x1F
  /\ Z.land (Z.shiftr unpacked 10) 0x1F = Z.land b 0x1F
  /\ Z.shiftr unpacked 15 = 0.
Proof.
  cbv zeta. rewrite le_pair_recombine.
  change 0x1F with (Z.ones 5). change 65535 with (Z.ones 16).
  repeat split; Z.bitblast.
Qed.

Lemma land_small (n x : Z) (m : Z) :
  m = Z.ones n -> 0 <= n -> 0 <= x <= m -> Z.land x m = x.
Proof.
  intros -> Hn Hx. apply land_ones_small; [assumption |].
  rewrite Z.ones_equiv in Hx. lia.
Qed.

(** X7: [encode_outch_pli_t2rgb] never raises; bytes 6 and 7 of its
    payload, read as one little-endian 16-bit word, hold the red, green
    and blue arguments clamped to 0..31 in bits 0-4, 5-9 and 10-14, and
    bit 15 is clear. *)
Theorem pli_t2rgb_unpack (channel red green blue pli_clan transition : Z) :
  exists payload,
    encode_outch_pli_t2rgb channel red green blue pli_clan transition
    = Ok payload
    /\ let word := Z.lor (byte_at payload 6) (Z.shiftl (byte_at payload 7) 8) in
       Z.land word 0x1F = clamp 0 31 red
       /\ Z.land (Z.shiftr word 5) 0x1F = clamp 0 31 green
       /\ Z.land (Z.shiftr word 10) 0x1F = clamp 0 31 blue
       /\ Z.shiftr word 15 = 0.
Proof.
  unfold encode_outch_pli_t2rgb.
  fold (clamp 0 31 red) (clamp 0 31 green) (clamp 0 31 blue).
  rewrite _pack_pli_common_ok by apply land_byte_range.
  eexists. split; [reflexivity |]. unfold byte_at. cbn [nth].
  pose proof (rgb_fields (clamp 0 31 red) (clamp 0 31 green) (clamp 0 31 blue))
    as H. cbv zeta in H.
  rewrite !(land_small 5 (clamp 0 31 _) 31) in H
    by (first [reflexivity | unfold clamp; lia]).
  rewrite !(land_small 5 (clamp 0 31 _) 31)
    by (first [reflexivity | unfold clamp; lia]).
  exact H.
Qed.

Lemma nibble_fields (s b : Z) :
  let byte7 := Z.lor (Z.land s 0x0F) (Z.shiftl (Z.land b 0x0F) 4) in
  Z.land byte7 0x0F = Z.land s 0x0F /\ Z.shiftr byte7 4 = Z.land b 0x0F.
Proof.
  cbv zeta. change 0x0F with (Z.ones 4). split; Z.bitblast.
Qed.

(** X8: [encode_outch_pli_t2hsb] and [encode_outch_pli_t2hs] never
    raise, and every field of the payload is the argument clamped to its
    range: channel 0..4 at offset 3, clan 0..63 at 4, transition 0..7 at
    5, hue 0..255 at 6, saturation 0..15 in the low nibble of byte 7 and
    brightness 0..15 (T2HSB) or the filler 0xF (T2HS) in its high
    nibble.  The masks applied after the clamps change nothing. *)
Theorem pli_t2hsb_fields
    (channel hue saturation brightness pli_clan transition : Z) :
  exists p q,
    encode_outch_pli_t2hsb channel hue saturation brightness pli_clan
                           transition = Ok p
    /\ encode_outch_pli_t2hs channel hue saturation pli_clan transition = Ok q
    /\ byte_at p 3 = clamp 0 4 channel /\ byte_at q 3 = clamp 0 4 channel
    /\ byte_at p 4 = clamp 0 63 pli_clan /\ byte_at q 4 = clamp 0 63 pli_clan
    /\ byte_at p 5 = clamp 0 7 transition
    /\ byte_at q 5 = clamp 0 7 transition
    /\ byte_at p 6 = clamp 0 255 hue /\ byte_at q 6 = clamp 0 255 hue
    /\ Z.land (byte_at p 7) 0x0F = clamp 0 15 saturation
    /\ Z.land (byte_at q 7) 0x0F = clamp 0 15 saturation
    /\ Z.shiftr (byte_at p 7) 4 = clamp 0 15 brightness
    /\ Z.shiftr (byte_at q 7) 4 = 0x0F.
Proof.
  unfold encode_outch_pli_t2hsb, encode_outch_pli_t2hs.
  fold (clamp 0 255 hue) (clamp 0 15 saturation) (clamp 0 15 brightness).
  change (Z.shiftl 15 4) with (Z.shiftl (Z.land 15 15) 4).
  assert (0 <= clamp 0 255 hue <= 255) as Hh by (unfold clamp; lia).
  rewrite (land_byte_small _ Hh).
  rewrite !_pack_pli_common_ok
    by (first [assumption
              | apply lor_byte;
                first [apply land_mask_byte; lia | apply shiftl_nibble_byte]]).
  eexists. eexists. split; [reflexivity |]. split; [reflexivity |].
  unfold byte_at. cbn [nth].
  destruct (nibble_fields (clamp 0 15 saturation) (clamp 0 15 brightness))
    as [Hs Hb].
  destruct (nibble_fields (clamp 0 15 saturation) 15) as [Hs' Hb'].
  cbv zeta in Hs, Hb, Hs', Hb'.
  rewrite Hs, Hb, Hs', Hb'.
  rewrite !(land_small 4 (clamp 0 15 _) 15)
    by (first [reflexivity | unfold clamp; lia]).
  rewrite (land_small 6 (clamp 0 63 pli_clan) 63)
    by (first [reflexivity | unfold clamp; lia]).
  rewrite (land_small 3 (clamp 0 7 transition) 7)
    by (first [reflexivity | unfold clamp; lia]).
  repeat split; reflexivity.
Qed.

(** X9: on a payload of at least 8 bytes [decode_outch_status] splits
    byte 4 without overlap: the mode is its low 3 bits (0..7), the fault
    flags are its bits 3-7 left in place, mode | fault_flags is the byte
    again, and [decode_fault_flags] of those fault flags reads bits 3, 4,
    5 and 6 of byte 4; voltage and current are bytes 6 and 7 scaled by
    200 and 100. *)
Theorem outch_status_mode_and_faults (payload : bytes) :
  (8 <= length payload)%nat ->
  exists st,
    decode_outch_status payload = Ok st
    /\ 0 <= cs_mode st <= 7
    /\ Z.land (cs_fault_flags st) 0x07 = 0
    /\ Z.lor (cs_mode st) (cs_fault_flags st) = Z.land (byte_at payload 4) 0xFF
    /\ decode_fault_flags (cs_fault_flags st)
       = {| overcurrent := Z.testbit (byte_at payload 4) 3;
            undervoltage := Z.testbit (byte_at payload 4) 4;
            overtemperature := Z.testbit (byte_at payload 4) 5;
            pli_fault := Z.testbit (byte_at payload 4) 6 |}
    /\ cs_input_voltage_mv st = 200 * byte_at payload 6
    /\ cs_current_ma st = 100 * byte_at payload 7.
Proof.
  intros Hlen. unfold decode_outch_status.
  replace (length payload <? 8)%nat with false
    by (symmetry; apply Nat.ltb_ge; assumption).
  eexists. split; [reflexivity |]. cbn [cs_mode cs_fault_flags
    cs_input_voltage_mv cs_current_ma].
  set (x := byte_at payload 4).
  split.
  { pose proof (land_ones_range 3 x ltac:(lia)) as H.
    change (Z.ones 3) with 7 in H. change (2 ^ 3) with 8 in H. lia. }
  split; [rewrite <- Z.land_assoc; apply Z.land_0_r |].
  split; [rewrite <- Z.land_lor_distr_r; reflexivity |].
  split; [| split; lia].
  unfold decode_fault_flags, FAULT_FLAG_OVERCURRENT, FAULT_FLAG_UNDERVOLTAGE,
    FAULT_FLAG_OVERTEMPERATURE, FAULT_FLAG_PLI_FAULT.
  rewrite <- !Z.land_assoc.
  change (Z.land 248 8) with (2 ^ 3). change (Z.land 248 16) with (2 ^ 4).
  change (Z.land 248 32) with (2 ^ 5). change (Z.land 248 64) with (2 ^ 6).
  rewrite !testbit_land_pow2 by lia. reflexivity.
Qed.

Lemma outch_status_mode_and_faults_witness :
  exists st,
    decode_outch_status [0xE8; 0x9D; 32; 2; 0x1B; 128; 60; 15] = Ok st
    /\ cs_mode st = 3
    /\ decode_fault_flags (cs_fault_flags st)
       = {| overcurrent := true; undervoltage := true;
            overtemperature := false; pli_fault := false |}
    /\ cs_input_voltage_mv st = 12000
    /\ cs_current_ma st = 1500.
Proof.
  destruct (outch_status_mode_and_faults
              [0xE8; 0x9D; 32; 2; 0x1B; 128; 60; 15] ltac:(simpl; lia))
    as (st & Hd & _ & _ & _ & Hf & Hv & Hc).
  exists st. split; [exact Hd |].
  split; [injection Hd as <-; reflexivity |].
  split; [exact Hf | split; [exact Hv | exact Hc]].
Defined.

Lemma device_id_fields (b3 b4 b5 : Z) :
  let dev := Z.lor (Z.lor (Z.land b3 255) (Z.shiftl (Z.land b4 255) 8))
                   (Z.shiftl (Z.land b5 255) 16) in
  Z.land dev 16777215 = dev
  /\ Z.land dev 255 = Z.land b3 255
  /\ Z.land (Z.shiftr dev 8) 255 = Z.land b4 255
  /\ Z.land (Z.shiftr dev 16) 255 = Z.land b5 255.
Proof.
  cbv zeta. change 255 with (Z.ones 8). change 16777215 with (Z.ones 24).
  repeat split; Z.bitblast.
Qed.

Lemma version_channels_recombine (b6 : Z) :
  Z.lor (Z.land b6 0x0F) (Z.shiftl (Z.land (Z.shiftr b6 4) 0x0F) 4)
  = Z.land b6 255.
Proof. change 0x0F with (Z.ones 4). change 255 with (Z.ones 8). Z.bitblast. Qed.

(** X10: on a payload of at least 8 bytes [decode_enumerate_response]
    returns a record from which bytes 3 to 6 can be read back: the device
    id is below 2^24 and its three bytes are payload bytes 3, 4 and 5
    (least significant first); protocol version and channel count are
    each in 0..15 and together make up byte 6; the expander role is bit 0
    of byte 7. *)
Theorem enumerate_response_fields (payload : bytes) :
  (8 <= length payload)%nat ->
  Forall (fun b => 0 <= b <= 255) payload ->
  exists info,
    decode_enumerate_response payload = Some info
    /\ 0 <= device_id info < 2 ^ 24
    /\ Z.land (device_id info) 0xFF = byte_at payload 3
    /\ Z.land (Z.shiftr (device_id info) 8) 0xFF = byte_at payload 4
    /\ Z.land (Z.shiftr (device_id info) 16) 0xFF = byte_at payload 5
    /\ 0 <= protocol_version info <= 15
    /\ 0 <= num_channels info <= 15
    /\ Z.lor (protocol_version info) (Z.shiftl (num_channels info) 4)
       = byte_at payload 6
    /\ expander_role info = Z.testbit (byte_at payload 7) 0.
Proof.
  intros Hlen Hbytes.
  unfold decode_enumerate_response.
  replace (length payload <? 8)%nat with false
    by (symmetry; apply Nat.ltb_ge; assumption).
  eexists. split; [reflexivity |].
  cbn [device_id protocol_version num_channels expander_role].
  pose proof (byte_at_range payload 3 Hbytes) as H3.
  pose proof (byte_at_range payload 4 Hbytes) as H4.
  pose proof (byte_at_range payload 5 Hbytes) as H5.
  pose proof (byte_at_range payload 6 Hbytes) as H6.
  destruct (device_id_fields (byte_at payload 3) (byte_at payload 4)
              (byte_at payload 5)) as (Hd & Hb3 & Hb4 & Hb5).
  cbv zeta in Hd, Hb3, Hb4, Hb5.
  rewrite (land_byte_small _ H3), (land_byte_small _ H4),
    (land_byte_small _ H5) in Hd, Hb3, Hb4, Hb5.
  split.
  { rewrite <- Hd. pose proof (land_ones_range 24
      (Z.lor (Z.lor (byte_at payload 3) (Z.shiftl (byte_at payload 4) 8))
             (Z.shiftl (byte_at payload 5) 16)) ltac:(lia)) as H.
    exact H. }
  split; [exact Hb3 | split; [exact Hb4 | split; [exact Hb5 |]]].
  split.
  { pose proof (land_ones_range 4 (byte_at payload 6) ltac:(lia)) as H.
    change (Z.ones 4) with 15 in H. change (2 ^ 4) with 16 in H. lia. }
  split.
  { pose proof (land_ones_range 4 (Z.shiftr (byte_at payload 6) 4)
                  ltac:(lia)) as H.
    change (Z.ones 4) with 15 in H. change (2 ^ 4) with 16 in H. lia. }
  split; [rewrite version_channels_recombine; by apply land_byte_small |].
  rewrite <- testbit_land_pow2 by lia. reflexivity.
Qed.

Lemma enumerate_response_fields_witness :
  exists info,
    decode_enumerate_response [0xE8; 0x9D; 129; 0x56; 0x34; 0x12; 0x42; 1]
    = Some info
    /\ device_id info = 0x123456
    /\ num_channels info = 4
    /\ protocol_version info = 2
    /\ expander_role info = true.
Proof.
  destruct (enumerate_response_fields
              [0xE8; 0x9D; 129; 0x56; 0x34; 0x12; 0x42; 1]
              ltac:(simpl; lia) ltac:(repeat constructor; lia))
    as (info & Hd & _).
  exists info. split; [exact Hd |].
  injection Hd as <-. repeat split.
Defined.

(** ** CAN identifier, as built and as parsed *)

Ltac bitblast_neg :=
  Z.bitblast; rewrite ?Z.testbit_neg_r by lia; try reflexivity.

Lemma field_moved (x w n k m : Z) :
  0 <= w -> 0 <= k <= n -> n - k + w <= m ->
  Z.land (Z.shiftr (Z.shiftl (Z.land x (Z.ones w)) n) k) (Z.ones m)
  = Z.shiftl (Z.land x (Z.ones w)) (n - k).
Proof. intros Hw Hk Hm. bitblast_neg. Qed.

Lemma field_above (x n k m : Z) :
  0 <= k -> k + m <= n -> 0 <= m ->
  Z.land (Z.shiftr (Z.shiftl x n) k) (Z.ones m) = 0.
Proof. intros Hk Hn Hm. bitblast_neg. Qed.

Lemma field_below (x w n k m : Z) :
  0 <= w -> 0 <= n -> n + w <= k -> 0 <= m ->
  Z.land (Z.shiftr (Z.shiftl (Z.land x (Z.ones w)) n) k) (Z.ones m) = 0.
Proof. intros Hw Hn Hk Hm. bitblast_neg. Qed.

Lemma field_above0 (x n m : Z) :
  0 <= m <= n -> Z.land (Z.shiftl x n) (Z.ones m) = 0.
Proof. intros Hm. bitblast_neg. Qed.

Lemma field_below0 (x w k m : Z) :
  0 <= w <= k -> 0 <= m ->
  Z.land (Z.shiftr (Z.land x (Z.ones w)) k) (Z.ones m) = 0.
Proof. intros Hw Hm. bitblast_neg. Qed.

Lemma pgn_fields_pdu1 (pgn : Z) :
  Z.lor (Z.shiftl (Z.land (Z.shiftr pgn 16) (Z.ones 1)) 16)
        (Z.shiftl (Z.land (Z.shiftr pgn 8) (Z.ones 8)) 8)
  = Z.land pgn (Z.shiftl (Z.ones 9) 8).
Proof. bitblast_neg. Qed.

Lemma pgn_fields_pdu2 (pgn : Z) :
  Z.lor (Z.lor (Z.shiftl (Z.land (Z.shiftr pgn 16) (Z.ones 1)) 16)
               (Z.shiftl (Z.land (Z.shiftr pgn 8) (Z.ones 8)) 8))
        (Z.land pgn (Z.ones 8))
  = Z.land pgn (Z.ones 17).
Proof. bitblast_neg. Qed.

Lemma can_id_source (pgn priority src dst : Z) :
  Z.land (calculate_pgn_can_id pgn priority src dst) 0xFF = Z.land src 0xFF.
Proof.
  unfold calculate_pgn_can_id.
  rewrite !Z.land_lor_distr_l.
  change 0xFF with (Z.ones 8). change 0x07 with (Z.ones 3).
  change 0x01 with (Z.ones 1).
  rewrite !field_above0 by lia.
  change (Z.land 2147483648 (Z.ones 8)) with 0.
  rewrite !Z.lor_0_l, Z.lor_0_r. apply land_ones_idem.
Qed.

Lemma can_id_priority (pgn priority src dst : Z) :
  Z.land (Z.shiftr (calculate_pgn_can_id pgn priority src dst) 26) 0x07
  = Z.land priority 0x07.
Proof.
  unfold calculate_pgn_can_id.
  rewrite !Z.shiftr_lor, !Z.land_lor_distr_l.
  change 0xFF with (Z.ones 8). change 0x07 with (Z.ones 3).
  change 0x01 with (Z.ones 1).
  rewrite field_moved by lia. rewrite !field_below by lia.
  rewrite field_below0 by lia.
  change (Z.land (Z.shiftr 2147483648 26) (Z.ones 3)) with 0.
  rewrite !Z.lor_0_r. apply Z.shiftl_0_r.
Qed.

Lemma can_id_raw_pgn (pgn priority src dst : Z) :
  Z.land (Z.shiftr (calculate_pgn_can_id pgn priority src dst) 8) 0x3FFFF
  = if Z.land (Z.shiftr pgn 8) 0xFF <? 240
    then Z.lor (Z.land pgn 0x1FF00) (Z.land dst 0xFF)
    else Z.land pgn 0x1FFFF.
Proof.
  unfold calculate_pgn_can_id.
  rewrite !Z.shiftr_lor, !Z.land_lor_distr_l.
  change 0xFF with (Z.ones 8). change 0x07 with (Z.ones 3).
  change 0x01 with (Z.ones 1). change 0x3FFFF with (Z.ones 18).
  change 0x1FFFF with (Z.ones 17). change 0x1FF00 with (Z.shiftl (Z.ones 9) 8).
  rewrite !land_ones_idem.
  rewrite field_above by lia. rewrite !field_moved by lia.
  rewrite field_below0 by lia.
  change (Z.land (Z.shiftr 2147483648 8) (Z.ones 18)) with 0.
  rewrite !Z.lor_0_r, Z.lor_0_l.
  change (24 - 8) with 16. change (16 - 8) with 8. change (8 - 8) with 0.
  rewrite Z.shiftl_0_r.
  destruct (_ <? 240).
  - rewrite pgn_fields_pdu1. reflexivity.
  - rewrite land_ones_idem. apply pgn_fields_pdu2.
Qed.

Lemma can_id_normalized_pgn (pgn priority src dst : Z) (payload : bytes) :
  normalized_pgn (mkMessage (calculate_pgn_can_id pgn priority src dst) payload)
  = if Z.land (Z.shiftr pgn 8) 0xFF <? 240
    then Z.land pgn 0xFF00
    else Z.land pgn 0x1FFFF.
Proof.
  unfold normalized_pgn. cbn [arbitration_id].
  rewrite can_id_raw_pgn.
  destruct (Z.land (Z.shiftr pgn 8) 0xFF <? 240) eqn:Hpf.
  - assert (Z.land (Z.shiftr (Z.lor (Z.land pgn 0x1FF00) (Z.land dst 0xFF)) 8)
                   0xFF = Z.land (Z.shiftr pgn 8) 0xFF) as ->.
    { change 0xFF with (Z.ones 8). change 0x1FF00 with (Z.shiftl (Z.ones 9) 8).
      bitblast_neg. }
    rewrite Hpf.
    change 0xFF with (Z.ones 8). change 0x1FF00 with (Z.shiftl (Z.ones 9) 8).
    change 0xFF00 with (Z.shiftl (Z.ones 8) 8). bitblast_neg.
  - assert (Z.land (Z.shiftr (Z.land pgn 0x1FFFF) 8) 0xFF
            = Z.land (Z.shiftr pgn 8) 0xFF) as ->.
    { change 0xFF with (Z.ones 8). change 0x1FFFF with (Z.ones 17).
      bitblast_neg. }
    rewrite Hpf. reflexivity.
Qed.

(** X11: what the dispatcher reads from an identifier built by
    [calculate_pgn_can_id]: the source is the source address modulo 256,
    the priority field the priority modulo 8; the normalised PGN is the
    17-bit PGN for a PDU2 PGN, and for a PDU1 PGN (format byte below 240)
    only its format byte shifted left by 8 - destination and data page
    are dropped.  The three PGNs of the protocol come back unchanged
    whatever the priority and addresses. *)
Theorem can_id_parse (pgn priority src dst : Z) (payload : bytes) :
  source_of (mkMessage (calculate_pgn_can_id pgn priority src dst) payload)
  = Z.land src 0xFF
  /\ Z.land (Z.shiftr (calculate_pgn_can_id pgn priority src dst) 26) 0x07
     = Z.land priority 0x07
  /\ normalized_pgn
       (mkMessage (calculate_pgn_can_id pgn priority src dst) payload)
     = (if Z.land (Z.shiftr pgn 8) 0xFF <? 240
        then Z.land pgn 0xFF00
        else Z.land pgn 0x1FFFF)
  /\ normalized_pgn
       (mkMessage (calculate_pgn_can_id PGN_PROPRIETARY_SINGLE_FRAME
                     priority src dst) payload)
     = PGN_PROPRIETARY_SINGLE_FRAME
  /\ raw_pgn_of
       (mkMessage (calculate_pgn_can_id PGN_BINARY_SWITCH_STATUS
                     priority src dst) payload)
     = PGN_BINARY_SWITCH_STATUS
  /\ raw_pgn_of
       (mkMessage (calculate_pgn_can_id PGN_BINARY_SWITCH_CONTROL
                     priority src dst) payload)
     = PGN_BINARY_SWITCH_CONTROL.
Proof.
  split; [apply can_id_source |].
  split; [apply can_id_priority |].
  split; [apply can_id_normalized_pgn |].
  split; [rewrite can_id_normalized_pgn; reflexivity |].
  unfold raw_pgn_of. cbn [arbitration_id].
  split; rewrite can_id_raw_pgn; reflexivity.
Qed.

(** ** Binary switch bank: control against status *)

Lemma field_lor (old st : Z) (a b : nat) :
  (a <= 3)%nat -> (b <= 3)%nat -> 0 <= st < 4 ->
  Z.land (Z.shiftr (Z.lor old (Z.shiftl st (Z.of_nat (a * 2))))
                   (Z.of_nat (b * 2))) 0x03
  = Z.lor (Z.land (Z.shiftr old (Z.of_nat (b * 2))) 0x03)
          (if (a =? b)%nat then st else 0).
Proof.
  intros Ha Hb Hst.
  rewrite Z.shiftr_lor, Z.land_lor_distr_l. f_equal.
  assert (st = 0 \/ st = 1 \/ st = 2 \/ st = 3) as Hc by lia.
  assert (a = 0 \/ a = 1 \/ a = 2 \/ a = 3)%nat as Ha' by lia.
  assert (b = 0 \/ b = 1 \/ b = 2 \/ b = 3)%nat as Hb' by lia.
  destruct Ha' as [->|[->|[->| ->]]]; destruct Hb' as [->|[->|[->| ->]]];
    destruct Hc as [->|[->|[->| ->]]]; reflexivity.
Qed.

Lemma pack_inv_written_init (states : list Z) (bank : Z) :
  pack_inv_written states (Z.land bank 0xFF) 0
    (<[0%nat := Z.land bank 0xFF]> (replicate 8 0)).
Proof.
  split; [reflexivity | split; [| split; [reflexivity |]]].
  - simpl. repeat constructor; try lia; apply land_byte_range.
  - intros i Hi. unfold switch_field.
    do 28 (destruct i as [|i]; [reflexivity |]). lia.
Qed.

Lemma switch_field_insert_same (payload : bytes) (i k : nat) (v : Z) :
  (i / 4 = k / 4)%nat -> (1 + k / 4 < length payload)%nat ->
  switch_field (<[(1 + k / 4)%nat := v]> payload) i
  = Z.land (Z.shiftr v (Z.of_nat (i mod 4 * 2))) 0x03.
Proof.
  intros Heq Hlen. unfold switch_field.
  rewrite nth_lookup, Heq, list_lookup_insert_eq by lia. reflexivity.
Qed.

Lemma switch_field_insert_other (payload : bytes) (i k : nat) (v : Z) :
  (i / 4 <> k / 4)%nat ->
  switch_field (<[(1 + k / 4)%nat := v]> payload) i = switch_field payload i.
Proof.
  intros Hne. unfold switch_field.
  rewrite !nth_lookup, list_lookup_insert_ne by lia. reflexivity.
Qed.

Lemma switch_field_lookup (payload : bytes) (i k : nat) (old : Z) :
  (i / 4 = k / 4)%nat -> payload !! (1 + k / 4)%nat = Some old ->
  switch_field payload i = Z.land (Z.shiftr old (Z.of_nat (i mod 4 * 2))) 0x03.
Proof.
  intros Heq Hold. unfold switch_field.
  rewrite nth_lookup, Heq, Hold. reflexivity.
Qed.

Lemma pack_switch_step_written (l : list Z) (b0 : Z) (payload : bytes)
    (k : nat) :
  (k < 28)%nat -> (k < length l)%nat -> pack_inv_written l b0 k payload ->
  exists payload', pack_switch l payload k = Ok payload'
                   /\ pack_inv_written l b0 (S k) payload'.
Proof.
  intros Hk Hkl (Hlen & Hbytes & Hb0 & Hfield).
  unfold pack_switch, list_get.
  destruct (lookup_lt_is_Some_2 l k Hkl) as [s Hs]. rewrite Hs, bind_Ok.
  assert (1 + k / 4 < 8)%nat as Hidx.
  { pose proof (Nat.Div0.div_lt_upper_bound k 4 7). lia. }
  destruct (lookup_lt_is_Some_2 payload (1 + k / 4)%nat ltac:(lia))
    as [old Hold].
  rewrite Hold, bind_Ok.
  assert (0 <= old <= 255) as Holdr.
  { rewrite Forall_lookup in Hbytes. exact (Hbytes _ _ Hold). }
  pose proof (land_ones_range 2 s ltac:(lia)) as Hst.
  change (Z.ones 2) with 3 in Hst. change (2 ^ 2) with 4 in Hst.
  assert (nth k l 0 = s) as Hnth by (by apply nth_lookup_Some).
  set (new := Z.lor old (Z.shiftl (Z.land s 3) (Z.of_nat (k mod 4 * 2)))).
  pose proof (Nat.mod_upper_bound k 4 ltac:(lia)) as Hm.
  assert (0 <= new <= 255) as Hnew.
  { apply lor_byte; [assumption |].
    assert (k mod 4 = 0 \/ k mod 4 = 1 \/ k mod 4 = 2 \/ k mod 4 = 3)%nat
      as [->|[->|[->| ->]]] by lia;
      rewrite Z.shiftl_mul_pow2 by lia;
      [change (2 ^ Z.of_nat (0 * 2)) with 1 | change (2 ^ Z.of_nat (1 * 2)) with 4
      | change (2 ^ Z.of_nat (2 * 2)) with 16
      | change (2 ^ Z.of_nat (3 * 2)) with 64]; lia. }
  unfold bytearray_set, in_range.
  replace ((0 <=? new) && (new <=? 255)) with true
    by (symmetry; apply andb_true_iff; split; apply Z.leb_le; lia).
  replace (1 + k / 4 <? length payload)%nat with true
    by (symmetry; apply Nat.ltb_lt; lia).
  cbv beta iota. eexists; split; [reflexivity |].
  split; [by rewrite length_insert |].
  split; [apply Forall_insert; assumption |].
  split.
  { unfold byte_at in *. rewrite nth_lookup in *.
    rewrite list_lookup_insert_ne by lia. exact Hb0. }
  intros i Hi. specialize (Hfield i Hi).
  pose proof (Nat.div_mod_eq i 4) as Hdi. pose proof (Nat.div_mod_eq k 4) as Hdk.
  pose proof (Nat.mod_upper_bound i 4 ltac:(lia)) as Hmi.
  destruct (decide (i / 4 = k / 4)%nat) as [Heq|Hne].
  - rewrite switch_field_insert_same by lia.
    rewrite (switch_field_lookup payload i k old Heq Hold) in Hfield.
    unfold new. rewrite field_lor by lia. rewrite Hfield.
    destruct (Nat.eqb_spec (k mod 4) (i mod 4)) as [Hmod|Hmod].
    + assert (i = k) as -> by lia.
      replace (k <? k)%nat with false by (symmetry; apply Nat.ltb_ge; lia).
      replace (k <? S k)%nat with true by (symmetry; apply Nat.ltb_lt; lia).
      rewrite Hnth. reflexivity.
    + rewrite Z.lor_0_r.
      destruct (Nat.ltb_spec i k); destruct (Nat.ltb_spec i (S k));
        try reflexivity; lia.
  - rewrite switch_field_insert_other by assumption. rewrite Hfield.
    destruct (Nat.ltb_spec i k); destruct (Nat.ltb_spec i (S k));
      try reflexivity; lia.
Qed.

Lemma pack_loop_written (l : list Z) (b0 : Z) (payload : bytes) (k : nat) :
  (k <= 28)%nat -> (k <= length l)%nat -> pack_inv_written l b0 0 payload ->
  exists payload', for_range (pack_switch l) payload (seq 0 k) = Ok payload'
                   /\ pack_inv_written l b0 k payload'.
Proof.
  intros Hk Hkl Hinit. induction k as [|k IH].
  - exists payload. split; [reflexivity | assumption].
  - destruct IH as (mid & Hmid & Hinv); [lia | lia |].
    destruct (pack_switch_step_written l b0 mid k) as (payload' & Hstep & Hinv');
      [lia | lia | assumption |].
    exists payload'. split; [| assumption].
    rewrite seq_S, Nat.add_0_l, for_range_app, Hmid, bind_Ok. cbn [for_range].
    rewrite Hstep. reflexivity.
Qed.

Lemma decode_binary_states_fields (payload : bytes) :
  length payload = 8%nat ->
  decode_binary_states payload = map (switch_field payload) (seq 0 28).
Proof.
  intros Hlen. unfold decode_binary_states. apply map_ext_in.
  intros i Hi. apply in_seq in Hi.
  assert (1 + i / 4 < 8)%nat.
  { pose proof (Nat.Div0.div_lt_upper_bound i 4 7). lia. }
  replace (length payload <=? 1 + i / 4)%nat with false
    by (symmetry; apply Nat.leb_gt; lia).
  reflexivity.
Qed.

(** X12: a control payload read by the status decoder.  For any bank
    and list of states, [encode_binary_switch_control] returns a payload
    whose byte 0 is the bank modulo 256 and from which
    [decode_binary_states] (the decoding loop of
    [_decode_binary_status]) reads, for each of the 28 switches, the low
    two bits of the listed state, or 0 where the list has no entry; for a
    list of 28 states in 0..3 it reads the list itself. *)
Theorem binary_switch_round_trip (bank : Z) (states : list Z) :
  exists payload,
    encode_binary_switch_control bank states = Ok payload
    /\ byte_at payload 0 = Z.land bank 0xFF
    /\ decode_binary_states payload = states_on_wire states
    /\ (length states = 28%nat ->
        Forall (fun v => 0 <= v <= 3) states ->
        decode_binary_states payload = states).
Proof.
  unfold encode_binary_switch_control.
  assert (bytearray_set (replicate 8 0) 0 (Z.land bank 0xFF)
          = Ok (<[0%nat := Z.land bank 0xFF]> (replicate 8 0))) as ->.
  { unfold bytearray_set, in_range. pose proof (land_byte_range bank).
    replace ((0 <=? Z.land bank 255) && (Z.land bank 255 <=? 255)) with true
      by (symmetry; apply andb_true_iff; split; apply Z.leb_le; lia).
    reflexivity. }
  rewrite bind_Ok.
  destruct (pack_loop_written states _ _ (Nat.min 28 (length states))
              ltac:(lia) ltac:(lia) (pack_inv_written_init states bank))
    as (payload & Hrun & Hlen & _ & Hb0 & Hfield).
  exists payload. split; [exact Hrun | split; [exact Hb0 |]].
  assert (decode_binary_states payload = states_on_wire states) as Hwire.
  { rewrite (decode_binary_states_fields payload Hlen). unfold states_on_wire.
    apply map_ext_in. intros i Hi. apply in_seq in Hi.
    rewrite Hfield by lia.
    destruct (Nat.ltb_spec i (Nat.min 28 (length states)));
      destruct (Nat.ltb_spec i (length states)); try reflexivity; lia. }
  split; [exact Hwire |].
  intros H28 Hrange. rewrite Hwire. unfold states_on_wire.
  apply list_eq. intros i.
  change (map ?f ?l) with (f <$> l). rewrite list_lookup_fmap.
  destruct (decide (i < 28)%nat) as [Hi|Hi].
  - rewrite lookup_seq_lt by assumption. cbn [fmap option_fmap option_map].
    rewrite H28. replace (0 + i <? 28)%nat with true
      by (symmetry; apply Nat.ltb_lt; lia).
    destruct (lookup_lt_is_Some_2 states i ltac:(lia)) as [v Hv].
    rewrite Hv, Nat.add_0_l, (nth_lookup_Some _ _ _ _ Hv). f_equal.
    rewrite Forall_lookup in Hrange. specialize (Hrange _ _ Hv).
    apply (land_small 2); [reflexivity | lia | assumption].
  - rewrite lookup_seq_ge by lia. rewrite lookup_ge_None_2 by lia. reflexivity.
Qed.

Lemma binary_switch_round_trip_witness :
  exists payload,
    encode_binary_switch_control 1 bank1_states = Ok payload
    /\ decode_binary_states payload = bank1_states.
Proof.
  destruct (binary_switch_round_trip 1 bank1_states)
    as (payload & Hrun & _ & _ & Hback).
  exists payload. split; [exact Hrun |].
  apply Hback; [reflexivity |].
  unfold bank1_states. repeat constructor; lia.
Defined.

(** X13: [decode_binary_states] always yields 28 tri-state values, each
    in 0..3, whatever the payload; a switch whose byte (offset 1 + i/4)
    lies beyond the end of the payload is reported as 3 (unavailable), so
    a payload holding only the bank byte decodes to 28 times 3. *)
Theorem decode_binary_states_shape (payload : bytes) :
  length (decode_binary_states payload) = 28%nat
  /\ Forall (fun v => 0 <= v <= 3) (decode_binary_states payload)
  /\ (forall i : nat, (i < 28)%nat -> (length payload <= 1 + i / 4)%nat ->
        decode_binary_states payload !! i = Some 3)
  /\ ((length payload <= 1)%nat ->
        decode_binary_states payload = replicate 28 3).
Proof.
  unfold decode_binary_states.
  split; [by rewrite length_map, length_seq |].
  split.
  { apply Forall_map, Forall_forall. intros i _.
    destruct (_ <=? _)%nat; [lia |].
    pose proof (land_ones_range 2
      (Z.shiftr (byte_at payload (1 + i / 4)) (Z.of_nat (i mod 4 * 2)))
      ltac:(lia)) as H.
    change (Z.ones 2) with 3 in H. change (2 ^ 2) with 4 in H. lia. }
  split.
  { intros i Hi Hshort. change (map ?f ?l) with (f <$> l).
    rewrite list_lookup_fmap, lookup_seq_lt by assumption.
    cbn [fmap option_fmap option_map]. rewrite Nat.add_0_l.
    replace (length payload <=? 1 + i / 4)%nat with true
      by (symmetry; apply Nat.leb_le; assumption).
    reflexivity. }
  intros Hshort.
  change (replicate 28 3) with (map (fun _ : nat => 3) (seq 0 28)).
  apply map_ext. intros i.
  replace (length payload <=? 1 + i / 4)%nat with true
    by (symmetry; apply Nat.leb_le; lia).
  reflexivity.
Qed.

(** ** Observer registration *)

Lemma remove_first_notin (cb : callback) (l : list callback) :
  cb ∉ l -> remove_first cb l = l.
Proof.
  induction l as [|x l IH]; intros Hn; cbn [remove_first]; [reflexivity |].
  apply not_elem_of_cons in Hn as [Hx Hl].
  rewrite bool_decide_eq_false_2 by congruence. by rewrite IH.
Qed.

Lemma remove_first_snoc (cb : callback) (l : list callback) :
  cb ∉ l -> remove_first cb (l ++ [cb]) = l.
Proof.
  induction l as [|x l IH]; intros Hn; cbn [remove_first app].
  - by rewrite bool_decide_eq_true_2.
  - apply not_elem_of_cons in Hn as [Hx Hl].
    rewrite bool_decide_eq_false_2 by congruence. by rewrite IH.
Qed.

Lemma elem_of_remove_first (cb x : callback) (l : list callback) :
  x ≠ cb -> x ∈ remove_first cb l <-> x ∈ l.
Proof.
  intros Hx. induction l as [|y l IH]; cbn [remove_first]; [reflexivity |].
  case_bool_decide as Hy.
  - subst y. rewrite elem_of_cons. intuition congruence.
  - rewrite !elem_of_cons, IH. reflexivity.
Qed.

Lemma elem_of_remove_first_1 (cb x : callback) (l : list callback) :
  x ∈ remove_first cb l -> x ∈ l.
Proof.
  induction l as [|y l IH]; cbn [remove_first]; [done |].
  case_bool_decide; rewrite ?elem_of_cons; intuition.
Qed.

Lemma NoDup_remove_first (cb : callback) (l : list callback) :
  NoDup l -> NoDup (remove_first cb l) /\ cb ∉ remove_first cb l.
Proof.
  induction 1 as [|y l Hy Hl IH]; cbn [remove_first].
  - split; [constructor | apply not_elem_of_nil].
  - case_bool_decide as Hc.
    + subst y. split; assumption.
    + destruct IH as [IH1 IH2]. split.
      * constructor; [| assumption].
        intros Hin. apply Hy. by apply elem_of_remove_first_1 in Hin.
      * apply not_elem_of_cons. split; [congruence | assumption].
Qed.

(** X14: the state observers form an ordered set.  On a session whose
    list has no duplicates, [add_state_callback] keeps it so, registers
    the observer, and does nothing the second time;
    [remove_state_callback] keeps it so, leaves the observer
    unregistered and every other observer in place, and is a no-op for an
    observer that is not registered; adding a new observer and removing
    it again gives back the session. *)
Theorem state_callbacks_ordered_set (s : Session) (cb : callback) :
  NoDup (state_callbacks s) ->
  NoDup (state_callbacks (add_state_callback s cb))
  /\ cb ∈ state_callbacks (add_state_callback s cb)
  /\ add_state_callback (add_state_callback s cb) cb = add_state_callback s cb
  /\ NoDup (state_callbacks (remove_state_callback s cb))
  /\ (cb ∉ state_callbacks (remove_state_callback s cb))
  /\ (forall x, x ≠ cb ->
        (x ∈ state_callbacks (remove_state_callback s cb)
         <-> x ∈ state_callbacks s))
  /\ (cb ∉ state_callbacks s ->
        remove_state_callback s cb = s
        /\ remove_state_callback (add_state_callback s cb) cb = s).
Proof.
  intros Hnd.
  assert (cb ∈ state_callbacks (add_state_callback s cb)) as Hin.
  { unfold add_state_callback. case_bool_decide as H; [exact H |].
    cbn. apply elem_of_app. right. by apply list_elem_of_singleton. }
  split.
  { unfold add_state_callback. case_bool_decide as H; [exact Hnd |].
    cbn. apply NoDup_app. split; [exact Hnd |]. split.
    - intros x Hx Hx'. apply list_elem_of_singleton in Hx'. by subst.
    - apply NoDup_singleton. }
  split; [exact Hin |].
  split.
  { unfold add_state_callback at 1. by rewrite bool_decide_eq_true_2. }
  unfold remove_state_callback.
  split.
  { case_bool_decide as H; cbn; [by apply NoDup_remove_first | exact Hnd]. }
  split.
  { case_bool_decide as H; cbn; [by apply NoDup_remove_first | exact H]. }
  split.
  { intros x Hx. case_bool_decide as H; cbn; [| reflexivity].
    by apply elem_of_remove_first. }
  intros Hnot. split.
  { by rewrite bool_decide_eq_false_2. }
  rewrite bool_decide_eq_true_2 by exact Hin.
  unfold add_state_callback. rewrite bool_decide_eq_false_2 by exact Hnot.
  cbn [state_callbacks set_state_callbacks].
  rewrite remove_first_snoc by exact Hnot. destruct s; reflexivity.
Qed.

Lemma state_callbacks_ordered_set_witness :
  state_callbacks
    (add_state_callback
       (add_state_callback (Session_init Level2 0xFF 253) 1%nat) 2%nat)
  = [1; 2]%nat
  /\ remove_state_callback
       (add_state_callback (Session_init Level2 0xFF 253) 1%nat) 1%nat
     = Session_init Level2 0xFF 253.
Proof.
  split; [reflexivity |].
  destruct (state_callbacks_ordered_set (Session_init Level2 0xFF 253) 1%nat
              ltac:(constructor)) as (_ & _ & _ & _ & _ & _ & H).
  apply H. apply not_elem_of_nil.
Defined.

(** ** Dispatch: what a frame can and cannot do *)

Lemma normalized_proprietary_raw (msg : Message) :
  normalized_pgn msg = PGN_PROPRIETARY_SINGLE_FRAME ->
  raw_pgn_of msg <> PGN_BINARY_SWITCH_STATUS.
Proof.
  unfold normalized_pgn, raw_pgn_of. intros H Hraw.
  rewrite Hraw in H. discriminate H.
Qed.

Lemma not_foreign_not_filtered (s : Session) (msg : Message) (pgn : Z) :
  foreign_frame s msg = false ->
  filtered_out s pgn (source_of msg) (data msg) = false.
Proof.
  unfold foreign_frame, filtered_out. intros ->. reflexivity.
Qed.

(** The Level 1 tail of [_handle_message] does nothing unless the raw
    PGN is the binary switch status. *)
Lemma handle_message_no_binary (s : Session) (now : Z) (msg : Message) :
  (is_level1 (_handle_message_impl s now msg).1 = true ->
   raw_pgn_of msg <> PGN_BINARY_SWITCH_STATUS) ->
  _handle_message s now msg = _handle_message_impl s now msg.
Proof.
  unfold _handle_message, is_level1, raw_pgn_of.
  destruct (_handle_message_impl s now msg) as [s1 n1]. cbn [fst].
  intros H. destruct (facade s1); try reflexivity.
  destruct (Z.eqb_spec (Z.land (Z.shiftr (arbitration_id msg) 8) 0x3FFFF)
              PGN_BINARY_SWITCH_STATUS) as [Heq|]; [| reflexivity].
  exfalso. by apply H.
Qed.

(** X15: dispatching a frame never reconfigures the session: target
    and source address, the bus, the three observer lists and the class
    are the same afterwards, whatever the frame; only the caches
    can change. *)
Theorem dispatch_preserves_configuration
    (s : Session) (now : Z) (msg : Message) :
  poco_address (_handle_message s now msg).1 = poco_address s
  /\ source_address (_handle_message s now msg).1 = source_address s
  /\ bus (_handle_message s now msg).1 = bus s
  /\ state_callbacks (_handle_message s now msg).1 = state_callbacks s
  /\ enumeration_callbacks (_handle_message s now msg).1
     = enumeration_callbacks s
  /\ facade_callbacks (_handle_message s now msg).1 = facade_callbacks s
  /\ facade_level (_handle_message s now msg).1 = facade_level s.
Proof.
  assert (poco_address (_handle_message_impl s now msg).1 = poco_address s
          /\ source_address (_handle_message_impl s now msg).1
             = source_address s
          /\ bus (_handle_message_impl s now msg).1 = bus s
          /\ state_callbacks (_handle_message_impl s now msg).1
             = state_callbacks s
          /\ enumeration_callbacks (_handle_message_impl s now msg).1
             = enumeration_callbacks s
          /\ facade (_handle_message_impl s now msg).1 = facade s) as Himpl.
  { unfold _handle_message_impl.
    destruct (filtered_out _ _ _ _); [repeat split |].
    destruct (_ && _); [| repeat split].
    destruct (_ =? pid_value ENUMERATE_RESPONSE).
    - destruct (decode_enumerate_response _); repeat split.
    - destruct (_ =? pid_value VSW_STATE); [| repeat split].
      destruct (decode_vsw_state_response _ _); repeat split. }
  unfold _handle_message, facade_callbacks, facade_level.
  destruct (_handle_message_impl s now msg) as [s1 n1]. cbn [fst] in *.
  destruct Himpl as (Hp & Hsa & Hb & Hsc & Hec & Hf).
  rewrite <- Hp, <- Hsa, <- Hb, <- Hsc, <- Hec, <- Hf.
  destruct (facade s1) eqn:Hfac; cbn [fst]; rewrite ?Hfac; try by repeat split.
  destruct (_ =? PGN_BINARY_SWITCH_STATUS); cbn [fst];
    rewrite ?Hfac; try by repeat split.
  unfold _decode_binary_status. rewrite Hfac.
  destruct (_ <? 1)%nat; cbn; rewrite ?Hfac; by repeat split.
Qed.

(** X16: a frame is inert unless it is a proprietary frame of at least
    8 bytes or (for Level 1) a binary switch status frame: any other
    frame, from any source, leaves the session exactly as it was and
    calls no observer - in particular a proprietary frame cut short,
    which makes [decode_outch_status] raise inside the Level 0 hook. *)
Theorem malformed_or_unknown_frames_are_inert
    (s : Session) (now : Z) (msg : Message) :
  (is_level1 s = true -> raw_pgn_of msg <> PGN_BINARY_SWITCH_STATUS) ->
  normalized_pgn msg <> PGN_PROPRIETARY_SINGLE_FRAME
  \/ (length (data msg) < 8)%nat ->
  _handle_message s now msg = (s, []).
Proof.
  intros Hl1 Hinert.
  assert (_handle_message_impl s now msg = (s, [])) as Himpl.
  { unfold _handle_message_impl.
    destruct (filtered_out _ _ _ _); [reflexivity |].
    destruct (Z.eqb_spec (normalized_pgn msg) PGN_PROPRIETARY_SINGLE_FRAME)
      as [Hpgn|Hpgn].
    - destruct Hinert as [Hne|Hshort]; [contradiction |].
      replace (8 <=? length (data msg))%nat with false
        by (symmetry; apply Nat.leb_gt; assumption).
      cbn [andb app]. unfold _handle_proprietary_message.
      destruct (facade s); try reflexivity.
      destruct (3 <=? length (data msg))%nat; [| reflexivity].
      destruct (_ =? pid_value OUTPUTCH_STATUS); [| reflexivity].
      unfold decode_outch_status.
      replace (length (data msg) <? 8)%nat with true
        by (symmetry; apply Nat.ltb_lt; assumption).
      reflexivity.
    - reflexivity. }
  rewrite handle_message_no_binary; rewrite Himpl; [reflexivity | exact Hl1].
Qed.

Lemma malformed_or_unknown_frames_are_inert_witness :
  _handle_message level1_target_0x10 0
    (mkMessage 0x0CEF1010 [0xE8; 0x9D; 2])
  = (level1_target_0x10, []).
Proof.
  apply malformed_or_unknown_frames_are_inert.
  - intros _. discriminate.
  - right. simpl. lia.
Defined.

Lemma decode_vsw_state_Some (now : Z) (payload : bytes) (st : SwitchState) :
  decode_vsw_state_response now payload = Some st ->
  (8 <= length payload)%nat /\ byte_at payload 2 = pid_value VSW_STATE.
Proof.
  unfold decode_vsw_state_response.
  destruct (Nat.ltb_spec (length payload) 8); [discriminate |].
  destruct (header_manufacturer payload =? NMEA2K_MANUFACTURER_LUMITEC);
    [| discriminate].
  destruct (header_industry payload =? NMEA2K_INDUSTRY_MARINE);
    [| discriminate].
  destruct (Z.eqb_spec (byte_at payload 2) (pid_value VSW_STATE));
    [| discriminate].
  intros _. split; [lia | assumption].
Qed.

(** X17: a VSW_STATE frame that is not from a foreign device and decodes
    to [st] replaces the cached state of switch [switch_id st] and calls
    every state observer exactly once, in registration order, with that
    state; afterwards [get_switch_state] returns [st] for that switch
    and what it returned before for every other switch, and the
    discovered devices are untouched. *)
Theorem vsw_state_dispatch
    (s : Session) (now : Z) (msg : Message) (st : SwitchState) :
  foreign_frame s msg = false ->
  normalized_pgn msg = PGN_PROPRIETARY_SINGLE_FRAME ->
  decode_vsw_state_response now (data msg) = Some st ->
  _handle_message s now msg
  = (set_switch_states s (<[switch_id st := st]> (switch_states s)),
     map (fun cb => StateCb cb (switch_id st) st) (state_callbacks s))
  /\ get_switch_state (_handle_message s now msg).1 (switch_id st) = Some st
  /\ (forall sw, sw <> switch_id st ->
        get_switch_state (_handle_message s now msg).1 sw
        = get_switch_state s sw)
  /\ get_discovered_devices (_handle_message s now msg).1
     = get_discovered_devices s.
Proof.
  intros Hforeign Hpgn Hdec.
  destruct (decode_vsw_state_Some _ _ _ Hdec) as [Hlen Hpid].
  assert (_handle_message_impl s now msg
          = (set_switch_states s (<[switch_id st := st]> (switch_states s)),
             map (fun cb => StateCb cb (switch_id st) st) (state_callbacks s)))
    as Himpl.
  { unfold _handle_message_impl. fold (source_of msg).
    rewrite (not_foreign_not_filtered s msg _ Hforeign), Hpgn, Hpid, Hdec.
    replace (8 <=? length (data msg))%nat with true
      by (symmetry; apply Nat.leb_le; assumption).
    rewrite Z.eqb_refl. cbn [andb Z.eqb pid_value Pos.eqb].
    unfold _handle_proprietary_message. cbn [facade set_switch_states].
    rewrite Hpid.
    destruct (facade s); cbn [Z.eqb pid_value Pos.eqb];
      try destruct (3 <=? _)%nat; by rewrite app_nil_r. }
  rewrite handle_message_no_binary
    by (intros _; by apply normalized_proprietary_raw).
  rewrite Himpl. split; [reflexivity |].
  unfold get_switch_state, get_discovered_devices.
  cbn [fst switch_states discovered_devices set_switch_states].
  split; [apply lookup_insert_eq |].
  split; [| reflexivity].
  intros sw Hsw. by apply lookup_insert_ne.
Qed.

(** A VSW_STATE frame from the device at 0x10: switch 5 on, hue 85,
    saturation 255, brightness 200. *)
Lemma vsw_state_dispatch_witness :
  exists st,
    decode_vsw_state_response 7 [0xE8; 0x9D; 2; 5; 0x11; 85; 255; 200] = Some st
    /\ get_switch_state
         (_handle_message level1_target_0x10 7
            (mkMessage 0x0CEFFF10 [0xE8; 0x9D; 2; 5; 0x11; 85; 255; 200])).1 5
       = Some st.
Proof.
  destruct (decode_vsw_state_response 7 [0xE8; 0x9D; 2; 5; 0x11; 85; 255; 200])
    as [st|] eqn:Hd; [| discriminate Hd].
  exists st. split; [reflexivity |].
  destruct (vsw_state_dispatch level1_target_0x10 7
              (mkMessage 0x0CEFFF10 [0xE8; 0x9D; 2; 5; 0x11; 85; 255; 200]) st
              eq_refl eq_refl Hd) as (_ & Hget & _).
  injection Hd as <-. exact Hget.
Defined.

(** X18: an ENUMERATE_RESPONSE of at least 8 bytes is accepted from any
    source, whatever the target of the session: the entry keyed by its
    source address is overwritten with the decoded record - can_address
    is the source address and device_id, num_channels, protocol_version
    and expander_role are those of the decode - every enumeration
    observer is called exactly once, in registration order, and nothing
    else happens - the switch cache is untouched and no other observer
    is called. *)
Theorem enumerate_response_dispatch
    (s : Session) (now : Z) (msg : Message) :
  is_enumerate_response msg = true ->
  (8 <= length (data msg))%nat ->
  exists info,
    decode_enumerate_response (data msg) = Some info
    /\ _handle_message s now msg
       = (set_discovered_devices s
            (<[source_of msg :=
                 {| can_address := source_of msg;
                    entry_device_id := device_id info;
                    entry_num_channels := num_channels info;
                    entry_protocol_version := protocol_version info;
                    entry_expander_role := expander_role info |}]>
               (discovered_devices s)),
          map (fun cb => EnumerationCb cb (source_of msg) info)
              (enumeration_callbacks s)).
Proof.
  unfold is_enumerate_response. intros Henum Hlen.
  apply andb_true_iff in Henum as [Henum Hpid].
  apply andb_true_iff in Henum as [Hpgn Hlen3].
  apply Z.eqb_eq in Hpgn.
  assert (filtered_out s PGN_PROPRIETARY_SINGLE_FRAME (source_of msg) (data msg)
          = false) as Hfilt.
  { unfold filtered_out. rewrite Hlen3, Hpid.
    destruct (_ && _); reflexivity. }
  rewrite handle_message_no_binary
    by (intros _; by apply normalized_proprietary_raw).
  unfold _handle_message_impl. fold (source_of msg).
  rewrite Hpgn, Hfilt, Hpid, Z.eqb_refl.
  replace (8 <=? length (data msg))%nat with true
    by (symmetry; apply Nat.leb_le; assumption).
  unfold decode_enumerate_response.
  replace (length (data msg) <? 8)%nat with false
    by (symmetry; apply Nat.ltb_ge; assumption).
  eexists. split; [reflexivity |]. cbn [andb].
  unfold _handle_proprietary_message. cbn [facade set_discovered_devices].
  apply Z.eqb_eq in Hpid. rewrite Hpid.
  destruct (facade s); cbn [Z.eqb pid_value Pos.eqb];
    try destruct (3 <=? _)%nat; by rewrite app_nil_r.
Qed.

Lemma enumerate_response_dispatch_witness :
  _handle_message level1_discovering 0 enum_frame_2
  = (set_discovered_devices level1_discovering
       {[ 0x21 := {| can_address := 0x21; entry_device_id := 0x123456;
                     entry_num_channels := 4; entry_protocol_version := 2;
                     entry_expander_role := true |} ]},
     [EnumerationCb 1%nat 0x21
        {| device_id := 0x123456; num_channels := 4; protocol_version := 2;
           expander_role := true |}]).
Proof.
  destruct (enumerate_response_dispatch level1_discovering 0 enum_frame_2
              eq_refl ltac:(simpl; lia)) as (info & Hd & Hrun).
  injection Hd as <-. rewrite Hrun. reflexivity.
Defined.

(** X19: an OUTPUTCH_STATUS frame (PID 32) of at least 8 bytes that is
    not from a foreign device is decoded by a Level 0 session without
    looking at the manufacturer and industry fields: every channel status
    observer is called exactly once, in registration order, with
    channel, mode, output level, voltage and current (the fault flags
    are not passed on), and nothing is cached; the other classes ignore
    the frame. *)
Theorem channel_status_dispatch (s : Session) (now : Z) (msg : Message) :
  foreign_frame s msg = false ->
  normalized_pgn msg = PGN_PROPRIETARY_SINGLE_FRAME ->
  (8 <= length (data msg))%nat ->
  byte_at (data msg) 2 = pid_value OUTPUTCH_STATUS ->
  exists st,
    decode_outch_status (data msg) = Ok st
    /\ _handle_message s now msg
       = (s, match facade s with
             | FacadeLevel0 cbs =>
                 map (fun cb => ChannelStatusCb cb (cs_channel st) (cs_mode st)
                                  (cs_output_level st)
                                  (cs_input_voltage_mv st) (cs_current_ma st))
                     cbs
             | _ => []
             end).
Proof.
  intros Hforeign Hpgn Hlen Hpid.
  rewrite handle_message_no_binary
    by (intros _; by apply normalized_proprietary_raw).
  unfold _handle_message_impl. fold (source_of msg).
  rewrite (not_foreign_not_filtered s msg _ Hforeign), Hpgn, Hpid.
  replace (8 <=? length (data msg))%nat with true
    by (symmetry; apply Nat.leb_le; assumption).
  rewrite Z.eqb_refl. cbn [andb Z.eqb pid_value Pos.eqb app].
  unfold _handle_proprietary_message, decode_outch_status.
  replace (length (data msg) <? 8)%nat with false
    by (symmetry; apply Nat.ltb_ge; assumption).
  replace (3 <=? length (data msg))%nat with true
    by (symmetry; apply Nat.leb_le; lia).
  rewrite Hpid. cbn [Z.eqb pid_value Pos.eqb].
  eexists. split; [reflexivity |].
  destruct (facade s); reflexivity.
Qed.

Lemma channel_status_dispatch_witness :
  exists st,
    decode_outch_status [0; 0; 32; 2; 0x1B; 128; 60; 15] = Ok st
    /\ _handle_message
         (add_channel_status_callback (Session_init Level0 0xFF 253) 4%nat) 0
         (mkMessage 0x0CEFFF10 [0; 0; 32; 2; 0x1B; 128; 60; 15])
       = (add_channel_status_callback (Session_init Level0 0xFF 253) 4%nat,
          [ChannelStatusCb 4%nat 2 3 128 12000 1500]).
Proof.
  destruct (channel_status_dispatch
              (add_channel_status_callback (Session_init Level0 0xFF 253) 4%nat)
              0 (mkMessage 0x0CEFFF10 [0; 0; 32; 2; 0x1B; 128; 60; 15])
              eq_refl eq_refl ltac:(simpl; lia) eq_refl) as (st & Hd & Hrun).
  exists st. split; [exact Hd |]. rewrite Hrun.
  injection Hd as <-. reflexivity.
Defined.

(** ** Outbound: what reaches the bus *)

Lemma can_id_destination (pgn priority src dst : Z) :
  (Z.land (Z.shiftr pgn 8) 0xFF <? 240) = true ->
  Z.land (Z.shiftr (calculate_pgn_can_id pgn priority src dst) 8) 0xFF
  = Z.land dst 0xFF.
Proof.
  intros Hpf. unfold calculate_pgn_can_id. rewrite Hpf.
  rewrite !Z.shiftr_lor, !Z.land_lor_distr_l.
  change 0xFF with (Z.ones 8). change 0x07 with (Z.ones 3).
  change 0x01 with (Z.ones 1).
  rewrite !field_above by lia. rewrite field_moved by lia.
  rewrite field_below0 by lia.
  change (Z.land (Z.shiftr 2147483648 8) (Z.ones 8)) with 0.
  rewrite !Z.lor_0_r, !Z.lor_0_l. apply Z.shiftl_0_r.
Qed.

(** X20: [send_proprietary] passes transport failures on unchanged
    (RuntimeError when the bus is not connected, CanError when the bus
    refuses the frame) and otherwise appends exactly one frame to the bus
    and changes nothing else; that frame carries the payload, and the
    dispatcher reads from its identifier the proprietary PGN, the
    session's source address modulo 256 as source, its target address
    modulo 256 as destination and the priority modulo 8. *)
Theorem send_proprietary_outcome (s : Session) (payload : bytes) (priority : Z) :
  (bus s = None -> send_proprietary s payload priority = Raise RuntimeError)
  /\ (forall b, bus s = Some b -> tx_ok b = false ->
        send_proprietary s payload priority = Raise CanError)
  /\ (forall b, bus s = Some b -> tx_ok b = true ->
        exists m,
          send_proprietary s payload priority
          = Ok (set_bus s (Some {| tx_ok := true; sent := sent b ++ [m] |}))
          /\ data m = payload
          /\ normalized_pgn m = PGN_PROPRIETARY_SINGLE_FRAME
          /\ source_of m = Z.land (source_address s) 0xFF
          /\ Z.land (Z.shiftr (arbitration_id m) 8) 0xFF
             = Z.land (poco_address s) 0xFF
          /\ Z.land (Z.shiftr (arbitration_id m) 26) 0x07
             = Z.land priority 0x07).
Proof.
  unfold send_proprietary, send_raw.
  split; [intros ->; reflexivity |].
  split; [intros b -> ->; reflexivity |].
  intros b -> ->. eexists. split; [reflexivity |].
  cbn [data arbitration_id]. split; [reflexivity |].
  split; [rewrite can_id_normalized_pgn; reflexivity |].
  split; [apply can_id_source |].
  split; [by apply can_id_destination | apply can_id_priority].
Qed.

Lemma send_proprietary_outcome_witness :
  send_proprietary (Session_init Level2 0x10 253) [0xE8; 0x9D; 1; 2; 0; 255; 255; 255] 3
  = Raise RuntimeError.
Proof.
  apply (send_proprietary_outcome (Session_init Level2 0x10 253)
           [0xE8; 0x9D; 1; 2; 0; 255; 255; 255] 3).
  reflexivity.
Defined.

(** X21: [send_enumerate_request] ignores both the target of the session
    and its own priority argument: on a working bus it sends one frame
    with the enumerate request payload, the proprietary PGN, destination
    0xFF (broadcast) and priority 6. *)
Theorem enumerate_request_is_broadcast (s : Session) (b : Bus) (priority : Z) :
  bus s = Some b -> tx_ok b = true ->
  exists m,
    send_enumerate_request s priority
    = Ok (set_bus s (Some {| tx_ok := true; sent := sent b ++ [m] |}))
    /\ data m = [0xE8; 0x9D; 128; 0; 0xFF; 0xFF; 0xFF; 0xFF]
    /\ normalized_pgn m = PGN_PROPRIETARY_SINGLE_FRAME
    /\ source_of m = Z.land (source_address s) 0xFF
    /\ Z.land (Z.shiftr (arbitration_id m) 8) 0xFF = 0xFF
    /\ Z.land (Z.shiftr (arbitration_id m) 26) 0x07 = 6.
Proof.
  intros Hb Htx. unfold send_enumerate_request, send_raw.
  change (create_enumerate_request_message (source_address s) 255)
    with (Ok (calculate_pgn_can_id PGN_PROPRIETARY_SINGLE_FRAME 6
                (source_address s) 255,
              [0xE8; 0x9D; 128; 0; 0xFF; 0xFF; 0xFF; 0xFF])).
  rewrite bind_Ok. cbn [fst snd]. rewrite Hb, Htx.
  eexists. split; [reflexivity |].
  cbn [data arbitration_id]. split; [reflexivity |].
  split; [rewrite can_id_normalized_pgn; reflexivity |].
  split; [apply can_id_source |].
  split; [by rewrite can_id_destination | by rewrite can_id_priority].
Qed.

Lemma enumerate_request_is_broadcast_witness :
  exists m,
    send_enumerate_request
      (set_bus (Session_init Level1 0x10 253)
               (Some {| tx_ok := true; sent := [] |})) 2
    = Ok (set_bus (Session_init Level1 0x10 253)
                  (Some {| tx_ok := true; sent := [m] |}))
    /\ Z.land (Z.shiftr (arbitration_id m) 8) 0xFF = 0xFF
    /\ Z.land (Z.shiftr (arbitration_id m) 26) 0x07 = 6.
Proof.
  destruct (enumerate_request_is_broadcast
              (set_bus (Session_init Level1 0x10 253)
                       (Some {| tx_ok := true; sent := [] |}))
              {| tx_ok := true; sent := [] |} 2 eq_refl eq_refl)
    as (m & Hrun & _ & _ & _ & Hdst & Hprio).
  exists m. split; [exact Hrun | split; [exact Hdst | exact Hprio]].
Defined.

Lemma range_checked_run_ok (c : EncodeCall) :
  range_checked c = true ->
  exists payload, run_encode c = Ok payload /\ length payload = 8%nat.
Proof.
  intros Hc.
  destruct c; try discriminate Hc; cbn [run_encode];
    unfold encode_outch_pli_t2hsb, encode_outch_pli_t2rgb,
      encode_outch_pli_t2hs, encode_outch_pli_t2b, encode_outch_pli_t2bd,
      encode_outch_pli_t2p, encode_outch_status_request,
      encode_enumerate_request.
  all: try change (Z.shiftl 15 4) with 240.
  all: try (rewrite _pack_pli_common_ok
              by (first [lia | apply land_byte_range
                         | apply land_mask_byte; lia
                         | apply lor_byte;
                           first [apply land_mask_byte; lia
                                 | apply shiftl_nibble_byte | lia]]);
            eexists; split; reflexivity).
  - rewrite lumitec_header_ok, bind_Ok.
    rewrite pack_Bs_ok by (repeat constructor; lia).
    eexists; split; reflexivity.
  - eexists; split; reflexivity.
Qed.

Ltac sends_by c :=
  let p := fresh "p" in
  let Hp := fresh "Hp" in
  let Hl := fresh "Hl" in
  destruct (range_checked_run_ok c eq_refl) as (p & Hp & Hl);
  cbn [run_encode] in Hp; exists p; split; [exact Hl |];
  rewrite Hp; reflexivity.

(** X22: the Level 0 PLI methods and [request_channel_status] never fail
    because of their arguments: for any integers each of them encodes an
    8-byte payload and hands it to [send_proprietary] with the given
    priority, so the only errors they can raise are those of the
    transport. *)
Theorem level0_pli_methods_always_send
    (s : Session) (ch a b c clan tr priority : Z) :
  sends_eight_bytes s priority (send_pli_t2hsb s ch a b c clan tr priority)
  /\ sends_eight_bytes s priority (send_pli_t2rgb s ch a b c clan tr priority)
  /\ sends_eight_bytes s priority (send_pli_t2hs s ch a b clan tr priority)
  /\ sends_eight_bytes s priority (send_pli_t2b s ch a clan tr priority)
  /\ sends_eight_bytes s priority (send_pli_t2bd s ch a clan tr priority)
  /\ sends_eight_bytes s priority (send_pli_t2p s ch a clan tr priority)
  /\ sends_eight_bytes s priority (request_channel_status s ch priority).
Proof.
  unfold sends_eight_bytes, send_pli_t2hsb, send_pli_t2rgb, send_pli_t2hs,
    send_pli_t2b, send_pli_t2bd, send_pli_t2p, request_channel_status.
  split; [sends_by (Call_outch_pli_t2hsb ch a b c clan tr) |].
  split; [sends_by (Call_outch_pli_t2rgb ch a b c clan tr) |].
  split; [sends_by (Call_outch_pli_t2hs ch a b clan tr) |].
  split; [sends_by (Call_outch_pli_t2b ch a clan tr) |].
  split; [sends_by (Call_outch_pli_t2bd ch a clan tr) |].
  split; [sends_by (Call_outch_pli_t2p ch a clan tr) |].
  sends_by (Call_outch_status_request ch).
Qed.

Lemma simple_action_payload (sw act : Z) :
  0 <= act <= 255 ->
  encode_vsw_simple_action sw act
  = if in_range 0 255 sw
    then Ok [0xE8; 0x9D; 1; act; sw; 0xFF; 0xFF; 0xFF]
    else Raise StructError.
Proof.
  intros Ha. unfold encode_vsw_simple_action, _pack_vsw_common.
  rewrite lumitec_header_ok, bind_Ok. cbn [pack_Bs].
  rewrite (pack_B_ok act Ha), bind_Ok. unfold pack_B.
  destruct (in_range 0 255 sw); reflexivity.
Qed.

(** X23: the Level 2 methods built on the simple action message do not
    mask, clamp or check the switch id: for an id in 0..255 they send
    header, action id, the id itself and three 0xFF bytes with priority
    3; for any other id they raise [struct.error] before the bus is
    touched, connected or not. *)
Theorem level2_simple_action_methods (s : Session) (sw : Z) :
  let act a :=
    if in_range 0 255 sw
    then send_proprietary s [0xE8; 0x9D; 1; a; sw; 0xFF; 0xFF; 0xFF] 3
    else Raise StructError in
  turn_on s sw = act 2
  /\ turn_off s sw = act 1
  /\ toggle s sw = act 32
  /\ dim_up s sw = act 4
  /\ dim_down s sw = act 3
  /\ pause_pocofx s sw = act 7
  /\ query_switch_state s sw = act 0.
Proof.
  cbv zeta.
  unfold turn_on, turn_off, toggle, dim_up, dim_down, pause_pocofx,
    query_switch_state, create_vsw_turn_on_message,
    create_vsw_turn_off_message, encode_vsw_state_query.
  cbn [VSwAction_value].
  rewrite !simple_action_payload by lia.
  destruct (in_range 0 255 sw); repeat split; reflexivity.
Qed.

(** X24: the Level 2 colour methods never fail because of their
    arguments: [set_color], [send_vsw_rgb] and [start_pocofx] reduce
    every argument modulo 256 (the switch of [start_pocofx] with bit 1
    cleared as well) and send the resulting payload, so hue 256 is sent
    as hue 0. *)
Theorem level2_colour_methods_wrap
    (s : Session) (sw x y z priority : Z) :
  set_color s sw x y z
  = send_proprietary s
      [0xE8; 0x9D; 3; 8; Z.land sw 0xFF; Z.land x 0xFF; Z.land y 0xFF;
       Z.land z 0xFF] 3
  /\ send_vsw_rgb s sw x y z priority
     = send_proprietary s
         [0xE8; 0x9D; 5; 11; Z.land sw 0xFF; Z.land x 0xFF; Z.land y 0xFF;
          Z.land z 0xFF] priority
  /\ start_pocofx s sw x
     = send_proprietary s
         [0xE8; 0x9D; 4; 6; Z.land sw 0xFD; Z.land x 0xFF; 0xFF; 0xFF] 3.
Proof.
  unfold set_color, send_vsw_rgb, start_pocofx, encode_vsw_hsb,
    encode_vsw_custom_rgb, encode_vsw_pocofx_start.
  cbn [HSBAction_value VSwAction_value].
  rewrite !_pack_vsw_common_ok
    by (repeat constructor;
        first [lia | apply land_byte_range | apply land_mask_byte; lia]).
  repeat split; reflexivity.
Qed.

(** X25: [encode_vsw_pocofx_start] and [encode_outch_pli_t2p] clear bit
    1 of the switch id and of the pattern id: the byte they send never
    has bit 1 set, so switch 2 is sent as switch 0 and pattern 2 as
    pattern 0, while an id in 0..253 whose bit 1 is clear is sent
    unchanged. *)
Theorem bit1_is_cleared (sw fx ch pattern clan tr : Z) :
  exists p q,
    encode_vsw_pocofx_start sw fx = Ok p
    /\ encode_outch_pli_t2p ch pattern clan tr = Ok q
    /\ byte_at p 4 = Z.land sw 0xFD
    /\ byte_at q 6 = Z.land (clamp 0 253 pattern) 0xFD
    /\ Z.testbit (byte_at p 4) 1 = false
    /\ Z.testbit (byte_at q 6) 1 = false
    /\ (0 <= sw <= 253 -> Z.testbit sw 1 = false -> byte_at p 4 = sw)
    /\ (0 <= pattern <= 253 -> Z.testbit pattern 1 = false ->
        byte_at q 6 = pattern).
Proof.
  assert (forall x, 0 <= x <= 255 -> Z.testbit x 1 = false ->
                    Z.land x 0xFD = x) as Hkeep.
  { intros x Hx Hbit. rewrite <- (land_byte_small x Hx) at 2.
    apply Z.bits_inj'. intros n Hn. rewrite !Z.land_spec.
    destruct (Z.eqb_spec n 1) as [->|Hne];
      [rewrite Hbit; reflexivity |].
    f_equal. change 253 with (Z.ldiff (Z.ones 8) (2 ^ 1)).
    change 255 with (Z.ones 8).
    rewrite Z.ldiff_spec, Z.pow2_bits_eqb by lia.
    destruct (Z.eqb_spec 1 n); [lia |]. apply andb_true_r. }
  unfold encode_vsw_pocofx_start, encode_outch_pli_t2p.
  fold (clamp 0 253 pattern). cbn [VSwAction_value].
  rewrite _pack_vsw_common_ok
    by (repeat constructor;
        first [lia | apply land_byte_range | apply land_mask_byte; lia]).
  rewrite _pack_pli_common_ok by (first [lia | apply land_mask_byte; lia]).
  eexists. eexists. split; [reflexivity |]. split; [reflexivity |].
  unfold byte_at. cbn [nth].
  split; [reflexivity |]. split; [reflexivity |].
  split; [rewrite Z.land_spec; apply andb_false_r |].
  split; [rewrite Z.land_spec; apply andb_false_r |].
  split.
  - intros Hsw Hbit. apply Hkeep; [lia | assumption].
  - intros Hp Hbit. unfold clamp. rewrite Z.min_r, Z.max_r by lia.
    apply Hkeep; [lia | assumption].
Qed.

(** X26: [query_switch_bank] raises ValueError for a bank outside
    0..255, before the bus is touched; otherwise it sends, under the
    binary switch status PGN 127501, the bank byte followed by seven 0xFF
    bytes - a payload that the status decoder reads as bank [bank] with
    all 28 switches unavailable. *)
Theorem query_switch_bank_frame (s : Session) (bank priority : Z) :
  query_switch_bank s bank priority
  = (if in_range 0 255 bank
     then send_raw s
            (calculate_pgn_can_id PGN_BINARY_SWITCH_STATUS priority
               (source_address s) (poco_address s))
            (bank :: replicate 7 0xFF) priority
     else Raise ValueError)
  /\ raw_pgn_of
       (mkMessage (calculate_pgn_can_id PGN_BINARY_SWITCH_STATUS priority
                     (source_address s) (poco_address s))
                  (bank :: replicate 7 0xFF))
     = PGN_BINARY_SWITCH_STATUS
  /\ decode_binary_states (bank :: replicate 7 0xFF) = replicate 28 3.
Proof.
  split; [| split].
  - unfold query_switch_bank, bytes_of_list. cbn [app replicate forallb].
    change (in_range 0 255 255) with true. rewrite !andb_true_r.
    destruct (in_range 0 255 bank); reflexivity.
  - unfold raw_pgn_of. cbn [arbitration_id]. rewrite can_id_raw_pgn.
    reflexivity.
  - reflexivity.
Qed.

(** ** Level 1 and Level 2 argument handling *)

Lemma bank_step_length (acc : list Z) (item : Z * option bool) :
  length (bank_step acc item) = length acc.
Proof.
  destruct item as [sw [[|]|]]; unfold bank_step;
    destruct (in_range 0 27 sw); rewrite ?length_insert; reflexivity.
Qed.

Lemma bank_step_other (acc : list Z) (sw k : Z) (state : option bool) :
  sw <> k -> 0 <= k ->
  bank_step acc (sw, state) !! Z.to_nat k = acc !! Z.to_nat k.
Proof.
  intros Hne Hk. unfold bank_step, in_range.
  destruct (Z.leb_spec 0 sw); cbn [andb]; [| reflexivity].
  destruct (sw <=? 27); [| reflexivity].
  destruct state as [[|]|]; try reflexivity;
    apply list_lookup_insert_ne; lia.
Qed.

Lemma bank_fold_lookup (switches : list (Z * option bool)) (acc : list Z)
    (k : Z) :
  NoDup (switches.*1) -> length acc = 28%nat -> 0 <= k <= 27 ->
  foldl bank_step acc switches !! Z.to_nat k
  = match (list_to_map switches : gmap Z (option bool)) !! k with
    | Some (Some true) => Some 1
    | Some (Some false) => Some 0
    | _ => acc !! Z.to_nat k
    end.
Proof.
  intros Hnd Hlen Hk. revert acc Hlen.
  induction switches as [|[sw state] rest IH]; intros acc Hlen.
  - cbn. rewrite lookup_empty. reflexivity.
  - cbn [foldl]. rewrite list_to_map_cons. cbn [fmap list_fmap fst] in Hnd.
    apply NoDup_cons in Hnd as [Hfresh Hnd].
    rewrite (IH Hnd) by (by rewrite bank_step_length).
    destruct (decide (sw = k)) as [->|Hne].
    + rewrite lookup_insert_eq.
      rewrite (not_elem_of_list_to_map_1 _ _ Hfresh).
      unfold bank_step, in_range.
      replace ((0 <=? k) && (k <=? 27)) with true
        by (symmetry; apply andb_true_iff; split; apply Z.leb_le; lia).
      destruct state as [[|]|]; try reflexivity;
        apply list_lookup_insert_eq; lia.
    + rewrite lookup_insert_ne by assumption.
      rewrite bank_step_other by lia. reflexivity.
Qed.

(** X27: the list that [set_switch_bank] builds from its dict always
    has 28 entries; for a dict (distinct keys) its entry at a position
    0..27 is 1 where the dict maps that switch to True, 0 where it maps
    it to False and 3 ("no change") where it maps it to None or does not
    list it; keys outside 0..27 are ignored. *)
Theorem bank_states_lookup (switches : list (Z * option bool)) (k : Z) :
  NoDup (switches.*1) -> 0 <= k <= 27 ->
  length (bank_states switches) = 28%nat
  /\ bank_states switches !! Z.to_nat k
     = Some (tri_state ((list_to_map switches : gmap Z (option bool)) !! k)).
Proof.
  intros Hnd Hk. split; [apply bank_states_length |].
  change (bank_states switches) with (foldl bank_step (replicate 28 3) switches).
  rewrite (bank_fold_lookup switches (replicate 28 3) k Hnd eq_refl Hk).
  rewrite lookup_replicate_2 by lia.
  destruct (_ !! k) as [[[|]|]|]; reflexivity.
Qed.

Lemma bank_states_lookup_witness :
  length (bank_states [(0, Some true); (1, Some false); (2, None); (40, Some true)])
  = 28%nat
  /\ bank_states [(0, Some true); (1, Some false); (2, None); (40, Some true)]
       !! Z.to_nat 1
     = Some (tri_state
               ((list_to_map
                   [(0, Some true); (1, Some false); (2, None); (40, Some true)]
                 : gmap Z (option bool)) !! 1)).
Proof.
  apply (bank_states_lookup
           [(0, Some true); (1, Some false); (2, None); (40, Some true)] 1).
  - apply (bool_decide_unpack _). vm_compute. reflexivity.
  - lia.
Defined.

(** X28: [delta_brightness] has three regimes, decided before the bus is
    touched: a delta outside -128..127 raises ValueError (and nothing
    else does); a delta in 0..127 sends header, action 5, the switch id
    modulo 256, the delta and two 0xFF bytes with priority 3; a delta in
    -128..-1 raises [struct.error], because the signed value is packed
    as an unsigned byte. *)
Theorem delta_brightness_regimes (s : Session) (sw delta : Z) :
  (delta_brightness s sw delta = Raise ValueError
   <-> ~ (-128 <= delta <= 127))
  /\ (0 <= delta <= 127 ->
      delta_brightness s sw delta
      = send_proprietary s
          [0xE8; 0x9D; 6; 5; Z.land sw 0xFF; delta; 0xFF; 0xFF] 3)
  /\ (-128 <= delta < 0 -> delta_brightness s sw delta = Raise StructError).
Proof.
  split; [apply delta_brightness_ValueError_iff |].
  split; [| apply delta_brightness_negative].
  intros Hd. unfold delta_brightness, in_range.
  replace ((-128 <=? delta) && (delta <=? 127)) with true
    by (symmetry; apply andb_true_iff; split; apply Z.leb_le; lia).
  cbn [negb]. unfold encode_vsw_delta_brightness.
  rewrite Z.min_r, Z.max_r by lia. cbn [VSwAction_value].
  rewrite _pack_vsw_common_ok
    by (repeat constructor; first [lia | apply land_byte_range]).
  reflexivity.
Qed.

(** ** Further instances *)

Lemma decode_binary_states_shape_witness :
  decode_binary_states [2] = replicate 28 3.
Proof.
  destruct (decode_binary_states_shape [2]) as (_ & _ & _ & H).
  apply H. simpl. lia.
Defined.

Lemma bit1_is_cleared_witness :
  exists p q,
    encode_vsw_pocofx_start 2 5 = Ok p
    /\ encode_outch_pli_t2p 1 4 0 0 = Ok q
    /\ byte_at p 4 = 0
    /\ byte_at q 6 = 4.
Proof.
  destruct (bit1_is_cleared 2 5 1 4 0 0)
    as (p & q & Hp & Hq & Hsw & _ & _ & _ & _ & Hkeep).
  exists p, q. split; [exact Hp |]. split; [exact Hq |].
  split; [rewrite Hsw; reflexivity |].
  apply Hkeep; [lia | reflexivity].
Defined.

Lemma delta_brightness_regimes_witness :
  delta_brightness level2_connected 0 5
  = send_proprietary level2_connected
      [0xE8; 0x9D; 6; 5; Z.land 0 0xFF; 5; 0xFF; 0xFF] 3
  /\ delta_brightness level2_connected 0 (-5) = Raise StructError
  /\ delta_brightness level2_connected 0 200 = Raise ValueError.
Proof.
  destruct (delta_brightness_regimes level2_connected 0 5) as (_ & Hpos & _).
  destruct (delta_brightness_regimes level2_connected 0 (-5)) as (_ & _ & Hneg).
  destruct (delta_brightness_regimes level2_connected 0 200) as (Hval & _).
  split; [apply Hpos; lia |].
  split; [apply Hneg; lia |].
  apply Hval. lia.
Defined.

Lemma handle_message_drops_foreign_witness :
  _handle_message level1_target_0x10 0
    (mkMessage 0x0CEFFF20 [0xE8; 0x9D; 2; 5; 0x11; 85; 255; 200])
  = (level1_target_0x10, []).
Proof.
  apply handle_message_drops_foreign.
  - reflexivity.
  - reflexivity.
  - intros cbs m _. discriminate.
Defined.

Lemma send_binary_switch_control_sends_witness :
  exists payload,
    encode_binary_switch_control 1 bank1_states = Ok payload
    /\ send_binary_switch_control
         (set_bus level1_target_0x10 (Some {| tx_ok := true; sent := [] |}))
         1 bank1_states
       = Ok (set_bus
               (set_bus level1_target_0x10
                        (Some {| tx_ok := true; sent := [] |}))
               (Some {| tx_ok := true;
                        sent := [] ++
                          [mkMessage
                             (calculate_pgn_can_id PGN_BINARY_SWITCH_CONTROL 3
                                253 0x10)
                             payload] |})).
Proof.
  apply (send_binary_switch_control_sends
           (set_bus level1_target_0x10 (Some {| tx_ok := true; sent := [] |}))
           {| tx_ok := true; sent := [] |} 1 bank1_states);
    reflexivity.
Defined.
